(** * FUB BEMS: the power simulation engine of [simulate_data.py] and the
    web application of [app_bems.py]

    A shallow embedding of the simulation core (occupancy rotation, power
    model, building aggregation, history synthesis, derived metrics) and of
    the application on top of it (monitoring switches, recording job,
    endpoints), and the proofs of their properties.

    Modelling conventions.
    - The simulated quantities (powers, voltages, currents) are random, and
      what is proved of them are bounds: their numbers ([int] and [float]
      alike) are exact rationals [Q], and [round(x, 2)] is rounding half to
      even at two decimals.  The derived metrics (daily energy, cost, CO2)
      are figures fixed to the hundredth by the last bit of a float
      product: they are computed in binary64, with the primitive floats,
      and [round(x, 2)] rounds the exact value of the float and takes the
      float nearest to that decimal.
    - A [datetime] is an integer number of microseconds since 0001-01-01
      00:00:00 on the local time line, a [timedelta] a difference of two of
      them; arithmetic that leaves the years 1 to 9999 raises
      [OverflowError], as the library does.
    - The module globals [OFFLINE_ROOMS] and [LAST_OFFLINE_UPDATE] are the
      fields of a [World] that every operation threads; an exception leaves
      the world as it was when it was raised.
    - The two ambient sources of the module, the system clock and the
      [random] generator, are streams fixed in advance: [clock n] is what the
      [n]-th call of [datetime.now] returns and [entropy n] the number the
      [n]-th draw of the generator yields, of which [random()] scales the
      low 53 bits and [randbelow(n)] takes the remainder modulo [n].
      [random.sample] is the algorithm of the library over [randbelow].
      Quantifying over both streams covers every outcome of the random draws
      and every timing of the calls.
    - [ROOM_CONFIG] and [SCHEDULES] are loaded from JSON files that are not
      part of the sources: they are parameters.  A [dict] preserves insertion
      order and has distinct keys, so the catalog is an association list
      whose keys are assumed distinct where that matters.
    - Of the web application [app_bems.py] the state is the two globals
      [MONITORING_ENABLED] and [ROOM_MONITORING] and the rows of the table
      [energy_readings]; an endpoint is a function to a 200 with its body, a
      404 or a 500 carrying the exception its [try] caught.  Printing, the
      templates and the scheduler are not modelled, and the database
      statements are taken to succeed. *)

From Stdlib Require Import ZArith QArith Qround Qabs Qpower Lia Lqa Floats.
From stdpp Require Import base option list strings gmap.

(** ** Numbers *)

(** [max(a, b)] of Python: the first argument unless the second is greater. *)
Definition py_max (a b : Q) : Q := if Qlt_le_dec a b then b else a.

(** Nearest integer, ties to the even one. *)
Definition round_half_even (x : Q) : Z :=
  let f := Qfloor x in
  match (x - inject_Z f ?= 1 # 2)%Q with
  | Lt => f
  | Gt => (f + 1)%Z
  | Eq => if Z.even f then f else (f + 1)%Z
  end.

(** [round(x, 2)]. *)
Definition round2 (x : Q) : Q := (round_half_even (x * 100) # 100)%Q.

(** ** Binary64 *)

(** Decimal constants such as [0.05] stand for the float nearest to them, as
    in Python. *)
Set Warnings "-inexact-float".

(** The absolute value of a finite float, exactly; 0 for the others. *)
Definition magnitude (x : float) : Q :=
  match Prim2SF x with
  | S754_finite _ m e => (inject_Z (Zpos m) * Qpower 2 e)%Q
  | _ => 0%Q
  end.

(** The float nearest to a rational, ties to even: what reading a number of
    a JSON file or a decimal text gives, and what an int is as a float. *)
Definition to_float (q : Q) : float :=
  match Qnum q with
  | Z0 => 0%float
  | Zpos n =>
      SF2Prim (SFdiv prec emax (S754_finite false n 0) (S754_finite false (Qden q) 0))
  | Zneg n =>
      SF2Prim (SFdiv prec emax (S754_finite true n 0) (S754_finite false (Qden q) 0))
  end.

Definition of_int (n : Z) : float := to_float (inject_Z n).

(** [round(x, 2)] for a float: the exact value of [x] rounded to the nearest
    hundredth, ties to even, and the float nearest to that decimal, with the
    sign of [x]; an infinity or a NaN rounds to itself. *)
Definition float_round2 (x : float) : float :=
  if is_finite x then
    let r := to_float (round2 (magnitude x)) in
    if get_sign x then (- r)%float else r
  else x.

(** ** Data model *)

Inductive kind := ac | fan | light | projector | pc.

(** The five kinds, in the order the code adds them up. *)
Definition equipment_kinds : list kind := [ac; fan; light; projector; pc].

(** One entry of [room_config.json]. *)
Record RoomProfile := mkProfile {
  floor : Z;
  capacity : Z;
  equipment : kind -> Z;
  wattage : kind -> Q
}.

(** One entry of [schedules.json]; a key that is missing reads as [None]. *)
Record ScheduleEntry := mkSchedule {
  course_code : option string;
  course_name : option string;
  schedule : list string
}.

(** What [get_room_data] returns. *)
Record RoomReading := mkReading {
  rd_room_id : string;
  rd_power : Q;
  rd_current : Q;
  rd_voltage : Q;
  rd_is_active : bool;
  rd_status : string;
  rd_course_code : option string;
  rd_course_name : option string;
  rd_timestamp : Z
}.

(** What [get_building_summary] returns. *)
Record BuildingSummary := mkSummary {
  bs_rooms : list RoomReading;
  bs_total_power : Q;
  bs_active_rooms : Z;
  bs_total_rooms : nat;
  bs_timestamp : Z
}.

(** One point of [generate_historical_data].  The timestamp is the text
    [strftime('%Y-%m-%d %H:%M:%S')] prints, kept as the whole second it
    denotes. *)
Record HistoryPoint := mkPoint {
  hp_timestamp : Z;
  hp_power : Q;
  hp_current : Q;
  hp_voltage : Q;
  hp_is_active : bool
}.

(** ** Constants of the module *)

Definition BASE_VOLTAGE : Q := 220.
Definition VOLTAGE_VARIATION : Q := 5.
Definition AC_FLUCTUATION : Q := 15 # 100.
Definition FAN_FLUCTUATION : Q := 8 # 100.
Definition LIGHT_FLUCTUATION : Q := 5 # 100.
Definition DEVICE_FLUCTUATION : Q := 10 # 100.
Definition RANDOM_NOISE : Q := 20.

(** The float [0.85] of [random.random() < 0.85], exactly: both sides of
    the comparison are floats, and [0.85] is a little below 85/100. *)
Definition ACTIVE_SHARE : Q := 7656119366529843 # 9007199254740992.

(** Durations in microseconds. *)
Definition seconds (n : Z) : Z := (n * 1000000)%Z.
Definition minutes (n : Z) : Z := seconds (n * 60).

(** The last instant a [datetime] can hold, 9999-12-31 23:59:59.999999: that
    day is day 3652059 of the calendar. *)
Definition datetime_max : Z := (3652059 * 86400 * 1000000 - 1)%Z.

Definition representable (t : Z) : bool :=
  (0 <=? t)%Z && (t <=? datetime_max)%Z.

(** 2026-11-05 12:00:00, day 739925 of the calendar. *)
Definition noon : Z := ((739924 * 86400 + 12 * 3600) * 1000000)%Z.

(** The whole second a formatted timestamp shows. *)
Definition strftime (t : Z) : Z := (t / 1000000)%Z.

(** ** The room of the specification's scenario *)

Definition R1 : RoomProfile :=
  mkProfile 1 40
    (fun k => match k with
              | ac => 1 | fan => 2 | light => 4 | projector => 1 | pc => 1
              end)%Z
    (fun k => match k with
              | ac => 1500 | fan => 60 | light => 40 | projector => 150 | pc => 200
              end)%Q.

(** A room of 2190 W, the scenario's with a third fan, and a room with one
    light of 18.75 W and nothing else. *)
Definition R2 : RoomProfile :=
  mkProfile 2 40
    (fun k => match k with
              | ac => 1 | fan => 3 | light => 4 | projector => 1 | pc => 1
              end)%Z
    (wattage R1).

Definition L1 : RoomProfile :=
  mkProfile 0 1
    (fun k => match k with light => 1 | _ => 0 end)%Z
    (fun k => match k with light => 1875 # 100 | _ => 0 end)%Q.

(** A catalog with that one room, as in the scenario, and a catalog of seven
    rooms of the same profile. *)
Definition scenario_catalog : list (string * RoomProfile) := [("R1"%string, R1)].

Definition sample_catalog : list (string * RoomProfile) :=
  map (fun room_id => (room_id, R1))
    ["101"; "102"; "103"; "104"; "105"; "106"; "107"]%string.

(** A catalog of seven rooms with the two rooms above among them. *)
Definition tie_catalog : list (string * RoomProfile) :=
  [("201", R2); ("202", L1); ("203", R1); ("204", R1); ("205", R1); ("206", R1);
   ("207", R1)]%string.

(** A generator whose [n]-th draw is [n]. *)
Definition sample_entropy (n : nat) : N := N.of_nat n.

(** A clock that stands still at noon. *)
Definition still_clock (n : nat) : Z := noon.

(** A clock that shows noon for its first 15 readings (one building summary
    of seven rooms), exactly 600 seconds later for the next four, and one
    microsecond more from then on. *)
Definition crossing_clock (n : nat) : Z :=
  if (n <? 15)%nat then noon
  else if (n <? 19)%nat then (noon + 600 * 1000000)%Z
  else (noon + 600 * 1000000 + 1)%Z.

(** ** The world, and computations in it *)

Record World := mkWorld {
  OFFLINE_ROOMS : list string;
  LAST_OFFLINE_UPDATE : option Z;
  rng_pos : nat;
  clock_pos : nat
}.

(** The module as imported: nothing offline, never refreshed. *)
Definition initial_world : World := mkWorld [] None 0 0.

Inductive exn :=
| KeyError (key : string)
| ValueError
| IndexError
| ZeroDivisionError
| OverflowError.

Inductive outcome (A : Type) :=
| Return (a : A)
| Raise (e : exn).
Arguments Return {A} a.
Arguments Raise {A} e.

Definition M (A : Type) : Type := World -> outcome A * World.

Definition ret {A} (a : A) : M A := fun w => (Return a, w).
Definition raise {A} (e : exn) : M A := fun w => (Raise e, w).
Definition bind {A B} (m : M A) (k : A -> M B) : M B :=
  fun w => match m w with
           | (Return a, w') => k a w'
           | (Raise e, w') => (Raise e, w')
           end.

Declare Scope py_scope.
Delimit Scope py_scope with py.
Notation "'let*' x ':=' m 'in' k" := (bind m (fun x => k))
  (at level 10, x name, m at level 100, k at level 200) : py_scope.
Notation "m ';;' k" := (bind m (fun _ => k))
  (at level 100, k at level 200, right associativity) : py_scope.
Local Open Scope py_scope.

(** The occupancy state: what [OFFLINE_ROOMS] and [LAST_OFFLINE_UPDATE] hold. *)
Definition occupancy (w : World) : list string * option Z :=
  (OFFLINE_ROOMS w, LAST_OFFLINE_UPDATE w).

Definition set_occupancy (off : list string) (last : option Z) (w : World) : World :=
  mkWorld off last (rng_pos w) (clock_pos w).

(** The world after [draws] more draws and [readings] more clock readings. *)
Definition spend (draws readings : nat) (w : World) : World :=
  mkWorld (OFFLINE_ROOMS w) (LAST_OFFLINE_UPDATE w)
    (draws + rng_pos w) (readings + clock_pos w).

(** Reading and assigning the two globals. *)
Definition get_OFFLINE_ROOMS : M (list string) :=
  fun w => (Return (OFFLINE_ROOMS w), w).
Definition get_LAST_OFFLINE_UPDATE : M (option Z) :=
  fun w => (Return (LAST_OFFLINE_UPDATE w), w).
Definition set_OFFLINE_ROOMS (v : list string) : M unit :=
  fun w => (Return tt, set_occupancy v (LAST_OFFLINE_UPDATE w) w).
Definition set_LAST_OFFLINE_UPDATE (v : option Z) : M unit :=
  fun w => (Return tt, set_occupancy (OFFLINE_ROOMS w) v w).

(** A computation that neither reads nor assigns the occupancy state: run
    with any other occupancy state it gives the same outcome and leaves that
    state as it found it. *)
Definition oblivious {A} (m : M A) : Prop :=
  forall offline last w,
    m (set_occupancy offline last w) =
    (fst (m w), set_occupancy offline last (snd (m w))).

(** [t - delta] for a [datetime] and a [timedelta]: the result must be a
    [datetime] again. *)
Definition datetime_sub (t delta : Z) : M Z :=
  if representable (t - delta) then ret (t - delta)%Z else raise OverflowError.

Section Simulation.

(** The loaded configuration, the clock and the generator. *)
Variable ROOM_CONFIG : list (string * RoomProfile).
Variable SCHEDULES : gmap string ScheduleEntry.
Variable clock : nat -> Z.
Variable entropy : nat -> N.

(** [ROOM_CONFIG.keys()], in catalog order. *)
Definition room_ids : list string := map fst ROOM_CONFIG.

(** [ROOM_CONFIG.get(room_id)]. *)
Fixpoint dict_get {V} (d : list (string * V)) (key : string) : option V :=
  match d with
  | [] => None
  | (k, v) :: rest => if String.eqb k key then Some v else dict_get rest key
  end.

(** [ROOM_CONFIG[room_id]]. *)
Definition dict_item {V} (d : list (string * V)) (key : string) : M V :=
  match dict_get d key with
  | Some v => ret v
  | None => raise (KeyError key)
  end.

(** [datetime.now(BD_TZ)]: the next reading of the clock. *)
Definition datetime_now : M Z :=
  fun w => (Return (clock (clock_pos w)), spend 0 1 w).

(** What the next call of [datetime.now] will return. *)
Definition now (w : World) : Z := clock (clock_pos w).

(** The next raw draw of the generator. *)
Definition draw : M N :=
  fun w => (Return (entropy (rng_pos w)), spend 1 0 w).

(** [random.random()]: 53 random bits scaled into [0, 1). *)
Definition two53 : N := 9007199254740992.
Definition unit_of_bits (r : N) : Q := (Z.of_N (r mod two53) # 9007199254740992)%Q.
Definition random_random : M Q := let* r := draw in ret (unit_of_bits r).

(** [random.uniform(a, b)] is [a + (b - a) * random()]. *)
Definition random_uniform (a b : Q) : M Q :=
  let* u := random_random in ret (a + (b - a) * u)%Q.

(** An index below [n]. *)
Definition randbelow (n : nat) : M nat :=
  let* r := draw in ret (N.to_nat (r mod N.of_nat n)).

(** [random.randint(a, b)]. *)
Definition random_randint (a b : Z) : M Z :=
  let* j := randbelow (Z.to_nat (b - a + 1)) in ret (a + Z.of_nat j)%Z.

(** [random.sample(population, k)], as the library has it.  Up to [setsize]
    elements the population is copied into a pool; above, the indices taken
    are kept in a set. *)

(** [setsize = 21; if k > 5: setsize += 4 ** _ceil(_log(k * 3, 4))]: the
    exponent is the least [e] with [3 * k <= 4 ^ e]. *)
Definition setsize (k : nat) : nat :=
  if (k <=? 5)%nat then 21
  else (21 + 4 ^ ((Nat.log2_up (k * 3) + 1) / 2))%nat.

(** The pool loop, from round [i] on:
    [j = randbelow(n - i); result[i] = pool[j]; pool[j] = pool[n - i - 1]],
    the last item that is left moving into the vacancy. *)
Fixpoint sample_pool {A} (n : nat) (pool : list A) (i rounds : nat) : M (list A) :=
  match rounds with
  | O => ret []
  | S rounds' =>
      let* j := randbelow (n - i) in
      match pool !! j, pool !! (n - i - 1)%nat with
      | Some x, Some last =>
          let* rest := sample_pool n (<[j := last]> pool) (S i) rounds' in
          ret (x :: rest)
      | _, _ => raise IndexError
      end
  end.

(** How often the model follows [while j in selected: j = randbelow(n)]
    before it stops redrawing. *)
Definition redraw_limit : nat := 1000.

(** The first index below [n] that is not selected. *)
Definition first_unselected (n : nat) (selected : list nat) : nat :=
  default 0%nat (head (filter (fun j => j ∉ selected) (seq 0 n))).

(** [while j in selected: j = randbelow(n)].  The loop of the library has no
    bound; on a stream that repeats selected indices [redraw_limit] times in
    a row the model stops following it and takes the first index that is
    free, so that it stays a total function of the stream. *)
Fixpoint redraw (patience n : nat) (selected : list nat) (j : nat) : M nat :=
  if bool_decide (j ∈ selected) then
    match patience with
    | O => ret (first_unselected n selected)
    | S patience' =>
        let* j' := randbelow n in redraw patience' n selected j'
    end
  else ret j.

(** The set loop:
    [j = randbelow(n); while j in selected: ...; selected_add(j);
     result[i] = population[j]]. *)
Fixpoint sample_set {A} (population : list A) (n : nat) (selected : list nat)
    (rounds : nat) : M (list A) :=
  match rounds with
  | O => ret []
  | S rounds' =>
      let* j := randbelow n in
      let* j := redraw redraw_limit n selected j in
      match population !! j with
      | Some x =>
          let* rest := sample_set population n (j :: selected) rounds' in
          ret (x :: rest)
      | None => raise IndexError
      end
  end.

(** It refuses a sample larger than the population before it draws. *)
Definition random_sample {A} (population : list A) (k : nat) : M (list A) :=
  let n := length population in
  if (n <? k)%nat then raise ValueError
  else if (n <=? setsize k)%nat then sample_pool n population 0 k
  else sample_set population n [] k.

(** ** Occupancy *)

(** The test of [update_offline_rooms]: never refreshed, or more than 600
    seconds since the last refresh. *)
Definition refresh_due (last : option Z) (current_time : Z) : bool :=
  match last with
  | None => true
  | Some t => (seconds 600 <? current_time - t)%Z
  end.

Definition update_offline_rooms : M unit :=
  let* current_time := datetime_now in
  let* last := get_LAST_OFFLINE_UPDATE in
  if refresh_due last current_time then
    let all_room_ids := room_ids in
    let* num_offline := random_randint 5 6 in
    let* offline := random_sample all_room_ids (Z.to_nat num_offline) in
    set_OFFLINE_ROOMS offline ;;
    set_LAST_OFFLINE_UPDATE (Some current_time)
  else ret tt.

(** The offline set was recomputed between [w] and [w']: after the reading
    of the clock a count was drawn with [randint(5, 6)], that many rooms
    were sampled from the catalog, and [w'] holds that sample as its offline
    set, stamped with the time read. *)
Definition recomputed (w w' : World) : Prop :=
  exists num_offline offline w1 w2,
    random_randint 5 6 (spend 0 1 w) = (Return num_offline, w1) /\
    random_sample room_ids (Z.to_nat num_offline) w1 = (Return offline, w2) /\
    w' = set_occupancy offline (Some (now w)) w2.

Definition is_room_active (room_id : string) : M bool :=
  update_offline_rooms ;;
  let* offline := get_OFFLINE_ROOMS in
  if bool_decide (room_id ∈ offline) then ret false else ret true.

(** ** Power *)

Definition calculate_equipment_power (equipment_type : kind) (base_wattage : Q)
    (count : Z) : M Q :=
  let fluctuation :=
    match equipment_type with
    | ac => AC_FLUCTUATION
    | fan => FAN_FLUCTUATION
    | light => LIGHT_FLUCTUATION
    | _ => DEVICE_FLUCTUATION
    end in
  let power := (base_wattage * inject_Z count)%Q in
  let* u := random_uniform (-1) 1 in
  let variation := (power * fluctuation * u)%Q in
  ret (power + variation)%Q.

Definition calculate_room_power (room_id : string) (is_active : bool) : M Q :=
  let* config := dict_item ROOM_CONFIG room_id in
  let equipment := equipment config in
  let wattage := wattage config in
  if negb is_active then
    let standby_power := (wattage pc * inject_Z (equipment pc) * (5 # 100))%Q in
    let standby_power := (standby_power + wattage light * 1 * (3 # 10))%Q in
    let* noise := random_uniform (- RANDOM_NOISE) RANDOM_NOISE in
    ret (py_max 10 (standby_power + noise))
  else
    let total_power := 0%Q in
    let* p := calculate_equipment_power ac (wattage ac) (equipment ac) in
    let total_power := (total_power + p)%Q in
    let* p := calculate_equipment_power fan (wattage fan) (equipment fan) in
    let total_power := (total_power + p)%Q in
    let* p := calculate_equipment_power light (wattage light) (equipment light) in
    let total_power := (total_power + p)%Q in
    let* p := calculate_equipment_power projector (wattage projector) (equipment projector) in
    let total_power := (total_power + p)%Q in
    let* p := calculate_equipment_power pc (wattage pc) (equipment pc) in
    let total_power := (total_power + p)%Q in
    let* noise := random_uniform (- RANDOM_NOISE) RANDOM_NOISE in
    let total_power := (total_power + noise)%Q in
    ret (py_max 100 total_power).

(** [power / voltage]: division by zero raises. *)
Definition py_div (a b : Q) : M Q :=
  if Qeq_bool b 0 then raise ZeroDivisionError else ret (a / b)%Q.

(** [current_time or datetime.now(BD_TZ)]. *)
Definition or_now (current_time : option Z) : M Z :=
  match current_time with
  | Some t => ret t
  | None => datetime_now
  end.

Definition get_room_data (room_id : string) (current_time : option Z) : M RoomReading :=
  let* is_active := is_room_active room_id in
  let* power := calculate_room_power room_id is_active in
  let* noise := random_uniform (- VOLTAGE_VARIATION) VOLTAGE_VARIATION in
  let voltage := (BASE_VOLTAGE + noise)%Q in
  let* current := py_div power voltage in
  let schedule := SCHEDULES !! room_id in
  let course_code := schedule ≫= course_code in
  let course_name := schedule ≫= course_name in
  let* timestamp := or_now current_time in
  ret (mkReading room_id (round2 power) (round2 current) (round2 voltage)
         is_active (if is_active then "ONLINE" else "OFFLINE")
         course_code course_name timestamp).

(** The readings flagged active. *)
Definition count_active (readings : list RoomReading) : Z :=
  Z.of_nat (length (filter (fun reading => rd_is_active reading = true) readings)).

(** The loop of [get_building_summary], with its three accumulators. *)
Fixpoint summary_loop (ids : list string) (current_time : option Z)
    (rooms : list RoomReading) (total_power : Q) (active_count : Z)
    : M (list RoomReading * Q * Z) :=
  match ids with
  | [] => ret (rooms, total_power, active_count)
  | room_id :: rest =>
      let* room_data := get_room_data room_id current_time in
      summary_loop rest current_time
        (rooms ++ [room_data])
        (total_power + rd_power room_data)%Q
        (if rd_is_active room_data then (active_count + 1)%Z else active_count)
  end.

Definition get_building_summary (current_time : option Z) : M BuildingSummary :=
  let* acc := summary_loop room_ids current_time [] 0%Q 0%Z in
  let '(rooms, total_power, active_count) := acc in
  let* timestamp := or_now current_time in
  ret (mkSummary rooms (round2 total_power) active_count (length ROOM_CONFIG) timestamp).

(** How many times [get_room_data] reads the clock: once for the occupancy
    check, once more for the timestamp when the caller passed none. *)
Definition readings_per_room (current_time : option Z) : nat :=
  match current_time with
  | Some _ => 1
  | None => 2
  end.

(** What [LAST_OFFLINE_UPDATE] holds once the next occupancy check is done. *)
Definition stamp_after_check (w : World) : Z :=
  match LAST_OFFLINE_UPDATE w with
  | Some t => if refresh_due (Some t) (now w) then now w else t
  | None => now w
  end.


(** ** History *)

(** The body of the loop of [generate_historical_data] for the indices
    [i, i+1, ...] of [n] more points. *)
Fixpoint history_loop (room_id : string) (current_time total_points : Z)
    (n : nat) (i : Z) (historical_data : list HistoryPoint) : M (list HistoryPoint) :=
  match n with
  | O => ret historical_data
  | S n' =>
      let interval_minutes := 5%Z in
      let* time_point :=
        datetime_sub current_time (minutes (interval_minutes * (total_points - i))) in
      let* r := random_random in
      let is_active := if Qlt_le_dec r ACTIVE_SHARE then true else false in
      let* power := calculate_room_power room_id is_active in
      let* noise := random_uniform (- VOLTAGE_VARIATION) VOLTAGE_VARIATION in
      let voltage := (BASE_VOLTAGE + noise)%Q in
      let* current := py_div power voltage in
      history_loop room_id current_time total_points n' (i + 1)%Z
        (historical_data ++
           [mkPoint (strftime time_point) (round2 power) (round2 current)
              (round2 voltage) is_active])
  end.

Definition generate_historical_data (room_id : string) (hours : Z) : M (list HistoryPoint) :=
  let* current_time := datetime_now in
  let interval_minutes := 5%Z in
  let total_points := (hours * 60 / interval_minutes)%Z in
  history_loop room_id current_time total_points (Z.to_nat total_points) 0%Z [].

(** ** Lookups and derived metrics *)

Definition get_room_config (room_id : string) : M (option RoomProfile) :=
  ret (dict_get ROOM_CONFIG room_id).

Definition get_room_schedule (room_id : string) : M (option ScheduleEntry) :=
  ret (SCHEDULES !! room_id).

(** The three metrics are figures rounded to two decimals, where the last
    bit of a product decides which hundredth it is: they are computed in
    binary64, as the code computes them.  The numbers of the catalog are
    read as floats; an int is its float, which is exact below 2^53. *)
Definition calculate_daily_energy (room_id : string) : M float :=
  let* config := dict_item ROOM_CONFIG room_id in
  let equipment := equipment config in
  let wattage := wattage config in
  let active_power := 0%float in
  let active_power :=
    (active_power + to_float (wattage ac) * of_int (equipment ac))%float in
  let active_power :=
    (active_power + to_float (wattage fan) * of_int (equipment fan))%float in
  let active_power :=
    (active_power + to_float (wattage light) * of_int (equipment light))%float in
  let active_power :=
    (active_power + to_float (wattage projector) * of_int (equipment projector))%float in
  let active_power :=
    (active_power + to_float (wattage pc) * of_int (equipment pc))%float in
  let active_hours := 8%float in
  let standby_hours := 16%float in
  let standby_power := (active_power * 0.05)%float in
  let daily_kwh :=
    ((active_power * active_hours + standby_power * standby_hours) / 1000)%float in
  ret (float_round2 daily_kwh).

Definition calculate_daily_cost (room_id : string) : M float :=
  let* kwh := calculate_daily_energy room_id in
  let cost := (kwh * 8.5)%float in
  ret (float_round2 cost).

Definition calculate_co2_saved (kwh : float) : float :=
  let co2 := (kwh * 0.71)%float in
  float_round2 co2.

(** ** Further readings of the code *)

(** The fluctuation fraction [calculate_equipment_power] picks for a kind. *)
Definition fluctuation_of (equipment_type : kind) : Q :=
  match equipment_type with
  | ac => AC_FLUCTUATION
  | fan => FAN_FLUCTUATION
  | light => LIGHT_FLUCTUATION
  | _ => DEVICE_FLUCTUATION
  end.

(** The standby power of an inactive room, before the noise: the PCs at 5%
    and one light at 30%. *)
Definition standby_power_of (p : RoomProfile) : Q :=
  (wattage p pc * inject_Z (equipment p pc) * (5 # 100) + wattage p light * 1 * (3 # 10))%Q.

(** The occupancy state once a refresh has happened: 5 or 6 catalog rooms
    offline, and a stamp. *)
Definition settled (w : World) : Prop :=
  (length (OFFLINE_ROOMS w) = 5 \/ length (OFFLINE_ROOMS w) = 6)%nat /\
  OFFLINE_ROOMS w ⊆+ room_ids /\
  is_Some (LAST_OFFLINE_UPDATE w).

(** The powers of the readings, added up. *)
Definition sum_power (readings : list RoomReading) : Q :=
  foldr (fun reading acc => (rd_power reading + acc)%Q) 0%Q readings.

(** A point whose values are plausible: the power at or above the floor of
    its flag, the voltage within 5 V of 220 V, a positive current. *)
Definition point_ok (point : HistoryPoint) : Prop :=
  (10 <= hp_power point)%Q /\
  (hp_is_active point = true -> (100 <= hp_power point)%Q) /\
  (215 <= hp_voltage point)%Q /\ (hp_voltage point <= 225)%Q /\
  (0 < hp_current point)%Q.

(** ** The web application ([app_bems.py]) *)

(** A row of the table [energy_readings]. *)
Record Row := mkRow {
  row_room_id : string;
  row_timestamp : Z;
  row_power : Q;
  row_current : Q;
  row_voltage : Q;
  row_kwh : Q;
  row_is_scheduled : Z;
  row_course : option string;
  row_status : string
}.

(** The state of the application: its two globals and the table of the
    database, which statements reach without failing. *)
Record App := mkApp {
  MONITORING_ENABLED : bool;
  ROOM_MONITORING : gmap string bool;
  energy_readings : list Row
}.

(** The module as it starts: monitoring enabled, no room registered, the
    table as the database file has it. *)
Definition initial_app (table : list Row) : App := mkApp true ∅ table.

(** [ROOM_MONITORING.get(room_id, True)]. *)
Definition monitoring_on (rm : gmap string bool) (room_id : string) : bool :=
  default true (rm !! room_id).

(** [sum(1 for v in ROOM_MONITORING.values() if v)]. *)
Definition monitored_count (rm : gmap string bool) : nat :=
  length (filter (fun entry => entry.2 = true) (map_to_list rm)).

Definition init_room_monitoring (app : App) : App :=
  mkApp (MONITORING_ENABLED app)
    (foldl (fun rm room_id => <[room_id := true]> rm) (ROOM_MONITORING app) room_ids)
    (energy_readings app).

(** The row [record_building_data] inserts for a reading. *)
Definition row_of (current_time : Z) (room : RoomReading) : Row :=
  let kwh := (rd_power room / 1000)%Q in
  mkRow (rd_room_id room) current_time (rd_power room) (rd_current room)
    (rd_voltage room) kwh (if rd_is_active room then 1 else 0)%Z
    (rd_course_name room) (rd_status room).

(** The loop of [record_building_data]: the rows inserted so far, not yet
    committed. *)
Fixpoint record_rooms (rm : gmap string bool) (current_time : Z)
    (rooms : list RoomReading) (inserted : list Row) : list Row :=
  match rooms with
  | [] => inserted
  | room :: rest =>
      if monitoring_on rm (rd_room_id room)
      then record_rooms rm current_time rest (inserted ++ [row_of current_time room])
      else record_rooms rm current_time rest inserted
  end.

(** The body is a [try] whose handler only prints: an exception ends the
    call before the commit. *)
Definition record_building_data (app : App) (w : World) : App * World :=
  if negb (MONITORING_ENABLED app) then (app, w)
  else
    match (let* current_time := datetime_now in
           let* building_summary := get_building_summary (Some current_time) in
           ret (current_time, building_summary)) w with
    | (Return (current_time, building_summary), w') =>
        (mkApp (MONITORING_ENABLED app) (ROOM_MONITORING app)
           (energy_readings app ++
              record_rooms (ROOM_MONITORING app) current_time
                (bs_rooms building_summary) []),
         w')
    | (Raise _, w') => (app, w')
    end.

(** What an endpoint answers: 200 with a body, 404 "Room not found", or 500
    with the exception its [try] caught. *)
Inductive failure :=
| CoreError (e : exn)
| AttributeError
| TypeError.

Inductive response (A : Type) :=
| OK (body : A)
| NotFound
| ServerError (e : failure).
#[global] Arguments OK {A} body.
#[global] Arguments NotFound {A}.
#[global] Arguments ServerError {A} e.

(** [try: ... except Exception as e: return jsonify(...), 500]. *)
Definition respond {A} (m : M (response A)) (w : World) : response A * World :=
  match m w with
  | (Return r, w') => (r, w')
  | (Raise e, w') => (ServerError (CoreError e), w')
  end.

Record BuildingStatus := mkBuildingStatus {
  st_timestamp : Z;
  st_monitoring_enabled : bool;
  st_total_power : Q;
  st_active_rooms : nat;
  st_total_rooms : nat;
  st_total_rooms_building : nat;
  st_daily_energy : float;
  st_daily_cost : float;
  st_co2_saved : float;
  st_rooms : list (RoomReading * bool)
}.

(** The loop that adds up the daily energy of the monitored rooms. *)
Fixpoint total_daily_energy (rm : gmap string bool) (ids : list string)
    (total_daily_kwh : float) : M float :=
  match ids with
  | [] => ret total_daily_kwh
  | room_id :: rest =>
      if monitoring_on rm room_id then
        let* kwh := calculate_daily_energy room_id in
        total_daily_energy rm rest (total_daily_kwh + kwh)%float
      else total_daily_energy rm rest total_daily_kwh
  end.

Definition get_building_status (app : App) : World -> response BuildingStatus * World :=
  respond
    (let rm := ROOM_MONITORING app in
     let* summary := get_building_summary None in
     let rooms :=
       map (fun room => (room, monitoring_on rm (rd_room_id room))) (bs_rooms summary) in
     let monitored_active_rooms :=
       length (filter (fun room => rd_is_active room = true /\
                                   monitoring_on rm (rd_room_id room) = true)
                 (bs_rooms summary)) in
     let total_monitored_rooms := monitored_count rm in
     let* total_daily_kwh := total_daily_energy rm room_ids 0%float in
     let total_daily_cost := (total_daily_kwh * 8.5)%float in
     let co2_saved := calculate_co2_saved total_daily_kwh in
     ret (OK (mkBuildingStatus (bs_timestamp summary) (MONITORING_ENABLED app)
                (bs_total_power summary) monitored_active_rooms total_monitored_rooms
                40 (float_round2 total_daily_kwh) (float_round2 total_daily_cost)
                co2_saved rooms))).

Record RoomStatus := mkRoomStatus {
  rs_reading : RoomReading;
  rs_daily_energy : float;
  rs_daily_cost : float;
  rs_monitoring_enabled : bool
}.

Definition get_room_status (app : App) (room_id : string)
    : World -> response RoomStatus * World :=
  respond
    (match dict_get ROOM_CONFIG room_id with
     | None => ret NotFound
     | Some _ =>
         let* room_data := get_room_data room_id None in
         let* daily_kwh := calculate_daily_energy room_id in
         let* daily_cost := calculate_daily_cost room_id in
         ret (OK (mkRoomStatus room_data daily_kwh daily_cost
                    (monitoring_on (ROOM_MONITORING app) room_id)))
     end).

Record RoomHistory := mkRoomHistory {
  rh_room_id : string;
  rh_data_points : nat;
  rh_data : list HistoryPoint
}.

(** [hours_arg] is the query parameter [hours] when the request has one that
    reads as an integer; [request.args.get] falls back to 24 otherwise. *)
Definition get_room_history (room_id : string) (hours_arg : option Z)
    : World -> response RoomHistory * World :=
  respond
    (match dict_get ROOM_CONFIG room_id with
     | None => ret NotFound
     | Some _ =>
         let hours := default 24%Z hours_arg in
         let* historical_data := generate_historical_data room_id hours in
         ret (OK (mkRoomHistory room_id (length historical_data) historical_data))
     end).

Record RoomSchedule := mkRoomSchedule {
  sc_room_id : string;
  sc_course_code : option string;
  sc_course_name : option string;
  sc_schedule : list string
}.

(** The endpoint [/api/room/<room_id>/schedule]; calling [.get] on the [None]
    of a room without a schedule entry raises [AttributeError]. *)
Definition app_get_room_schedule (room_id : string)
    : World -> response RoomSchedule * World :=
  fun w =>
    match dict_get ROOM_CONFIG room_id with
    | None => (NotFound, w)
    | Some _ =>
        match get_room_schedule room_id w with
        | (Return (Some entry), w') =>
            (OK (mkRoomSchedule room_id (course_code entry) (course_name entry)
                   (schedule entry)), w')
        | (Return None, w') => (ServerError AttributeError, w')
        | (Raise e, w') => (ServerError (CoreError e), w')
        end
    end.

(** The endpoint [/api/room/<room_id>/config]; subscripting a [None]
    raises [TypeError]. *)
Definition app_get_room_config (room_id : string)
    : World -> response (string * RoomProfile) * World :=
  fun w =>
    match dict_get ROOM_CONFIG room_id with
    | None => (NotFound, w)
    | Some _ =>
        match get_room_config room_id w with
        | (Return (Some config), w') => (OK (room_id, config), w')
        | (Return None, w') => (ServerError TypeError, w')
        | (Raise e, w') => (ServerError (CoreError e), w')
        end
    end.

Definition toggle_monitoring (app : App) : response bool * App :=
  let enabled := negb (MONITORING_ENABLED app) in
  (OK enabled, mkApp enabled (ROOM_MONITORING app) (energy_readings app)).

(** What the room toggle answers: the new status and the count of rooms
    monitored. *)
Definition toggle_room_monitoring (app : App) (room_id : string)
    : response (bool * nat) * App :=
  match dict_get ROOM_CONFIG room_id with
  | None => (NotFound, app)
  | Some _ =>
      let current_status := monitoring_on (ROOM_MONITORING app) room_id in
      let rm := <[room_id := negb current_status]> (ROOM_MONITORING app) in
      let new_status := negb current_status in
      let monitored_count := monitored_count rm in
      (OK (new_status, monitored_count),
       mkApp (MONITORING_ENABLED app) rm (energy_readings app))
  end.

(** The switches are those of the catalog rooms: every catalog room has an
    entry in [ROOM_MONITORING] and no other key has. *)
Definition switches_of_catalog (app : App) : Prop :=
  forall r, is_Some (ROOM_MONITORING app !! r) <-> r ∈ room_ids.

(** ** What the specification says, in its own words *)

(** The full-power sum: every kind of equipment at its rated wattage. *)
Definition full_power_sum (p : RoomProfile) : Q :=
  foldr (fun k acc => (wattage p k * inject_Z (equipment p k) + acc)%Q) 0%Q equipment_kinds.

(** The same sum in binary64, the kinds added in their order. *)
Definition full_power (p : RoomProfile) : float :=
  foldl (fun acc k => (acc + to_float (wattage p k) * of_int (equipment p k))%float)
    0%float equipment_kinds.

(** Eight active hours at full power and sixteen standby hours at 5% of it,
    in kWh, in binary64. *)
Definition daily_energy_kwh (p : RoomProfile) : float :=
  ((full_power p * 8 + full_power p * 0.05 * 16) / 1000)%float.

(** * Proofs *)

(** ** Numbers *)

Lemma py_max_lower (a b : Q) : (a <= py_max a b)%Q.
Proof.
  unfold py_max. destruct (Qlt_le_dec a b) as [Hlt | Hle].
  - apply Qlt_le_weak, Hlt.
  - apply Qle_refl.
Qed.

Lemma unit_of_bits_range (r : N) : (0 <= unit_of_bits r)%Q /\ (unit_of_bits r < 1)%Q.
Proof.
  assert (H : (r mod two53 < two53)%N) by (apply N.mod_lt; discriminate).
  unfold unit_of_bits, Qle, Qlt. cbn [Qnum Qden].
  revert H. generalize (r mod two53)%N. intros x H.
  unfold two53 in H. split; lia.
Qed.

#[local] Instance round_half_even_comp : Proper (Qeq ==> eq) round_half_even.
Proof.
  intros x y Hxy. unfold round_half_even. rewrite (Qfloor_comp x y Hxy).
  assert (Hc : (x - inject_Z (Qfloor y) ?= 1 # 2)%Q = (y - inject_Z (Qfloor y) ?= 1 # 2)%Q).
  { apply Qcompare_comp; [rewrite Hxy |]; reflexivity. }
  rewrite Hc. reflexivity.
Qed.

#[local] Instance round2_comp : Proper (Qeq ==> eq) round2.
Proof.
  intros x y Hxy. unfold round2.
  assert (H : (x * 100 == y * 100)%Q) by (rewrite Hxy; reflexivity).
  rewrite (round_half_even_comp _ _ H). reflexivity.
Qed.

(** The integer chosen is a nearest one. *)
Lemma round_half_even_nearest (x : Q) :
  (inject_Z (round_half_even x) - (1 # 2) <= x)%Q /\
  (x <= inject_Z (round_half_even x) + (1 # 2))%Q.
Proof.
  pose proof (Qfloor_le x) as Hlo. pose proof (Qlt_floor x) as Hhi.
  rewrite inject_Z_plus in Hhi. change (inject_Z 1) with 1%Q in Hhi.
  unfold round_half_even.
  destruct (Qcompare_spec (x - inject_Z (Qfloor x)) (1 # 2)) as [He | Hl | Hg].
  - destruct (Z.even (Qfloor x));
      [| rewrite inject_Z_plus; change (inject_Z 1) with 1%Q]; split; lra.
  - split; lra.
  - rewrite inject_Z_plus. change (inject_Z 1) with 1%Q. split; lra.
Qed.

(** [round2 x] is a number of hundredths at most half a hundredth from [x]. *)
Lemma round2_nearest (x : Q) :
  exists n : Z,
    round2 x = (n # 100)%Q /\
    (inject_Z n - (1 # 2) <= x * 100)%Q /\ (x * 100 <= inject_Z n + (1 # 2))%Q.
Proof.
  exists (round_half_even (x * 100)). split; [reflexivity |].
  apply round_half_even_nearest.
Qed.

(** ** Running computations *)

Lemma bind_returns {A B} (m : M A) (k : A -> M B) w a w1 :
  m w = (Return a, w1) -> bind m k w = k a w1.
Proof. intros H. unfold bind. rewrite H. reflexivity. Qed.

Lemma bind_raises {A B} (m : M A) (k : A -> M B) w e w1 :
  m w = (Raise e, w1) -> bind m k w = (Raise e, w1).
Proof. intros H. unfold bind. rewrite H. reflexivity. Qed.

Lemma spend_spend a b c d w : spend a b (spend c d w) = spend (a + c) (b + d) w.
Proof. unfold spend; simpl. f_equal; lia. Qed.

Lemma spend_0 w : spend 0 0 w = w.
Proof. destruct w; reflexivity. Qed.

Lemma random_uniform_eq a b w :
  random_uniform a b w =
  (Return (a + (b - a) * unit_of_bits (entropy (rng_pos w)))%Q, spend 1 0 w).
Proof. reflexivity. Qed.

Lemma calculate_equipment_power_returns k base count w :
  exists p, calculate_equipment_power k base count w = (Return p, spend 1 0 w).
Proof. eexists. reflexivity. Qed.

Lemma dict_item_found {V} (d : list (string * V)) key v w :
  dict_get d key = Some v -> dict_item d key w = (Return v, w).
Proof. intros H. unfold dict_item. rewrite H. reflexivity. Qed.

Lemma dict_item_missing {V} (d : list (string * V)) key w :
  dict_get d key = None -> dict_item d key w = (Raise (KeyError key), w).
Proof. intros H. unfold dict_item. rewrite H. reflexivity. Qed.

(** ** Power *)

(** The power of a catalog room: it returns, spends one draw when the room is
    inactive and six when it is active, and respects the floor. *)
Lemma calculate_room_power_returns room_id profile is_active w :
  dict_get ROOM_CONFIG room_id = Some profile ->
  exists p,
    calculate_room_power room_id is_active w =
      (Return p, spend (if is_active then 6 else 1) 0 w) /\
    ((if is_active then 100 else 10) <= p)%Q.
Proof.
  intros Hget. unfold calculate_room_power.
  rewrite (bind_returns _ _ _ _ _ (dict_item_found _ _ _ w Hget)).
  destruct is_active; simpl negb; cbv iota.
  - eexists. split; [reflexivity | apply py_max_lower].
  - eexists. split; [reflexivity | apply py_max_lower].
Qed.

(** C1: for every catalog room and every outcome of the draws,
    [calculate_room_power] returns at least 10 W for an inactive room and at
    least 100 W for an active one. *)
Theorem calculate_room_power_floor room_id profile w :
  dict_get ROOM_CONFIG room_id = Some profile ->
  (exists p w', calculate_room_power room_id false w = (Return p, w') /\ (10 <= p)%Q) /\
  (exists p w', calculate_room_power room_id true w = (Return p, w') /\ (100 <= p)%Q).
Proof.
  intros Hget. split.
  - destruct (calculate_room_power_returns room_id profile false w Hget) as (p & Hrun & Hp).
    exists p, (spend 1 0 w). split; assumption.
  - destruct (calculate_room_power_returns room_id profile true w Hget) as (p & Hrun & Hp).
    exists p, (spend 6 0 w). split; assumption.
Qed.

(** ** Sampling *)

Lemma NoDup_of_submseteq {A} (l k : list A) : l ⊆+ k -> NoDup k -> NoDup l.
Proof.
  intros Hsub Hk. apply submseteq_Permutation in Hsub as [k' Hperm].
  rewrite Hperm in Hk. apply NoDup_app in Hk. tauto.
Qed.

Lemma randbelow_eq n w :
  randbelow n w = (Return (N.to_nat (entropy (rng_pos w) mod N.of_nat n)), spend 1 0 w).
Proof. reflexivity. Qed.

Lemma randbelow_bound (n : nat) (r : N) :
  (0 < n)%nat -> (N.to_nat (r mod N.of_nat n) < n)%nat.
Proof.
  intros Hn.
  assert (H : (r mod N.of_nat n < N.of_nat n)%N) by (apply N.mod_lt; lia).
  lia.
Qed.

Lemma random_randint_5_6 w :
  exists n, random_randint 5 6 w = (Return n, spend 1 0 w) /\ (n = 5 \/ n = 6)%Z.
Proof.
  unfold random_randint. rewrite (bind_returns _ _ _ _ _ (randbelow_eq _ w)).
  eexists. split; [reflexivity |].
  change (Z.to_nat (6 - 5 + 1)) with 2%nat.
  pose proof (randbelow_bound 2 (entropy (rng_pos w))) as Hj.
  revert Hj. generalize (N.to_nat (entropy (rng_pos w) mod N.of_nat 2)).
  intros j Hj. lia.
Qed.

(** Moving the last item into the place of the one picked leaves the other
    items of the pool that were left. *)
Lemma pool_step {A} (pool : list A) (m j : nat) (x last : A) :
  (j < S m)%nat ->
  pool !! j = Some x ->
  pool !! m = Some last ->
  x :: take m (<[j := last]> pool) ≡ₚ take (S m) pool.
Proof.
  intros Hj Hx Hlast. rewrite (take_S_r pool m last Hlast).
  destruct (decide (j = m)) as [-> | Hne].
  - rewrite Hlast in Hx. injection Hx as ->.
    rewrite take_insert_ge by lia. apply Permutation_cons_append.
  - assert (Hjm : (j < m)%nat) by lia.
    rewrite take_insert_lt by exact Hjm.
    assert (Hlen : (m <= length pool)%nat)
      by (apply Nat.lt_le_incl, (lookup_lt_Some pool m last Hlast)).
    assert (Hjt : (j < length (take m pool))%nat) by (rewrite length_take; lia).
    assert (Hxt : take m pool !! j = Some x) by (rewrite lookup_take_lt; assumption).
    rewrite (insert_take_drop (take m pool) j last Hjt).
    rewrite <- (take_drop_middle (take m pool) j x Hxt) at 3.
    rewrite <- Permutation_cons_append, <- !Permutation_middle.
    apply Permutation_swap.
Qed.

(** The pool loop returns after one draw a round; its picks are items of
    the pool that were left, none taken more often than it is there. *)
Lemma sample_pool_spec {A} (n : nat) :
  forall (rounds : nat) (pool : list A) (i : nat) w,
    length pool = n ->
    (i + rounds <= n)%nat ->
    exists l, sample_pool n pool i rounds w = (Return l, spend rounds 0 w) /\
              length l = rounds /\ l ⊆+ take (n - i) pool.
Proof.
  induction rounds as [| rounds IH]; intros pool i w Hlen Hfit.
  - exists []. split; [| split].
    + simpl. unfold ret. rewrite spend_0. reflexivity.
    + reflexivity.
    + apply submseteq_nil_l.
  - cbn [sample_pool]. rewrite (bind_returns _ _ _ _ _ (randbelow_eq _ w)).
    set (j := N.to_nat (entropy (rng_pos w) mod N.of_nat (n - i))).
    assert (Hj : (j < n - i)%nat) by (apply randbelow_bound; lia).
    destruct (lookup_lt_is_Some_2 pool j ltac:(lia)) as [x Hx].
    destruct (lookup_lt_is_Some_2 pool (n - i - 1) ltac:(lia)) as [last Hlast].
    rewrite Hx, Hlast.
    destruct (IH (<[j := last]> pool) (S i) (spend 1 0 w)) as (rest & Hrun & Hlenr & Hsub).
    { rewrite length_insert. exact Hlen. }
    { lia. }
    exists (x :: rest). split; [| split].
    + rewrite (bind_returns _ _ _ _ _ Hrun). unfold ret.
      rewrite spend_spend. repeat f_equal; lia.
    + simpl. congruence.
    + replace (n - i)%nat with (S (n - i - 1)) by lia.
      rewrite <- (pool_step pool (n - i - 1) j x last ltac:(lia) Hx Hlast).
      apply submseteq_skip.
      replace (n - i - 1)%nat with (n - S i)%nat by lia. exact Hsub.
Qed.

(** Among [n] indices not all can be selected by fewer than [n]. *)
Lemma first_unselected_spec (n : nat) (selected : list nat) :
  (length selected < n)%nat ->
  (first_unselected n selected < n)%nat /\ first_unselected n selected ∉ selected.
Proof.
  intros Hfew. unfold first_unselected.
  destruct (filter (fun j => j ∉ selected) (seq 0 n)) as [| j free] eqn:Hfree.
  - exfalso.
    assert (Hall : forall j, j ∈ seq 0 n -> j ∈ selected).
    { intros j Hj. destruct (decide (j ∈ selected)) as [Hin | Hout]; [exact Hin |].
      assert (Hjf : j ∈ filter (fun j => j ∉ selected) (seq 0 n))
        by (apply list_elem_of_filter; split; assumption).
      rewrite Hfree in Hjf. apply not_elem_of_nil in Hjf. contradiction. }
    pose proof (submseteq_length _ _ (NoDup_submseteq _ _ (NoDup_seq 0 n) Hall)) as Hle.
    rewrite length_seq in Hle. lia.
  - assert (Hj : j ∈ filter (fun j => j ∉ selected) (seq 0 n))
      by (rewrite Hfree; apply elem_of_cons; left; reflexivity).
    apply list_elem_of_filter in Hj as [Hout Hin]. apply elem_of_seq in Hin.
    simpl. split; [lia | exact Hout].
Qed.

(** The redraws end on an index that is not selected. *)
Lemma redraw_spec (n : nat) (selected : list nat) :
  (length selected < n)%nat ->
  forall (patience j : nat) w,
    (j < n)%nat ->
    exists j' draws,
      redraw patience n selected j w = (Return j', spend draws 0 w) /\
      (j' < n)%nat /\ j' ∉ selected.
Proof.
  intros Hfew. induction patience as [| patience IH]; intros j w Hj.
  - cbn [redraw]. destruct (decide (j ∈ selected)) as [Hin | Hout].
    + rewrite bool_decide_eq_true_2 by exact Hin.
      exists (first_unselected n selected), 0%nat. unfold ret. rewrite spend_0.
      split; [reflexivity | apply first_unselected_spec, Hfew].
    + rewrite bool_decide_eq_false_2 by exact Hout.
      exists j, 0%nat. unfold ret. rewrite spend_0. split; [reflexivity | tauto].
  - cbn [redraw]. destruct (decide (j ∈ selected)) as [Hin | Hout].
    + rewrite bool_decide_eq_true_2 by exact Hin.
      rewrite (bind_returns _ _ _ _ _ (randbelow_eq _ w)).
      destruct (IH (N.to_nat (entropy (rng_pos w) mod N.of_nat n)) (spend 1 0 w))
        as (j' & draws & Hrun & Hj').
      { apply randbelow_bound. lia. }
      exists j', (draws + 1)%nat. rewrite Hrun, spend_spend. split; [reflexivity | exact Hj'].
    + rewrite bool_decide_eq_false_2 by exact Hout.
      exists j, 0%nat. unfold ret. rewrite spend_0. split; [reflexivity | tauto].
Qed.

(** The set loop returns after at least one draw a round; it picks at
    indices that are in range, not selected before and all different. *)
Lemma sample_set_spec {A} (population : list A) :
  forall (rounds : nat) (selected : list nat) w,
    (length selected + rounds <= length population)%nat ->
    exists l js draws,
      sample_set population (length population) selected rounds w =
        (Return l, spend draws 0 w) /\
      (rounds <= draws)%nat /\
      length l = rounds /\
      Forall2 (fun j x => population !! j = Some x) js l /\
      NoDup js /\
      (forall j, j ∈ js -> j ∉ selected).
Proof.
  induction rounds as [| rounds IH]; intros selected w Hfit.
  - exists [], [], 0%nat. unfold sample_set, ret. rewrite spend_0.
    split; [reflexivity |]. split; [lia |]. split; [reflexivity |].
    split; [constructor |]. split; [constructor |].
    intros j Hj. apply not_elem_of_nil in Hj. contradiction.
  - cbn [sample_set]. rewrite (bind_returns _ _ _ _ _ (randbelow_eq _ w)).
    destruct (redraw_spec (length population) selected ltac:(lia) redraw_limit
                (N.to_nat (entropy (rng_pos w) mod N.of_nat (length population)))
                (spend 1 0 w))
      as (j & d1 & Hredraw & Hj & Hfresh).
    { apply randbelow_bound. lia. }
    rewrite (bind_returns _ _ _ _ _ Hredraw).
    destruct (lookup_lt_is_Some_2 population j Hj) as [x Hx]. rewrite Hx.
    destruct (IH (j :: selected) (spend d1 0 (spend 1 0 w)))
      as (rest & js & d2 & Hrun & Hdraws & Hlen & Hpicks & Hnodup & Hnew).
    { cbn [length]. lia. }
    exists (x :: rest), (j :: js), (d2 + (d1 + 1))%nat.
    rewrite (bind_returns _ _ _ _ _ Hrun). unfold ret. rewrite !spend_spend.
    split; [replace (d2 + d1 + 1)%nat with (d2 + (d1 + 1))%nat by lia; reflexivity |].
    split; [lia |]. split; [simpl; congruence |].
    split; [constructor; assumption |]. split.
    + constructor; [| exact Hnodup].
      intros Hin. apply (Hnew j Hin). apply elem_of_cons. left. reflexivity.
    + intros j' [-> | Hin]%elem_of_cons; [exact Hfresh |].
      intros Hsel. apply (Hnew j' Hin). apply elem_of_cons. right. exact Hsel.
Qed.

(** Items picked at indices that are all different are items of the list,
    none taken more often than it is there. *)
Lemma picks_submseteq {A} (population : list A) (js : list nat) (l : list A) :
  NoDup js ->
  Forall2 (fun j x => population !! j = Some x) js l ->
  l ⊆+ population.
Proof.
  intros Hnodup Hpicks. destruct l as [| x0 l0] eqn:Hl; [apply submseteq_nil_l |].
  rewrite <- Hl in *. clear Hl l0.
  set (at_index := fun j => default x0 (population !! j)).
  assert (Hmap : l = at_index <$> js).
  { clear Hnodup. induction Hpicks as [| j x js l Hx _ IH]; [reflexivity |].
    cbn [fmap list_fmap]. unfold at_index at 1. rewrite Hx. cbn [default].
    f_equal. exact IH. }
  assert (Hall : population = at_index <$> seq 0 (length population)).
  { apply list_eq. intros i. rewrite list_lookup_fmap.
    destruct (population !! i) as [x |] eqn:Hx.
    - rewrite lookup_seq_lt by (apply (lookup_lt_Some _ _ _ Hx)).
      cbn [fmap option_fmap option_map Nat.add]. unfold at_index. rewrite Hx. reflexivity.
    - rewrite lookup_seq_ge by (apply lookup_ge_None, Hx). reflexivity. }
  rewrite Hmap, Hall. apply fmap_submseteq, NoDup_submseteq; [exact Hnodup |].
  intros j Hj. apply elem_of_seq. split; [lia |]. cbn [Nat.add].
  clear Hmap Hall. induction Hpicks as [| j' x js l Hx _ IH]; [apply not_elem_of_nil in Hj; contradiction |].
  apply NoDup_cons in Hnodup as [_ Hnodup].
  apply elem_of_cons in Hj as [-> | Hj]; [apply (lookup_lt_Some _ _ _ Hx) | apply IH; assumption].
Qed.

(** A sample of [k] from a population of at least [k]: [k] items of the
    population, none taken more often than the population holds it, after
    [k] draws or more. *)
Lemma random_sample_spec {A} (population : list A) (k : nat) w :
  (k <= length population)%nat ->
  exists l draws,
    random_sample population k w = (Return l, spend draws 0 w) /\
    (k <= draws)%nat /\
    length l = k /\ l ⊆+ population.
Proof.
  intros Hk. unfold random_sample. cbv zeta.
  destruct (Nat.ltb_spec (length population) k) as [Hlt | _]; [lia |].
  destruct (length population <=? setsize k)%nat.
  - destruct (sample_pool_spec (length population) k population 0 w eq_refl ltac:(lia))
      as (l & Hrun & Hlen & Hsub).
    exists l, k. split; [exact Hrun |]. split; [lia |]. split; [exact Hlen |].
    rewrite Nat.sub_0_r, firstn_all in Hsub. exact Hsub.
  - destruct (sample_set_spec population k [] w ltac:(simpl; lia))
      as (l & js & draws & Hrun & Hdraws & Hlen & Hpicks & Hnodup & _).
    exists l, draws. split; [exact Hrun |]. split; [exact Hdraws |].
    split; [exact Hlen |]. eapply picks_submseteq; eassumption.
Qed.

Lemma random_sample_too_large {A} (population : list A) (k : nat) w :
  (length population < k)%nat ->
  random_sample population k w = (Raise ValueError, w).
Proof.
  intros Hk. unfold random_sample.
  destruct (Nat.ltb_spec (length population) k) as [_ | Hge]; [reflexivity | lia].
Qed.

(** ** Occupancy *)

Lemma length_room_ids : length room_ids = length ROOM_CONFIG.
Proof. unfold room_ids. apply length_map. Qed.

(** When no refresh is due, [update_offline_rooms] only reads the clock. *)
Lemma update_offline_rooms_idle w :
  refresh_due (LAST_OFFLINE_UPDATE w) (now w) = false ->
  update_offline_rooms w = (Return tt, spend 0 1 w).
Proof.
  intros Hdue. unfold update_offline_rooms, bind, datetime_now, get_LAST_OFFLINE_UPDATE.
  cbn [spend LAST_OFFLINE_UPDATE]. unfold now in Hdue. rewrite Hdue. reflexivity.
Qed.

(** When a refresh is due, a count of 5 or 6 is drawn; a catalog with fewer
    rooms than that makes [random.sample] raise, and otherwise the offline
    set becomes a fresh sample of that many catalog rooms, stamped with the
    time read. *)
Lemma update_offline_rooms_due w :
  refresh_due (LAST_OFFLINE_UPDATE w) (now w) = true ->
  exists n : nat,
    (n = 5 \/ n = 6)%nat /\
    random_randint 5 6 (spend 0 1 w) = (Return (Z.of_nat n), spend 1 1 w) /\
    ((length ROOM_CONFIG < n)%nat ->
       update_offline_rooms w = (Raise ValueError, spend 1 1 w)) /\
    ((n <= length ROOM_CONFIG)%nat ->
       exists offline draws,
         random_sample room_ids n (spend 1 1 w) = (Return offline, spend draws 1 w) /\
         update_offline_rooms w =
           (Return tt, set_occupancy offline (Some (now w)) (spend draws 1 w)) /\
         (n < draws)%nat /\
         length offline = n /\
         offline ⊆+ room_ids).
Proof.
  intros Hdue. unfold now in *.
  destruct (random_randint_5_6 (spend 0 1 w)) as (n & Hn & Hn56).
  assert (Hstart : update_offline_rooms w =
            (let* offline := random_sample room_ids (Z.to_nat n) in
             set_OFFLINE_ROOMS offline ;;
             set_LAST_OFFLINE_UPDATE (Some (clock (clock_pos w))))
              (spend 1 0 (spend 0 1 w))).
  { unfold update_offline_rooms, datetime_now.
    unfold bind at 1. unfold bind at 1. unfold get_LAST_OFFLINE_UPDATE at 1.
    cbn [spend LAST_OFFLINE_UPDATE]. rewrite Hdue.
    fold (spend 0 1 w). cbv zeta.
    rewrite (bind_returns _ _ _ _ _ Hn). reflexivity. }
  exists (Z.to_nat n). split; [lia |]. split.
  { rewrite Hn, spend_spend, Z2Nat.id by lia. reflexivity. }
  split.
  - intros Hsmall. rewrite Hstart.
    rewrite (bind_raises _ _ _ _ _ (random_sample_too_large room_ids (Z.to_nat n) _
               ltac:(rewrite length_room_ids; exact Hsmall))).
    rewrite spend_spend. reflexivity.
  - intros Hfits.
    destruct (random_sample_spec room_ids (Z.to_nat n) (spend 1 0 (spend 0 1 w)))
      as (offline & draws & Hs & Hdraws & Hlen & Hsub).
    { rewrite length_room_ids. exact Hfits. }
    rewrite !spend_spend in Hs. cbn [Nat.add] in Hs.
    exists offline, (draws + 1)%nat. split; [exact Hs |].
    split; [| split; [lia | split; assumption]].
    rewrite Hstart, spend_spend. cbn [Nat.add]. rewrite (bind_returns _ _ _ _ _ Hs).
    reflexivity.
Qed.

Lemma update_offline_rooms_refresh w :
  refresh_due (LAST_OFFLINE_UPDATE w) (now w) = true ->
  (6 <= length ROOM_CONFIG)%nat ->
  exists offline draws,
    update_offline_rooms w =
      (Return tt, set_occupancy offline (Some (now w)) (spend draws 1 w)) /\
    (length offline < draws)%nat /\
    (length offline = 5 \/ length offline = 6)%nat /\
    offline ⊆+ room_ids.
Proof.
  intros Hdue Hsize.
  destruct (update_offline_rooms_due w Hdue) as (n & Hn & _ & _ & Hfits).
  destruct Hfits as (offline & draws & _ & Hrun & Hdraws & Hlen & Hsub); [lia |].
  exists offline, draws. rewrite Hlen.
  split; [exact Hrun |]. split; [exact Hdraws |]. split; [lia | exact Hsub].
Qed.

(** C2: every refresh that [update_offline_rooms] performs on a catalog with
    distinct identifiers leaves an offline set of exactly 5 or 6 members, all
    of them catalog rooms, none of them twice; and on a catalog of six rooms
    or more every due refresh is performed. *)
Theorem update_offline_rooms_sample w :
  NoDup room_ids ->
  refresh_due (LAST_OFFLINE_UPDATE w) (now w) = true ->
  (forall w',
     update_offline_rooms w = (Return tt, w') ->
     (length (OFFLINE_ROOMS w') = 5 \/ length (OFFLINE_ROOMS w') = 6)%nat /\
     (forall room_id, room_id ∈ OFFLINE_ROOMS w' -> room_id ∈ room_ids) /\
     NoDup (OFFLINE_ROOMS w')) /\
  ((6 <= length ROOM_CONFIG)%nat ->
   exists w', update_offline_rooms w = (Return tt, w')).
Proof.
  intros Hnodup Hdue.
  destruct (update_offline_rooms_due w Hdue) as (n & Hn & _ & Hsmall & Hfits).
  split.
  - intros w' Hrun.
    destruct (Nat.lt_ge_cases (length ROOM_CONFIG) n) as [Hlt | Hge].
    + rewrite (Hsmall Hlt) in Hrun. discriminate.
    + destruct (Hfits Hge) as (offline & draws & _ & Hrun' & _ & Hlen & Hsub).
      rewrite Hrun' in Hrun. injection Hrun as <-. cbn [set_occupancy OFFLINE_ROOMS].
      split; [lia | split].
      * intros room_id Hin. eapply elem_of_submseteq; eassumption.
      * eapply NoDup_of_submseteq; eassumption.
  - intros Hsize. destruct (Hfits ltac:(lia)) as (offline & draws & _ & Hrun & _).
    eexists. exact Hrun.
Qed.

Lemma refresh_due_iff last t :
  refresh_due last t = true <->
  last = None \/ exists t0, last = Some t0 /\ (seconds 600 < t - t0)%Z.
Proof.
  destruct last as [t0 |]; simpl.
  - rewrite Z.ltb_lt. split.
    + intros H. right. exists t0. split; [reflexivity | exact H].
    + intros [H | (t1 & H1 & H2)]; [discriminate | congruence].
  - split; [intros _; left; reflexivity | reflexivity].
Qed.

(** A recomputed offline set shows in the position of the generator and in
    the stamp. *)
Lemma recomputed_draws w w' :
  recomputed w w' ->
  (rng_pos w < rng_pos w')%nat /\ LAST_OFFLINE_UPDATE w' = Some (now w).
Proof.
  intros (num_offline & offline & w1 & w2 & Hcount & Hsample & ->).
  destruct (random_randint_5_6 (spend 0 1 w)) as (n & Hn & _).
  rewrite Hn in Hcount. injection Hcount as <- <-.
  split; [| reflexivity].
  destruct (Nat.lt_ge_cases (length room_ids) (Z.to_nat n)) as [Hlt | Hge].
  - rewrite (random_sample_too_large _ _ _ Hlt) in Hsample. discriminate.
  - destruct (random_sample_spec room_ids (Z.to_nat n) (spend 1 0 (spend 0 1 w)) Hge)
      as (l & draws & Hrun & _).
    rewrite Hrun in Hsample. injection Hsample as _ <-. cbn. lia.
Qed.

(** Every call of [update_offline_rooms] in a catalog of six rooms or more
    returns; it draws a new offline set exactly when the refresh is due. *)
Lemma update_offline_rooms_cases w :
  (6 <= length ROOM_CONFIG)%nat ->
  exists w',
    update_offline_rooms w = (Return tt, w') /\
    clock_pos w' = S (clock_pos w) /\
    (refresh_due (LAST_OFFLINE_UPDATE w) (now w) = true ->
       recomputed w w' /\ LAST_OFFLINE_UPDATE w' = Some (now w) /\
       (length (OFFLINE_ROOMS w') = 5 \/ length (OFFLINE_ROOMS w') = 6)%nat /\
       OFFLINE_ROOMS w' ⊆+ room_ids) /\
    (refresh_due (LAST_OFFLINE_UPDATE w) (now w) = false ->
       ~ recomputed w w' /\ w' = spend 0 1 w).
Proof.
  intros Hsize. destruct (refresh_due (LAST_OFFLINE_UPDATE w) (now w)) eqn:Hdue.
  - destruct (update_offline_rooms_due w Hdue) as (n & Hn & Hcount & _ & Hfits).
    destruct (Hfits ltac:(lia)) as (offline & draws & Hsample & Hrun & _ & Hlen & Hsub).
    eexists. split; [exact Hrun |]. split; [reflexivity |]. split; [| discriminate].
    intros _. split.
    { exists (Z.of_nat n), offline, (spend 1 1 w), (spend draws 1 w).
      rewrite Nat2Z.id. split; [exact Hcount |]. split; [exact Hsample | reflexivity]. }
    cbn. split; [reflexivity |]. split; [lia | exact Hsub].
  - eexists. split; [apply update_offline_rooms_idle, Hdue |].
    split; [reflexivity |]. split; [discriminate |].
    intros _. split; [| reflexivity].
    intros Hrec. apply recomputed_draws in Hrec as [Hrec _]. cbn in Hrec. lia.
Qed.

Lemma is_room_active_after_update room_id w w1 :
  update_offline_rooms w = (Return tt, w1) ->
  is_room_active room_id w =
    (Return (negb (bool_decide (room_id ∈ OFFLINE_ROOMS w1))), w1).
Proof.
  intros Hrun. unfold is_room_active. rewrite (bind_returns _ _ _ _ _ Hrun).
  unfold bind, get_OFFLINE_ROOMS. destruct (bool_decide _); reflexivity.
Qed.


(** C3: the offline set is recomputed, that is replaced by a sample of 5 or
    6 catalog rooms that [random.sample] draws at that moment and stamped
    with the time read, if and only if no refresh has occurred yet or more
    than 600 seconds have elapsed since the last one; otherwise the set, the
    stamp and the generator are left as they were.  Hence a
    second query for a room, made while the occupancy state is still the one
    the first query left and not itself refreshing it, answers as the first
    did: in particular a query within 600 seconds of a refreshing one. *)
Theorem refresh_only_when_due room_id w :
  (6 <= length ROOM_CONFIG)%nat ->
  (exists w',
     update_offline_rooms w = (Return tt, w') /\
     (recomputed w w' <->
        LAST_OFFLINE_UPDATE w = None \/
        exists t, LAST_OFFLINE_UPDATE w = Some t /\ (seconds 600 < now w - t)%Z) /\
     (recomputed w w' ->
        LAST_OFFLINE_UPDATE w' = Some (now w) /\
        (length (OFFLINE_ROOMS w') = 5 \/ length (OFFLINE_ROOMS w') = 6)%nat /\
        OFFLINE_ROOMS w' ⊆+ room_ids) /\
     (~ recomputed w w' -> occupancy w' = occupancy w /\ rng_pos w' = rng_pos w)) /\
  (exists b1 w1,
     is_room_active room_id w = (Return b1, w1) /\
     forall w2, occupancy w2 = occupancy w1 ->
       exists b2 w3,
         is_room_active room_id w2 = (Return b2, w3) /\
         (~ recomputed w2 w3 -> b2 = b1) /\
         (recomputed w w1 -> (now w2 - now w <= seconds 600)%Z -> b2 = b1)).
Proof.
  intros Hsize. split.
  - destruct (update_offline_rooms_cases w Hsize) as (w' & Hrun & _ & Hyes & Hno).
    exists w'. split; [exact Hrun |]. rewrite <- refresh_due_iff.
    destruct (refresh_due (LAST_OFFLINE_UPDATE w) (now w)).
    + destruct (Hyes eq_refl) as (Hrec & Hfresh). split; [tauto |].
      split; [intros _; exact Hfresh | intros Hn; contradiction].
    + destruct (Hno eq_refl) as (Hrec & ->). split.
      * split; [intros H; contradiction | discriminate].
      * split; [intros H; contradiction | intros _; split; reflexivity].
  - destruct (update_offline_rooms_cases w Hsize) as (w1 & Hrun1 & _ & Hyes1 & _).
    exists (negb (bool_decide (room_id ∈ OFFLINE_ROOMS w1))), w1.
    split; [apply is_room_active_after_update, Hrun1 |].
    intros w2 Hocc.
    destruct (update_offline_rooms_cases w2 Hsize) as (w3 & Hrun2 & _ & Hyes2 & Hno2).
    exists (negb (bool_decide (room_id ∈ OFFLINE_ROOMS w3))), w3.
    split; [apply is_room_active_after_update, Hrun2 |].
    assert (Hidle : refresh_due (LAST_OFFLINE_UPDATE w2) (now w2) = false ->
                    OFFLINE_ROOMS w3 = OFFLINE_ROOMS w1).
    { intros Hdue. destruct (Hno2 Hdue) as (_ & ->).
      injection Hocc as Hoff _. exact Hoff. }
    split.
    + intros Hnot. destruct (refresh_due (LAST_OFFLINE_UPDATE w2) (now w2)) eqn:Hdue.
      * destruct (Hyes2 eq_refl) as (Hrec & _). contradiction.
      * rewrite (Hidle eq_refl). reflexivity.
    + intros Hrec Hnear.
      destruct (refresh_due (LAST_OFFLINE_UPDATE w) (now w)) eqn:Hdue1.
      * destruct (Hyes1 eq_refl) as (_ & Hlast & _).
        injection Hocc as _ Hlast2. rewrite Hlast in Hlast2.
        rewrite Hidle; [reflexivity |].
        rewrite Hlast2. simpl. apply Z.ltb_ge. exact Hnear.
      * exfalso. rewrite (update_offline_rooms_idle w Hdue1) in Hrun1.
        injection Hrun1 as <-. apply recomputed_draws in Hrec as [Hrec _].
        cbn in Hrec. lia.
Qed.

(** ** Derived metrics *)

(** The exact value of a float is not negative once its sign is set
    aside. *)
Lemma magnitude_nonneg (x : float) : (0 <= magnitude x)%Q.
Proof.
  unfold magnitude. destruct (Prim2SF x) as [s | s | | s m e]; try apply Qle_refl.
  apply Qmult_le_0_compat; [discriminate | apply Qpower_0_le; discriminate].
Qed.

(** [round(x, 2)] of a finite float is the float of a hundredth [n / 100],
    with the sign of [x], and no hundredth is nearer to [x]. *)
Lemma float_round2_nearest (x : float) :
  is_finite x = true ->
  exists n : Z,
    (0 <= n)%Z /\
    float_round2 x =
      (if get_sign x then (- to_float (n # 100))%float else to_float (n # 100)) /\
    (inject_Z n - (1 # 2) <= magnitude x * 100)%Q /\
    (magnitude x * 100 <= inject_Z n + (1 # 2))%Q.
Proof.
  intros Hfinite. unfold float_round2. rewrite Hfinite. cbv zeta.
  destruct (round2_nearest (magnitude x)) as (n & Hn & Hlo & Hhi).
  exists n. rewrite Hn. split; [| split; [reflexivity | split; assumption]].
  pose proof (magnitude_nonneg x) as Hpos.
  assert (H : (- (1 # 2) <= inject_Z n)%Q) by lra.
  unfold Qle in H. cbn in H. lia.
Qed.

Lemma ACTIVE_SHARE_is_the_float : (magnitude 0.85 == ACTIVE_SHARE)%Q.
Proof. vm_compute. reflexivity. Qed.

Lemma float_round2_not_finite (x : float) :
  is_finite x = false -> float_round2 x = x.
Proof. intros H. unfold float_round2. rewrite H. reflexivity. Qed.

(** What the code accumulates is the full-power sum, and its figure the
    formula of the specification, in binary64. *)
Lemma calculate_daily_energy_eq room_id profile w :
  dict_get ROOM_CONFIG room_id = Some profile ->
  calculate_daily_energy room_id w =
    (Return (float_round2 (daily_energy_kwh profile)), w).
Proof.
  intros Hget. unfold calculate_daily_energy.
  rewrite (bind_returns _ _ _ _ _ (dict_item_found _ _ _ w Hget)).
  reflexivity.
Qed.

(** The scenario's room: 2130 W at full power, 18.744 kWh a day, which
    rounds to 18.74. *)
Lemma daily_energy_kwh_scenario (p : RoomProfile) :
  (forall k, equipment p k = equipment R1 k /\ wattage p k = wattage R1 k) ->
  float_round2 (daily_energy_kwh p) = 18.74%float.
Proof.
  intros H. unfold daily_energy_kwh, full_power, equipment_kinds. cbn [foldl].
  destruct (H ac) as [-> ->], (H fan) as [-> ->], (H light) as [-> ->],
           (H projector) as [-> ->], (H pc) as [-> ->].
  vm_compute. reflexivity.
Qed.

(** C5: [calculate_daily_energy] uses no randomness and no state: in every
    world it returns the same value, the full-power sum of the five kinds of
    equipment times 8 hours plus 5% of it times 16 hours, over 1000, rounded
    to two decimals, all of it in binary64 as the code computes it: the
    figure is the float of the hundredth nearest to the float the formula
    gives.  For the scenario's room that is 18.74. *)
Theorem calculate_daily_energy_deterministic room_id profile :
  dict_get ROOM_CONFIG room_id = Some profile ->
  (forall w, calculate_daily_energy room_id w =
             (Return (float_round2 (daily_energy_kwh profile)), w)) /\
  (forall w1 w2, fst (calculate_daily_energy room_id w1) =
                 fst (calculate_daily_energy room_id w2)) /\
  (is_finite (daily_energy_kwh profile) = true ->
   exists n : Z,
     (0 <= n)%Z /\
     float_round2 (daily_energy_kwh profile) =
       (if get_sign (daily_energy_kwh profile)
        then (- to_float (n # 100))%float else to_float (n # 100)) /\
     (inject_Z n - (1 # 2) <= magnitude (daily_energy_kwh profile) * 100)%Q /\
     (magnitude (daily_energy_kwh profile) * 100 <= inject_Z n + (1 # 2))%Q) /\
  ((forall k, equipment profile k = equipment R1 k /\
              wattage profile k = wattage R1 k) ->
   forall w, calculate_daily_energy room_id w = (Return 18.74%float, w)).
Proof.
  intros Hget. split; [| split; [| split]].
  - intros w. apply calculate_daily_energy_eq, Hget.
  - intros w1 w2. rewrite !(calculate_daily_energy_eq _ _ _ Hget). reflexivity.
  - apply float_round2_nearest.
  - intros Hscenario w. rewrite (calculate_daily_energy_eq _ _ _ Hget).
    rewrite (daily_energy_kwh_scenario profile Hscenario). reflexivity.
Qed.

(** C6, as the code has it: [calculate_co2_saved kwh] is the float product
    [kwh * 0.71] rounded to two decimals: the float of the hundredth nearest
    to that product, with its sign, and the product itself when it is not
    finite.  [calculate_co2_saved 18.74] is 13.31, and
    [calculate_co2_saved 0.5] is 0.35, the product being a float just below
    0.355. *)
Theorem calculate_co2_saved_rounds (kwh : float) :
  (is_finite (kwh * 0.71) = true ->
   exists n : Z,
     (0 <= n)%Z /\
     calculate_co2_saved kwh =
       (if get_sign (kwh * 0.71)
        then (- to_float (n # 100))%float else to_float (n # 100)) /\
     (inject_Z n - (1 # 2) <= magnitude (kwh * 0.71) * 100)%Q /\
     (magnitude (kwh * 0.71) * 100 <= inject_Z n + (1 # 2))%Q) /\
  (is_finite (kwh * 0.71) = false ->
   calculate_co2_saved kwh = (kwh * 0.71)%float) /\
  calculate_co2_saved 18.74 = 13.31%float /\
  calculate_co2_saved 0.5 = 0.35%float.
Proof.
  split; [| split; [| split]].
  - apply float_round2_nearest.
  - apply float_round2_not_finite.
  - vm_compute. reflexivity.
  - vm_compute. reflexivity.
Qed.

(** ** Readings *)

Lemma voltage_nonzero (u : Q) :
  (0 <= u)%Q ->
  Qeq_bool (BASE_VOLTAGE + (- VOLTAGE_VARIATION +
              (VOLTAGE_VARIATION - - VOLTAGE_VARIATION) * u)) 0 = false.
Proof.
  intros Hu. unfold BASE_VOLTAGE, VOLTAGE_VARIATION.
  destruct (Qeq_bool _ 0) eqn:E; [| reflexivity].
  apply Qeq_bool_eq in E. lra.
Qed.

(** The voltage is drawn and the current derived from it without error. *)
Lemma voltage_and_current_return (power : Q) w :
  let voltage := (BASE_VOLTAGE + (- VOLTAGE_VARIATION +
                    (VOLTAGE_VARIATION - - VOLTAGE_VARIATION) *
                    unit_of_bits (entropy (rng_pos w))))%Q in
  random_uniform (- VOLTAGE_VARIATION) VOLTAGE_VARIATION w =
    (Return (- VOLTAGE_VARIATION + (VOLTAGE_VARIATION - - VOLTAGE_VARIATION) *
               unit_of_bits (entropy (rng_pos w)))%Q, spend 1 0 w) /\
  forall w1, py_div power voltage w1 = (Return (power / voltage)%Q, w1).
Proof.
  split; [reflexivity |]. intros w1. unfold py_div.
  rewrite voltage_nonzero by apply unit_of_bits_range. reflexivity.
Qed.



Lemma dict_get_is_Some {V} (d : list (string * V)) key :
  key ∈ map fst d -> is_Some (dict_get d key).
Proof.
  induction d as [| [k v] d IH]; simpl; intros Hin.
  - apply elem_of_nil in Hin. contradiction.
  - destruct (String.eqb_spec k key) as [-> | Hne]; [eauto |].
    apply elem_of_cons in Hin as [-> | Hin]; [contradiction | apply IH, Hin].
Qed.

(** The rooms outside the offline set and the offline set make up the
    catalog. *)
Lemma count_not_offline (ids offline : list string) :
  NoDup ids -> offline ⊆+ ids ->
  (length (filter (fun r => r ∉ offline) ids) + length offline = length ids)%nat.
Proof.
  intros Hids Hsub.
  pose proof (filter_app_complement (fun r => r ∈ offline) ids) as Hsplit.
  apply Permutation_length in Hsplit. rewrite length_app in Hsplit.
  assert (Hperm : filter (fun r => r ∈ offline) ids ≡ₚ offline).
  { apply NoDup_Permutation.
    - apply NoDup_filter, Hids.
    - eapply NoDup_of_submseteq; eassumption.
    - intros r. rewrite list_elem_of_filter. split; [tauto |].
      intros Hr. split; [exact Hr | eapply elem_of_submseteq; eassumption]. }
  apply Permutation_length in Hperm. lia.
Qed.

Lemma stamp_after_check_spec w w1 :
  (6 <= length ROOM_CONFIG)%nat ->
  OFFLINE_ROOMS w ⊆+ room_ids ->
  update_offline_rooms w = (Return tt, w1) ->
  LAST_OFFLINE_UPDATE w1 = Some (stamp_after_check w) /\
  OFFLINE_ROOMS w1 ⊆+ room_ids /\
  clock_pos w1 = S (clock_pos w).
Proof.
  intros Hsize Hwf Hupd.
  destruct (update_offline_rooms_cases w Hsize) as (w1' & Hupd' & Hclock & Hyes & Hidle).
  rewrite Hupd in Hupd'. injection Hupd' as <-.
  split; [| split; [| exact Hclock]]; unfold stamp_after_check;
    destruct (refresh_due (LAST_OFFLINE_UPDATE w) (now w)) eqn:Hdue.
  - destruct (Hyes eq_refl) as (_ & -> & _).
    destruct (LAST_OFFLINE_UPDATE w); [rewrite Hdue |]; reflexivity.
  - destruct (Hidle eq_refl) as (_ & ->). cbn [spend LAST_OFFLINE_UPDATE].
    destruct (LAST_OFFLINE_UPDATE w); [rewrite Hdue; reflexivity | discriminate].
  - destruct (Hyes eq_refl) as (_ & _ & _ & Hsub). exact Hsub.
  - destruct (Hidle eq_refl) as (_ & ->). exact Hwf.
Qed.



(** C8, as the code has it: for a room identifier that is not in the catalog,
    [get_room_config] returns [None] and [get_room_schedule] returns what the
    schedule table holds for it, [None] when it holds nothing; the power, the
    daily energy and the reading raise instead ([KeyError], once the
    occupancy check of the reading went through). *)
Theorem unknown_room_results room_id w :
  dict_get ROOM_CONFIG room_id = None ->
  get_room_config room_id w = (Return None, w) /\
  get_room_schedule room_id w = (Return (SCHEDULES !! room_id), w) /\
  (forall is_active,
     calculate_room_power room_id is_active w = (Raise (KeyError room_id), w)) /\
  calculate_daily_energy room_id w = (Raise (KeyError room_id), w) /\
  (forall current_time, exists e w',
     get_room_data room_id current_time w = (Raise e, w') /\
     ((6 <= length ROOM_CONFIG)%nat -> e = KeyError room_id)).
Proof.
  intros Hget.
  assert (Hpower : forall is_active w0,
            calculate_room_power room_id is_active w0 = (Raise (KeyError room_id), w0)).
  { intros is_active w0. unfold calculate_room_power.
    apply bind_raises, dict_item_missing, Hget. }
  split; [| split; [| split; [| split]]].
  - unfold get_room_config. rewrite Hget. reflexivity.
  - reflexivity.
  - intros is_active. apply Hpower.
  - unfold calculate_daily_energy. apply bind_raises, dict_item_missing, Hget.
  - intros current_time. unfold get_room_data.
    destruct (is_room_active room_id w) as [[is_active | e] w1] eqn:Hactive.
    + exists (KeyError room_id), w1. split; [| reflexivity].
      rewrite (bind_returns _ _ _ _ _ Hactive). apply bind_raises, Hpower.
    + exists e, w1. split; [apply bind_raises, Hactive |].
      intros Hsize. exfalso.
      destruct (update_offline_rooms_cases w Hsize) as (w1' & Hupd & _).
      rewrite (is_room_active_after_update room_id w w1' Hupd) in Hactive.
      discriminate.
Qed.

(** ** History *)

Lemma strftime_back (t k : Z) :
  strftime (t - minutes (5 * k)) = (strftime t - 300 * k)%Z.
Proof.
  unfold strftime, minutes, seconds.
  replace (t - 5 * k * 60 * 1000000)%Z with (t + (- (300 * k)) * 1000000)%Z by lia.
  rewrite Z.div_add by discriminate. lia.
Qed.

Lemma datetime_sub_returns t delta w :
  representable (t - delta) = true ->
  datetime_sub t delta w = (Return (t - delta)%Z, w).
Proof. intros H. unfold datetime_sub. rewrite H. reflexivity. Qed.

Lemma datetime_sub_raises t delta w :
  representable (t - delta) = false ->
  datetime_sub t delta w = (Raise OverflowError, w).
Proof. intros H. unfold datetime_sub. rewrite H. reflexivity. Qed.

Lemma representable_iff t :
  representable t = true <-> (0 <= t <= datetime_max)%Z.
Proof. unfold representable. rewrite andb_true_iff, !Z.leb_le. tauto. Qed.

(** One round of the loop: it appends the point of slot [i] and spends draws
    only. *)
Lemma history_loop_step room_id profile current_time total_points n i acc w :
  dict_get ROOM_CONFIG room_id = Some profile ->
  representable (current_time - minutes (5 * (total_points - i))) = true ->
  exists point draws,
    history_loop room_id current_time total_points (S n) i acc w =
      history_loop room_id current_time total_points n (i + 1)%Z
        (acc ++ [point]) (spend draws 0 w) /\
    hp_timestamp point =
      strftime (current_time - minutes (5 * (total_points - i))).
Proof.
  intros Hget Hrange. cbn [history_loop]. cbv zeta.
  rewrite (bind_returns _ _ _ _ _ (datetime_sub_returns _ _ w Hrange)).
  unfold random_random at 1. unfold bind at 1. unfold bind at 1. unfold draw at 1.
  unfold ret at 1.
  set (is_active := if Qlt_le_dec (unit_of_bits (entropy (rng_pos w))) ACTIVE_SHARE
                    then true else false).
  destruct (calculate_room_power_returns room_id profile is_active (spend 1 0 w) Hget)
    as (power & Hpower & _).
  rewrite (bind_returns _ _ _ _ _ Hpower).
  destruct (voltage_and_current_return power
              (spend (if is_active then 6 else 1) 0 (spend 1 0 w))) as (Hv & Hc).
  rewrite (bind_returns _ _ _ _ _ Hv), (bind_returns _ _ _ _ _ (Hc _)).
  rewrite !spend_spend. do 2 eexists. split; reflexivity.
Qed.

Lemma history_loop_returns room_id profile current_time total_points n :
  dict_get ROOM_CONFIG room_id = Some profile ->
  forall i acc w,
  (forall j : nat, (j < n)%nat ->
     representable
       (current_time - minutes (5 * (total_points - (i + Z.of_nat j)))) = true) ->
  exists points draws,
    history_loop room_id current_time total_points n i acc w =
      (Return (acc ++ points), spend draws 0 w) /\
    length points = n /\
    forall (j : nat) point, points !! j = Some point ->
      hp_timestamp point =
        strftime (current_time - minutes (5 * (total_points - (i + Z.of_nat j)))).
Proof.
  intros Hget. induction n as [| n IH]; intros i acc w Hrange.
  - exists [], 0%nat. split; [| split].
    + simpl. unfold ret. rewrite app_nil_r, spend_0. reflexivity.
    + reflexivity.
    + intros j point Hj. discriminate.
  - destruct (history_loop_step room_id profile current_time total_points n i acc w Hget)
      as (point & d1 & Hstep & Hts).
    { specialize (Hrange 0%nat ltac:(lia)). rewrite Z.add_0_r in Hrange. exact Hrange. }
    destruct (IH (i + 1)%Z (acc ++ [point]) (spend d1 0 w))
      as (rest & d2 & Hrun & Hlen & Hrest).
    { intros j Hj. specialize (Hrange (S j) ltac:(lia)).
      replace (i + 1 + Z.of_nat j)%Z with (i + Z.of_nat (S j))%Z by lia. exact Hrange. }
    exists (point :: rest), (d2 + d1)%nat. split; [| split].
    + rewrite Hstep, Hrun, spend_spend, <- app_assoc. reflexivity.
    + simpl. congruence.
    + intros [| j] pt Hj.
      * injection Hj as <-. rewrite Hts. do 3 f_equal. lia.
      * rewrite (Hrest j pt Hj). do 3 f_equal. lia.
Qed.

(** The first round stops the loop when its slot lies before the first
    instant a [datetime] can hold. *)
Lemma history_loop_overflow room_id current_time total_points n i acc w :
  representable (current_time - minutes (5 * (total_points - i))) = false ->
  history_loop room_id current_time total_points (S n) i acc w =
    (Raise OverflowError, w).
Proof.
  intros Hrange. cbn [history_loop]. cbv zeta.
  apply bind_raises, datetime_sub_raises, Hrange.
Qed.

(** C7, as the code has it: for a catalog room and a positive number of
    hours that does not reach back before the first instant of the calendar,
    the history has exactly [(hours * 60) // 5] points (288 for 24 hours),
    consecutive points are 5 minutes apart, the timestamps never decrease,
    and the last point is stamped one interval before the time read. *)
Theorem generate_historical_data_points room_id profile hours w :
  dict_get ROOM_CONFIG room_id = Some profile ->
  (0 < hours)%Z ->
  representable (now w) = true ->
  representable (now w - minutes (hours * 60)) = true ->
  exists points w',
    generate_historical_data room_id hours w = (Return points, w') /\
    Z.of_nat (length points) = (hours * 60 / 5)%Z /\
    (hours = 24%Z -> length points = 288%nat) /\
    (forall i a b, points !! i = Some a -> points !! S i = Some b ->
       (hp_timestamp b - hp_timestamp a = 5 * 60)%Z) /\
    (forall i j a b, (i <= j)%nat -> points !! i = Some a -> points !! j = Some b ->
       (hp_timestamp a <= hp_timestamp b)%Z) /\
    (exists point, last points = Some point /\
       hp_timestamp point = strftime (now w - minutes 5)).
Proof.
  intros Hget Hhours Hnow Hback. unfold generate_historical_data.
  unfold bind at 1. unfold datetime_now at 1. cbv zeta. fold (now w).
  set (total_points := (hours * 60 / 5)%Z).
  assert (Htotal : (0 < total_points)%Z)
    by (unfold total_points; apply Z.div_str_pos; lia).
  assert (Hspan : (5 * total_points <= hours * 60)%Z)
    by (unfold total_points; apply Z.mul_div_le; lia).
  apply representable_iff in Hnow, Hback.
  destruct (history_loop_returns room_id profile (now w) total_points
              (Z.to_nat total_points) Hget 0%Z [] (spend 0 1 w))
    as (points & draws & Hrun & Hlen & Hts).
  { intros j Hj. apply representable_iff.
    unfold minutes, seconds in *. lia. }
  exists points, (spend draws 0 (spend 0 1 w)).
  assert (Hstamp : forall (j : nat) point, points !! j = Some point ->
            hp_timestamp point = (strftime (now w) - 300 * (total_points - Z.of_nat j))%Z).
  { intros j point Hj. rewrite (Hts j point Hj), strftime_back. lia. }
  split; [exact Hrun |]. split; [lia |]. split; [| split; [| split]].
  - intros ->. rewrite Hlen. reflexivity.
  - intros i a b Ha Hb. rewrite (Hstamp _ _ Ha), (Hstamp _ _ Hb). lia.
  - intros i j a b Hij Ha Hb. rewrite (Hstamp _ _ Ha), (Hstamp _ _ Hb). lia.
  - destruct (lookup_lt_is_Some_2 points (Z.to_nat total_points - 1)) as [point Hpoint];
      [lia |].
    exists point. split.
    + rewrite last_lookup. rewrite Hlen. replace (Nat.pred (Z.to_nat total_points))
        with (Z.to_nat total_points - 1)%nat by lia. exact Hpoint.
    + rewrite (Hstamp _ _ Hpoint).
      replace 5%Z with (5 * 1)%Z at 1 by reflexivity. rewrite strftime_back. lia.
Qed.

(** C9: when the derived number of points is zero or negative, the history is
    the empty sequence, whatever the room identifier. *)
Theorem generate_historical_data_degenerate room_id hours w :
  (hours * 60 / 5 <= 0)%Z ->
  generate_historical_data room_id hours w = (Return [], spend 0 1 w).
Proof.
  intros Hpoints. unfold generate_historical_data.
  unfold bind, datetime_now. cbv zeta.
  replace (Z.to_nat (hours * 60 / 5)) with 0%nat by lia.
  reflexivity.
Qed.

(** ** The occupancy state as a frame *)

Lemma set_occupancy_same w :
  set_occupancy (OFFLINE_ROOMS w) (LAST_OFFLINE_UPDATE w) w = w.
Proof. destruct w; reflexivity. Qed.

Lemma oblivious_frame {A} (m : M A) w :
  oblivious m -> occupancy (snd (m w)) = occupancy w.
Proof.
  intros Hm. specialize (Hm (OFFLINE_ROOMS w) (LAST_OFFLINE_UPDATE w) w).
  rewrite set_occupancy_same in Hm.
  destruct (m w) as [r w']. simpl in *. injection Hm as ->. reflexivity.
Qed.

Lemma oblivious_ret {A} (a : A) : oblivious (ret a).
Proof. intros offline last w. reflexivity. Qed.

Lemma oblivious_raise {A} (e : exn) : oblivious (@raise A e).
Proof. intros offline last w. reflexivity. Qed.

Lemma oblivious_bind {A B} (m : M A) (k : A -> M B) :
  oblivious m -> (forall a, oblivious (k a)) -> oblivious (bind m k).
Proof.
  intros Hm Hk offline last w. unfold bind. rewrite Hm.
  destruct (m w) as [[a | e] w1]; simpl; [apply Hk | reflexivity].
Qed.

Lemma oblivious_draw : oblivious draw.
Proof. intros offline last w. reflexivity. Qed.

Lemma oblivious_datetime_now : oblivious datetime_now.
Proof. intros offline last w. reflexivity. Qed.

Lemma oblivious_dict_item {V} (d : list (string * V)) key : oblivious (dict_item d key).
Proof. unfold dict_item. destruct (dict_get d key); [apply oblivious_ret | apply oblivious_raise]. Qed.

Lemma oblivious_datetime_sub t delta : oblivious (datetime_sub t delta).
Proof.
  unfold datetime_sub.
  destruct (representable (t - delta)); [apply oblivious_ret | apply oblivious_raise].
Qed.

Lemma oblivious_py_div a b : oblivious (py_div a b).
Proof. unfold py_div. destruct (Qeq_bool b 0); [apply oblivious_raise | apply oblivious_ret]. Qed.

Create HintDb oblivious.

#[local] Hint Resolve oblivious_ret oblivious_raise oblivious_draw
  oblivious_datetime_now oblivious_dict_item oblivious_py_div
  oblivious_datetime_sub : oblivious.

Ltac oblivious_steps :=
  repeat first
    [ solve [auto with oblivious]
    | progress cbv zeta
    | apply oblivious_bind; [| intros ?] ].

Lemma oblivious_random_random : oblivious random_random.
Proof. unfold random_random. oblivious_steps. Qed.

Lemma oblivious_random_uniform a b : oblivious (random_uniform a b).
Proof. unfold random_uniform, random_random. oblivious_steps. Qed.

#[local] Hint Resolve oblivious_random_random oblivious_random_uniform : oblivious.

Lemma oblivious_calculate_equipment_power k base count :
  oblivious (calculate_equipment_power k base count).
Proof. unfold calculate_equipment_power. oblivious_steps. Qed.

#[local] Hint Resolve oblivious_calculate_equipment_power : oblivious.

Lemma oblivious_calculate_room_power room_id is_active :
  oblivious (calculate_room_power room_id is_active).
Proof.
  unfold calculate_room_power. apply oblivious_bind; [auto with oblivious |].
  intros config. destruct is_active; simpl negb; cbv iota; oblivious_steps.
Qed.

#[local] Hint Resolve oblivious_calculate_room_power : oblivious.

Lemma oblivious_history_loop room_id current_time total_points n :
  forall i acc, oblivious (history_loop room_id current_time total_points n i acc).
Proof.
  induction n as [| n IH]; intros i acc; cbn [history_loop].
  - apply oblivious_ret.
  - oblivious_steps.
Qed.

(** C10: [generate_historical_data] leaves the occupancy state as it found
    it, whether it returns or raises, and its outcome does not depend on that
    state: the activity flag of every point comes from a draw of its own. *)
Theorem generate_historical_data_frame room_id hours w :
  occupancy (snd (generate_historical_data room_id hours w)) = occupancy w /\
  forall offline last,
    generate_historical_data room_id hours (set_occupancy offline last w) =
    (fst (generate_historical_data room_id hours w),
     set_occupancy offline last (snd (generate_historical_data room_id hours w))).
Proof.
  assert (H : oblivious (generate_historical_data room_id hours)).
  { unfold generate_historical_data. apply oblivious_bind; [auto with oblivious |].
    intros current_time. apply oblivious_history_loop. }
  split; [apply oblivious_frame, H | intros offline last; apply H].
Qed.

(** * Further properties of the code *)

(** ** Rounding *)

Lemma round_half_even_bounds (x : Q) :
  (Qfloor x <= round_half_even x <= Qfloor x + 1)%Z.
Proof.
  unfold round_half_even.
  destruct (x - inject_Z (Qfloor x) ?= 1 # 2)%Q; [destruct (Z.even _) | |]; lia.
Qed.

Lemma round_half_even_mono (x y : Q) :
  (x <= y)%Q -> (round_half_even x <= round_half_even y)%Z.
Proof.
  intros Hxy. pose proof (Qfloor_resp_le x y Hxy) as Hfloor.
  destruct (Z.eq_dec (Qfloor x) (Qfloor y)) as [Heq | Hne].
  - unfold round_half_even. rewrite <- Heq.
    destruct (Qcompare_spec (x - inject_Z (Qfloor x)) (1 # 2)) as [Hx | Hx | Hx];
      destruct (Qcompare_spec (y - inject_Z (Qfloor x)) (1 # 2)) as [Hy | Hy | Hy];
      try destruct (Z.even (Qfloor x)); try lia; exfalso; lra.
  - pose proof (round_half_even_bounds x). pose proof (round_half_even_bounds y). lia.
Qed.

Lemma round2_mono (x y : Q) : (x <= y)%Q -> (round2 x <= round2 y)%Q.
Proof.
  intros Hxy. unfold round2, Qle. cbn [Qnum Qden].
  assert (H : (round_half_even (x * 100) <= round_half_even (y * 100))%Z)
    by (apply round_half_even_mono; lra).
  lia.
Qed.

(** ** The power model *)

Lemma uniform_range (a b : Q) (r : N) :
  (a <= b)%Q ->
  (a <= a + (b - a) * unit_of_bits r)%Q /\ (a + (b - a) * unit_of_bits r <= b)%Q.
Proof.
  intros Hab. destruct (unit_of_bits_range r) as [H0 H1].
  assert (Hprod : (0 <= (b - a) * unit_of_bits r)%Q)
    by (apply Qmult_le_0_compat; lra).
  assert (Hprod' : (0 <= (b - a) * (1 - unit_of_bits r))%Q)
    by (apply Qmult_le_0_compat; lra).
  split; lra.
Qed.

Lemma fluctuation_of_range k : (0 <= fluctuation_of k)%Q /\ (fluctuation_of k <= 15 # 100)%Q.
Proof. destruct k; split; discriminate. Qed.

(** X1: [calculate_equipment_power] always returns, after one draw, a power
    that deviates from the nominal [base_wattage * count] by at most the
    fluctuation fraction of the kind: 15% for the AC, 8% for fans, 5% for
    lights, 10% for projector and PC. *)
Theorem calculate_equipment_power_within k base count w :
  exists p,
    calculate_equipment_power k base count w = (Return p, spend 1 0 w) /\
    (Qabs (p - base * inject_Z count) <=
     fluctuation_of k * Qabs (base * inject_Z count))%Q.
Proof.
  eexists. split; [reflexivity |].
  set (power := (base * inject_Z count)%Q).
  set (u := (-1 + (1 - -1) * unit_of_bits (entropy (rng_pos w)))%Q).
  assert (Hu : (Qabs u <= 1)%Q).
  { destruct (uniform_range (-1) 1 (entropy (rng_pos w))) as [Hlo Hhi]; [discriminate |].
    apply Qabs_Qle_condition. fold u in Hlo, Hhi. split; lra. }
  destruct (fluctuation_of_range k) as [Hf _].
  assert (Heq : (power + power * fluctuation_of k * u - power ==
                 fluctuation_of k * power * u)%Q) by ring.
  fold (fluctuation_of k). rewrite Heq, !Qabs_Qmult.
  rewrite (Qabs_pos (fluctuation_of k)) by exact Hf.
  assert (Hc : (0 <= fluctuation_of k * Qabs power)%Q)
    by (apply Qmult_le_0_compat; [exact Hf | apply Qabs_nonneg]).
  pose proof (Qmult_le_compat_r _ _ _ Hu Hc) as Hle. lra.
Qed.

Lemma py_max_upper (a b : Q) : (b <= py_max a b)%Q.
Proof.
  unfold py_max. destruct (Qlt_le_dec a b) as [Hlt | Hle]; [apply Qle_refl | exact Hle].
Qed.

Lemma py_max_mono (a b c : Q) : (b <= c)%Q -> (py_max a b <= py_max a c)%Q.
Proof.
  intros Hbc. unfold py_max.
  destruct (Qlt_le_dec a b), (Qlt_le_dec a c); lra.
Qed.

(** A nominal power that is not negative, perturbed by at most 15%. *)
Lemma fluctuated_range (k : kind) (power u : Q) :
  (0 <= power)%Q -> (0 <= u)%Q -> (u <= 1)%Q ->
  ((85 # 100) * power <= power + power * fluctuation_of k * (-1 + (1 - -1) * u))%Q /\
  (power + power * fluctuation_of k * (-1 + (1 - -1) * u) <= (115 # 100) * power)%Q.
Proof.
  intros Hp Hu0 Hu1.
  assert (H1 : (0 <= power * u)%Q) by (apply Qmult_le_0_compat; assumption).
  assert (H2 : (0 <= power * (1 - u))%Q) by (apply Qmult_le_0_compat; lra).
  destruct k; unfold fluctuation_of, AC_FLUCTUATION, FAN_FLUCTUATION,
    LIGHT_FLUCTUATION, DEVICE_FLUCTUATION; split; lra.
Qed.

(** X2: the power of a catalog room stays near its rating.  Inactive, it is
    the standby power of the room give or take the 20 W of noise, and not
    below the floor of 10 W.  Active, for wattages and counts that are not
    negative, it lies between 85% of the full-power sum less 20 W and 115% of
    it plus 20 W, and not below the floor of 100 W. *)
Theorem calculate_room_power_range room_id profile w :
  dict_get ROOM_CONFIG room_id = Some profile ->
  (forall k, 0 <= wattage profile k * inject_Z (equipment profile k))%Q ->
  (exists p,
     calculate_room_power room_id false w = (Return p, spend 1 0 w) /\
     (standby_power_of profile - 20 <= p)%Q /\
     (p <= py_max 10 (standby_power_of profile + 20))%Q) /\
  (exists p,
     calculate_room_power room_id true w = (Return p, spend 6 0 w) /\
     ((85 # 100) * full_power_sum profile - 20 <= p)%Q /\
     (p <= py_max 100 ((115 # 100) * full_power_sum profile + 20))%Q).
Proof.
  intros Hget Hpos. unfold calculate_room_power.
  rewrite !(bind_returns _ _ _ _ _ (dict_item_found _ _ _ w Hget)).
  split; simpl negb; cbv iota; cbv zeta.
  - eexists. split; [reflexivity |]. fold (standby_power_of profile).
    destruct (uniform_range (- RANDOM_NOISE) RANDOM_NOISE (entropy (rng_pos w)))
      as [Hlo Hhi]; [discriminate |].
    unfold RANDOM_NOISE in *. split.
    + eapply Qle_trans; [| apply py_max_upper]. lra.
    + apply py_max_mono. lra.
  - eexists. split; [reflexivity |].
    unfold calculate_equipment_power, random_uniform, random_random, bind, draw, ret.
    cbn [spend rng_pos fst snd].
    set (u1 := unit_of_bits (entropy (rng_pos w))).
    set (u2 := unit_of_bits (entropy (1 + rng_pos w))).
    set (u3 := unit_of_bits (entropy (1 + (1 + rng_pos w)))).
    set (u4 := unit_of_bits (entropy (1 + (1 + (1 + rng_pos w))))).
    set (u5 := unit_of_bits (entropy (1 + (1 + (1 + (1 + rng_pos w)))))).
    set (u6 := unit_of_bits (entropy (1 + (1 + (1 + (1 + (1 + rng_pos w))))))).
    destruct (fluctuated_range ac _ u1 (Hpos ac)) as [Ha1 Ha2];
      [apply unit_of_bits_range | apply Qlt_le_weak, unit_of_bits_range |].
    destruct (fluctuated_range fan _ u2 (Hpos fan)) as [Hb1 Hb2];
      [apply unit_of_bits_range | apply Qlt_le_weak, unit_of_bits_range |].
    destruct (fluctuated_range light _ u3 (Hpos light)) as [Hc1 Hc2];
      [apply unit_of_bits_range | apply Qlt_le_weak, unit_of_bits_range |].
    destruct (fluctuated_range projector _ u4 (Hpos projector)) as [Hd1 Hd2];
      [apply unit_of_bits_range | apply Qlt_le_weak, unit_of_bits_range |].
    destruct (fluctuated_range pc _ u5 (Hpos pc)) as [He1 He2];
      [apply unit_of_bits_range | apply Qlt_le_weak, unit_of_bits_range |].
    destruct (uniform_range (- RANDOM_NOISE) RANDOM_NOISE
                (entropy (1 + (1 + (1 + (1 + (1 + rng_pos w)))))))%nat
      as [Hlo Hhi]; [discriminate |].
    fold u6 in Hlo, Hhi.
    unfold fluctuation_of in *. unfold RANDOM_NOISE in *.
    unfold full_power_sum, equipment_kinds. cbn [foldr].
    split.
    + eapply Qle_trans; [| apply py_max_upper]. lra.
    + apply py_max_mono. lra.
Qed.

(** ** Readings, field by field *)

(** The reading of a catalog room, spelled out: the power the model
    returned, the voltage drawn, and what the fields are made of. *)
Lemma get_room_data_reading room_id profile current_time w w1 :
  dict_get ROOM_CONFIG room_id = Some profile ->
  update_offline_rooms w = (Return tt, w1) ->
  exists power voltage draws,
    get_room_data room_id current_time w =
      (Return
         (mkReading room_id (round2 power) (round2 (power / voltage)) (round2 voltage)
            (negb (bool_decide (room_id ∈ OFFLINE_ROOMS w1)))
            (if negb (bool_decide (room_id ∈ OFFLINE_ROOMS w1)) then "ONLINE" else "OFFLINE")
            (SCHEDULES !! room_id ≫= course_code)
            (SCHEDULES !! room_id ≫= course_name)
            (match current_time with Some t => t | None => clock (clock_pos w1) end)),
       spend draws (Nat.pred (readings_per_room current_time)) w1) /\
    ((if negb (bool_decide (room_id ∈ OFFLINE_ROOMS w1)) then 100 else 10) <= power)%Q /\
    (215 <= voltage)%Q /\ (voltage <= 225)%Q.
Proof.
  intros Hget Hupd. unfold get_room_data.
  rewrite (bind_returns _ _ _ _ _ (is_room_active_after_update room_id w w1 Hupd)).
  set (is_active := negb (bool_decide (room_id ∈ OFFLINE_ROOMS w1))).
  destruct (calculate_room_power_returns room_id profile is_active w1 Hget)
    as (power & Hpower & Hfloor).
  rewrite (bind_returns _ _ _ _ _ Hpower).
  destruct (voltage_and_current_return power
              (spend (if is_active then 6 else 1) 0 w1)) as (Hv & Hc).
  rewrite (bind_returns _ _ _ _ _ Hv), (bind_returns _ _ _ _ _ (Hc _)).
  cbv zeta.
  destruct (uniform_range (- VOLTAGE_VARIATION) VOLTAGE_VARIATION
              (entropy (rng_pos (spend (if is_active then 6 else 1) 0 w1))))
    as [Hlo Hhi]; [discriminate |].
  eexists power, _, (1 + (if is_active then 6 else 1))%nat.
  split; [| split; [exact Hfloor |]].
  - destruct current_time as [t |]; cbn [or_now readings_per_room Nat.pred].
    + unfold bind, ret. rewrite spend_spend. reflexivity.
    + unfold bind, datetime_now, ret. rewrite !spend_spend.
      cbn [spend clock_pos]. rewrite !Nat.add_0_r. reflexivity.
  - unfold BASE_VOLTAGE, VOLTAGE_VARIATION in *. split; lra.
Qed.

(** X3: the reading [get_room_data] returns for a catalog room (in a catalog
    large enough to sample from) is well formed: it carries the room
    identifier, the status label says what the activity flag says, the power
    is at least 10 W and at least 100 W when the room is active, the voltage
    lies between 215 and 225 V, the current is positive, the course fields
    are those of the schedule entry and [None] without one, and a timestamp
    passed by the caller is the timestamp of the reading. *)
Theorem get_room_data_well_formed room_id profile current_time w :
  dict_get ROOM_CONFIG room_id = Some profile ->
  (6 <= length ROOM_CONFIG)%nat ->
  exists reading w',
    get_room_data room_id current_time w = (Return reading, w') /\
    rd_room_id reading = room_id /\
    rd_status reading = (if rd_is_active reading then "ONLINE" else "OFFLINE")%string /\
    (10 <= rd_power reading)%Q /\
    (rd_is_active reading = true -> (100 <= rd_power reading)%Q) /\
    (215 <= rd_voltage reading)%Q /\ (rd_voltage reading <= 225)%Q /\
    (0 < rd_current reading)%Q /\
    (SCHEDULES !! room_id = None ->
       rd_course_code reading = None /\ rd_course_name reading = None) /\
    (forall entry, SCHEDULES !! room_id = Some entry ->
       rd_course_code reading = course_code entry /\
       rd_course_name reading = course_name entry) /\
    (forall t, current_time = Some t -> rd_timestamp reading = t).
Proof.
  intros Hget Hsize.
  destruct (update_offline_rooms_cases w Hsize) as (w1 & Hupd & _).
  destruct (get_room_data_reading room_id profile current_time w w1 Hget Hupd)
    as (power & voltage & draws & Hrun & Hfloor & Hlo & Hhi).
  eexists. eexists. split; [exact Hrun |].
  cbn [rd_room_id rd_status rd_is_active rd_power rd_voltage rd_current
       rd_course_code rd_course_name rd_timestamp].
  assert (Hten : (10 <= power)%Q).
  { destruct (negb (bool_decide (room_id ∈ OFFLINE_ROOMS w1))); lra. }
  split; [reflexivity |]. split; [reflexivity |].
  split; [apply (Qle_trans _ (round2 10)); [discriminate | apply round2_mono, Hten] |].
  split.
  { intros Hactive. rewrite Hactive in Hfloor.
    apply (Qle_trans _ (round2 100)); [discriminate | apply round2_mono, Hfloor]. }
  split; [apply (Qle_trans _ (round2 215)); [discriminate | apply round2_mono, Hlo] |].
  split; [apply (Qle_trans _ (round2 225)); [apply round2_mono, Hhi | discriminate] |].
  split.
  { apply (Qlt_le_trans _ (round2 (10 # 225))); [reflexivity |].
    apply round2_mono, Qle_shift_div_l; lra. }
  split; [intros ->; split; reflexivity |].
  split; [intros entry ->; split; reflexivity |].
  intros t ->. reflexivity.
Qed.

(** ** The occupancy state over time *)

(** X4: the refresh stamp only moves forward, and by more than 600 seconds
    when it moves: whatever the clock shows and whatever the size of the
    catalog, a call of [update_offline_rooms] on a stamped state leaves the
    stamp as it was, together with the offline set, or sets it more than 600
    seconds later. *)
Theorem refresh_stamp_moves_forward w t :
  LAST_OFFLINE_UPDATE w = Some t ->
  exists t',
    LAST_OFFLINE_UPDATE (snd (update_offline_rooms w)) = Some t' /\
    ((t' = t /\ OFFLINE_ROOMS (snd (update_offline_rooms w)) = OFFLINE_ROOMS w) \/
     (seconds 600 < t' - t)%Z).
Proof.
  intros Hlast. destruct (refresh_due (LAST_OFFLINE_UPDATE w) (now w)) eqn:Hdue.
  - destruct (update_offline_rooms_due w Hdue) as (n & _ & _ & Hsmall & Hfits).
    destruct (Nat.lt_ge_cases (length ROOM_CONFIG) n) as [Hlt | Hge].
    + rewrite (Hsmall Hlt). exists t. split; [exact Hlast | left; split; reflexivity].
    + destruct (Hfits Hge) as (offline & draws & _ & Hrun & _). rewrite Hrun.
      exists (now w). split; [reflexivity | right].
      rewrite Hlast in Hdue. simpl in Hdue. apply Z.ltb_lt, Hdue.
  - rewrite (update_offline_rooms_idle w Hdue).
    exists t. split; [exact Hlast | left; split; reflexivity].
Qed.

Lemma dict_get_None_not_in {V} (d : list (string * V)) key :
  dict_get d key = None -> key ∉ map fst d.
Proof.
  intros Hnone Hin. destruct (dict_get_is_Some d key Hin) as [v Hv]. congruence.
Qed.

(** X5: [is_room_active] does not look the room up in the catalog: for an
    identifier that the catalog does not have it answers [True], because the
    offline rooms are always catalog rooms. *)
Theorem is_room_active_unknown_room room_id w :
  dict_get ROOM_CONFIG room_id = None ->
  (6 <= length ROOM_CONFIG)%nat ->
  OFFLINE_ROOMS w ⊆+ room_ids ->
  exists w', is_room_active room_id w = (Return true, w').
Proof.
  intros Hnone Hsize Hwf.
  destruct (update_offline_rooms_cases w Hsize) as (w1 & Hupd & _).
  destruct (stamp_after_check_spec w w1 Hsize Hwf Hupd) as (_ & Hwf1 & _).
  exists w1. rewrite (is_room_active_after_update room_id w w1 Hupd).
  rewrite bool_decide_eq_false_2; [reflexivity |].
  intros Hin. apply (dict_get_None_not_in _ _ Hnone).
  eapply elem_of_submseteq; eassumption.
Qed.

(** X6: once a query has been answered, exactly 5 or 6 catalog rooms are
    offline and all the others are active, and it stays so: from the module
    as imported, or from any state with 5 or 6 catalog rooms offline,
    [is_room_active] returns, leaves 5 or 6 distinct catalog rooms offline,
    leaves the other [n - 5] or [n - 6] rooms of the catalog active, and
    answers [True] exactly for the rooms that are not offline. *)
Theorem is_room_active_settles room_id w :
  NoDup room_ids ->
  (6 <= length ROOM_CONFIG)%nat ->
  LAST_OFFLINE_UPDATE w = None \/ settled w ->
  exists b w',
    is_room_active room_id w = (Return b, w') /\
    settled w' /\
    NoDup (OFFLINE_ROOMS w') /\
    (length (filter (fun r => r ∉ OFFLINE_ROOMS w') room_ids) + length (OFFLINE_ROOMS w') =
     length ROOM_CONFIG)%nat /\
    (b = true <-> room_id ∉ OFFLINE_ROOMS w').
Proof.
  intros Hnodup Hsize Hstart.
  destruct (update_offline_rooms_cases w Hsize) as (w1 & Hupd & _ & Hyes & Hidle).
  assert (Hsettled : settled w1).
  { destruct (refresh_due (LAST_OFFLINE_UPDATE w) (now w)) eqn:Hdue.
    - destruct (Hyes eq_refl) as (_ & Hlast & Hlen & Hsub).
      split; [exact Hlen | split; [exact Hsub | rewrite Hlast; eauto]].
    - destruct (Hidle eq_refl) as (_ & ->).
      destruct Hstart as [Hnone | Hs]; [rewrite Hnone in Hdue; discriminate | exact Hs]. }
  exists (negb (bool_decide (room_id ∈ OFFLINE_ROOMS w1))), w1.
  split; [apply is_room_active_after_update, Hupd |].
  split; [exact Hsettled |]. destruct Hsettled as (_ & Hsub & _).
  split; [eapply NoDup_of_submseteq; eassumption |].
  split; [rewrite <- length_room_ids; apply count_not_offline; assumption |].
  destruct (decide (room_id ∈ OFFLINE_ROOMS w1)) as [Hin | Hout].
  - rewrite bool_decide_eq_true_2 by exact Hin. simpl. split; [discriminate | tauto].
  - rewrite bool_decide_eq_false_2 by exact Hout. simpl. tauto.
Qed.

(** X7: a catalog of fewer than five rooms cannot be sampled from: whenever
    a refresh is due [update_offline_rooms] raises [ValueError] after the
    draw of the count and leaves the offline set and the stamp as they were,
    so the refresh stays due, and [is_room_active], [get_room_data] and, for
    a catalog that is not empty, [get_building_summary] raise with it. *)
Theorem update_offline_rooms_small_catalog w :
  (length ROOM_CONFIG < 5)%nat ->
  refresh_due (LAST_OFFLINE_UPDATE w) (now w) = true ->
  update_offline_rooms w = (Raise ValueError, spend 1 1 w) /\
  (forall room_id, is_room_active room_id w = (Raise ValueError, spend 1 1 w)) /\
  (forall room_id current_time,
     get_room_data room_id current_time w = (Raise ValueError, spend 1 1 w)) /\
  (forall current_time,
     ROOM_CONFIG <> [] ->
     get_building_summary current_time w = (Raise ValueError, spend 1 1 w)).
Proof.
  intros Hsmall Hdue.
  destruct (update_offline_rooms_due w Hdue) as (n & Hn & _ & Hraise & _).
  specialize (Hraise ltac:(lia)).
  assert (Hactive : forall room_id,
            is_room_active room_id w = (Raise ValueError, spend 1 1 w))
    by (intros room_id; apply bind_raises, Hraise).
  assert (Hdata : forall room_id current_time,
            get_room_data room_id current_time w = (Raise ValueError, spend 1 1 w))
    by (intros room_id current_time; apply bind_raises, Hactive).
  split; [exact Hraise |]. split; [exact Hactive |]. split; [exact Hdata |].
  intros current_time Hnonempty. unfold get_building_summary, room_ids.
  destruct ROOM_CONFIG as [| [room_id profile] rest]; [contradiction |].
  apply bind_raises. cbn [map fst summary_loop]. apply bind_raises, Hdata.
Qed.

(** ** The building summary, field by field *)

Lemma count_active_le_length (readings : list RoomReading) :
  (0 <= count_active readings <= Z.of_nat (length readings))%Z.
Proof. unfold count_active. pose proof (length_filter (fun r => rd_is_active r = true) readings). lia. Qed.

(** The loop adds up the powers of its readings; each of them is at least
    10 W and carries the timestamp the caller passed; they are the readings
    of the rooms visited, in order, each labelled as its flag says. *)
Lemma summary_loop_readings current_time ids :
  (6 <= length ROOM_CONFIG)%nat ->
  (forall r, r ∈ ids -> is_Some (dict_get ROOM_CONFIG r)) ->
  forall rooms total active w,
  exists readings total' active' w',
    summary_loop ids current_time rooms total active w =
      (Return (rooms ++ readings, total', active'), w') /\
    length readings = length ids /\
    (total' == total + sum_power readings)%Q /\
    active' = (active + count_active readings)%Z /\
    (10 * inject_Z (Z.of_nat (length readings)) <= sum_power readings)%Q /\
    (forall t, current_time = Some t ->
       Forall (fun reading => rd_timestamp reading = t) readings) /\
    map rd_room_id readings = ids /\
    Forall (fun reading =>
              (10 <= rd_power reading)%Q /\
              rd_status reading =
                (if rd_is_active reading then "ONLINE" else "OFFLINE")%string) readings.
Proof.
  intros Hsize. induction ids as [| r rest IH]; intros Hcat rooms total active w.
  - exists [], total, active, w.
    split; [| split; [| split; [| split; [| split; [| split; [| split]]]]]].
    + simpl. rewrite app_nil_r. reflexivity.
    + reflexivity.
    + simpl. ring.
    + unfold count_active. simpl. lia.
    + simpl. discriminate.
    + intros t _. constructor.
    + reflexivity.
    + constructor.
  - destruct (Hcat r) as [profile Hget]; [apply elem_of_cons; left; reflexivity |].
    destruct (update_offline_rooms_cases w Hsize) as (w1 & Hupd & _).
    destruct (get_room_data_reading r profile current_time w w1 Hget Hupd)
      as (power & voltage & draws & Hrun & Hfloor & _).
    match type of Hrun with _ = (Return ?rd, ?after) =>
      set (reading := rd) in *; set (w2 := after) in * end.
    assert (Hten : (10 <= rd_power reading)%Q).
    { apply (Qle_trans _ (round2 10)); [discriminate |]. apply round2_mono.
      destruct (negb (bool_decide (r ∈ OFFLINE_ROOMS w1))); lra. }
    destruct (IH (fun r' Hr' => Hcat r' (proj2 (elem_of_cons _ _ _) (or_intror Hr')))
                (rooms ++ [reading]) (total + rd_power reading)%Q
                (if rd_is_active reading then (active + 1)%Z else active) w2)
      as (readings & total' & active' & w' & Hloop & Hlen & Htotal & Hcount & Hsum & Hstamp &
          Hids & Hwf).
    exists (reading :: readings), total', active', w'.
    split; [| split; [| split; [| split; [| split; [| split; [| split]]]]]].
    + cbn [summary_loop]. rewrite (bind_returns _ _ _ _ _ Hrun), Hloop.
      rewrite <- app_assoc. reflexivity.
    + simpl. congruence.
    + rewrite Htotal. cbn [sum_power foldr]. fold (sum_power readings). ring.
    + rewrite Hcount. unfold count_active. rewrite filter_cons.
      destruct (rd_is_active reading); simpl; lia.
    + cbn [sum_power foldr length]. fold (sum_power readings).
      rewrite Nat2Z.inj_succ, <- Z.add_1_r, inject_Z_plus.
      change (inject_Z 1) with 1%Q. lra.
    + intros t Ht. constructor; [| apply Hstamp, Ht].
      subst current_time. reflexivity.
    + cbn [map]. rewrite Hids. reflexivity.
    + constructor; [| exact Hwf]. split; [exact Hten | reflexivity].
Qed.

Lemma or_now_value current_time w :
  or_now current_time w =
    (Return (match current_time with Some t => t | None => now w end),
     spend 0 (Nat.pred (readings_per_room current_time)) w).
Proof.
  destruct current_time as [t |]; simpl; [| reflexivity].
  unfold ret. rewrite spend_0. reflexivity.
Qed.

(** X8: what [get_building_summary] reports adds up: [total_power] is the
    sum of the powers of the readings, rounded to two decimals, and at least
    10 W per room; [active_rooms] lies between 0 and [total_rooms]; and when
    the caller passes a timestamp, the summary and every reading carry that
    timestamp. *)
Theorem get_building_summary_totals current_time w :
  (6 <= length ROOM_CONFIG)%nat ->
  exists summary w',
    get_building_summary current_time w = (Return summary, w') /\
    bs_total_power summary = round2 (sum_power (bs_rooms summary)) /\
    (10 * inject_Z (Z.of_nat (bs_total_rooms summary)) <= bs_total_power summary)%Q /\
    (0 <= bs_active_rooms summary <= Z.of_nat (bs_total_rooms summary))%Z /\
    (forall t, current_time = Some t ->
       bs_timestamp summary = t /\
       Forall (fun reading => rd_timestamp reading = t) (bs_rooms summary)).
Proof.
  intros Hsize.
  assert (Hcat : forall r, r ∈ room_ids -> is_Some (dict_get ROOM_CONFIG r))
    by (intros r; apply dict_get_is_Some).
  destruct (summary_loop_readings current_time room_ids Hsize Hcat [] 0%Q 0%Z w)
    as (readings & total' & active' & w' & Hloop & Hlen & Htotal & Hcount & Hsum & Hstamp & _).
  rewrite length_room_ids in Hlen.
  unfold get_building_summary. rewrite (bind_returns _ _ _ _ _ Hloop).
  cbn [app]. rewrite (bind_returns _ _ _ _ _ (or_now_value current_time w')).
  eexists. eexists. split; [reflexivity |].
  assert (Hsame : (total' == sum_power readings)%Q) by (rewrite Htotal; ring).
  split; [| split; [| split]].
  - cbn [bs_total_power bs_rooms]. apply round2_comp, Hsame.
  - assert (Hint : (10 * inject_Z (Z.of_nat (length ROOM_CONFIG)) ==
                    (Z.of_nat (length ROOM_CONFIG) * 1000 # 100))%Q).
    { unfold Qeq, inject_Z. cbn [Qnum Qden Qmult]. lia. }
    assert (Hround : (10 * inject_Z (Z.of_nat (length ROOM_CONFIG)) <= round2 total')%Q).
    { rewrite Hint. unfold round2, Qle. cbn [Qnum Qden].
      assert (Hn : (Z.of_nat (length ROOM_CONFIG) * 1000 <= round_half_even (total' * 100))%Z).
      { rewrite <- (Qfloor_Z (Z.of_nat (length ROOM_CONFIG) * 1000)).
        eapply Z.le_trans; [| apply round_half_even_bounds].
        apply Qfloor_resp_le. rewrite Hsame, inject_Z_mult, <- Hlen.
        change (inject_Z 1000) with 1000%Q. lra. }
      lia. }
    exact Hround.
  - pose proof (count_active_le_length readings) as Hbound.
    cbn [bs_active_rooms bs_total_rooms]. lia.
  - intros t ->. cbn [bs_timestamp bs_rooms]. split; [reflexivity | apply Hstamp; reflexivity].
Qed.

(** X9: an empty catalog gives an empty summary, and nothing else happens:
    no reading, zero power, no room active or counted, no refresh of the
    offline set attempted and no draw made. *)
Theorem get_building_summary_empty_catalog current_time w :
  ROOM_CONFIG = [] ->
  exists summary w',
    get_building_summary current_time w = (Return summary, w') /\
    bs_rooms summary = [] /\
    (bs_total_power summary == 0)%Q /\
    bs_active_rooms summary = 0%Z /\
    bs_total_rooms summary = 0%nat /\
    occupancy w' = occupancy w /\
    rng_pos w' = rng_pos w.
Proof.
  intros Hempty. unfold get_building_summary, room_ids. rewrite Hempty.
  cbn [map summary_loop]. unfold bind at 1. unfold ret at 1.
  rewrite (bind_returns _ _ _ _ _ (or_now_value current_time w)).
  do 2 eexists. repeat split; reflexivity.
Qed.

(** ** The history, point by point *)

Lemma round2_floor_10 (power : Q) : (10 <= power)%Q -> (10 <= round2 power)%Q.
Proof.
  intros H. apply (Qle_trans _ (round2 10)); [discriminate | apply round2_mono, H].
Qed.

Lemma round2_current_positive (power voltage : Q) :
  (10 <= power)%Q -> (215 <= voltage)%Q -> (voltage <= 225)%Q ->
  (0 < round2 (power / voltage))%Q.
Proof.
  intros Hp Hlo Hhi. apply (Qlt_le_trans _ (round2 (10 # 225))); [reflexivity |].
  apply round2_mono, Qle_shift_div_l; lra.
Qed.

Lemma history_loop_step_point room_id profile current_time total_points n i acc w :
  dict_get ROOM_CONFIG room_id = Some profile ->
  representable (current_time - minutes (5 * (total_points - i))) = true ->
  exists point draws,
    history_loop room_id current_time total_points (S n) i acc w =
      history_loop room_id current_time total_points n (i + 1)%Z
        (acc ++ [point]) (spend draws 0 w) /\
    point_ok point.
Proof.
  intros Hget Hrange. cbn [history_loop]. cbv zeta.
  rewrite (bind_returns _ _ _ _ _ (datetime_sub_returns _ _ w Hrange)).
  unfold random_random at 1. unfold bind at 1. unfold bind at 1. unfold draw at 1.
  unfold ret at 1.
  set (is_active := if Qlt_le_dec (unit_of_bits (entropy (rng_pos w))) ACTIVE_SHARE
                    then true else false).
  destruct (calculate_room_power_returns room_id profile is_active (spend 1 0 w) Hget)
    as (power & Hpower & Hfloor).
  rewrite (bind_returns _ _ _ _ _ Hpower).
  destruct (voltage_and_current_return power
              (spend (if is_active then 6 else 1) 0 (spend 1 0 w))) as (Hv & Hc).
  rewrite (bind_returns _ _ _ _ _ Hv), (bind_returns _ _ _ _ _ (Hc _)).
  rewrite !spend_spend. do 2 eexists. split; [reflexivity |].
  unfold BASE_VOLTAGE, VOLTAGE_VARIATION.
  match goal with
  | |- context [unit_of_bits ?r] =>
      destruct (uniform_range (- (5)) 5 r) as [Hlo Hhi]; [discriminate |]
  end.
  assert (Hten : (10 <= power)%Q) by (destruct is_active; lra).
  unfold point_ok. cbn [hp_power hp_is_active hp_voltage hp_current].
  split; [apply round2_floor_10, Hten |].
  split.
  { intros Hactive. rewrite Hactive in Hfloor.
    apply (Qle_trans _ (round2 100)); [discriminate | apply round2_mono, Hfloor]. }
  split; [apply (Qle_trans _ (round2 215)); [discriminate | apply round2_mono; lra] |].
  split; [apply (Qle_trans _ (round2 225)); [apply round2_mono; lra | discriminate] |].
  apply round2_current_positive; [exact Hten | lra | lra].
Qed.

Lemma history_loop_points room_id profile current_time total_points n :
  dict_get ROOM_CONFIG room_id = Some profile ->
  forall i acc w,
  (forall j : nat, (j < n)%nat ->
     representable
       (current_time - minutes (5 * (total_points - (i + Z.of_nat j)))) = true) ->
  exists points draws,
    history_loop room_id current_time total_points n i acc w =
      (Return (acc ++ points), spend draws 0 w) /\
    Forall point_ok points.
Proof.
  intros Hget. induction n as [| n IH]; intros i acc w Hrange.
  - exists [], 0%nat. split; [| constructor].
    simpl. unfold ret. rewrite app_nil_r, spend_0. reflexivity.
  - destruct (history_loop_step_point room_id profile current_time total_points n i acc w
                Hget) as (point & d1 & Hstep & Hok).
    { specialize (Hrange 0%nat ltac:(lia)). rewrite Z.add_0_r in Hrange. exact Hrange. }
    destruct (IH (i + 1)%Z (acc ++ [point]) (spend d1 0 w)) as (rest & d2 & Hrun & Hrest).
    { intros j Hj. specialize (Hrange (S j) ltac:(lia)).
      replace (i + 1 + Z.of_nat j)%Z with (i + Z.of_nat (S j))%Z by lia. exact Hrange. }
    exists (point :: rest), (d2 + d1)%nat. split; [| constructor; assumption].
    rewrite Hstep, Hrun, spend_spend, <- app_assoc. reflexivity.
Qed.

Lemma history_slots_representable (t hours : Z) (j : nat) :
  (0 < hours)%Z ->
  representable t = true ->
  representable (t - minutes (hours * 60)) = true ->
  (j < Z.to_nat (hours * 60 / 5))%nat ->
  representable (t - minutes (5 * (hours * 60 / 5 - (0 + Z.of_nat j)))) = true.
Proof.
  intros Hhours Hnow Hback Hj.
  assert (Hspan : (5 * (hours * 60 / 5) <= hours * 60)%Z) by (apply Z.mul_div_le; lia).
  apply representable_iff in Hnow, Hback. apply representable_iff.
  unfold minutes, seconds in *. lia.
Qed.

Lemma twelve_points_an_hour (hours : Z) : (hours * 60 / 5 = 12 * hours)%Z.
Proof.
  replace (hours * 60)%Z with (12 * hours * 5)%Z by lia. apply Z.div_mul. discriminate.
Qed.

(** X10: every point of a history is plausible: its power is at least 10 W,
    and at least 100 W when the point is flagged active, its voltage lies
    between 215 and 225 V, and its current is positive. *)
Theorem generate_historical_data_plausible room_id profile hours w :
  dict_get ROOM_CONFIG room_id = Some profile ->
  (0 < hours)%Z ->
  representable (now w) = true ->
  representable (now w - minutes (hours * 60)) = true ->
  exists points w',
    generate_historical_data room_id hours w = (Return points, w') /\
    Forall point_ok points.
Proof.
  intros Hget Hhours Hnow Hback. unfold generate_historical_data.
  unfold bind at 1. unfold datetime_now at 1. cbv zeta. fold (now w).
  destruct (history_loop_points room_id profile (now w) (hours * 60 / 5)
              (Z.to_nat (hours * 60 / 5)) Hget 0%Z [] (spend 0 1 w))
    as (points & draws & Hrun & Hok).
  { intros j Hj. apply history_slots_representable; assumption. }
  exists points, (spend draws 0 (spend 0 1 w)). split; assumption.
Qed.

(** X11: a history covers exactly the [hours] hours before the time read:
    it has twelve points an hour, the first one stamped [hours] hours back,
    and every point is stamped between that instant and five minutes ago. *)
Theorem generate_historical_data_span room_id profile hours w :
  dict_get ROOM_CONFIG room_id = Some profile ->
  (0 < hours)%Z ->
  representable (now w) = true ->
  representable (now w - minutes (hours * 60)) = true ->
  exists points w',
    generate_historical_data room_id hours w = (Return points, w') /\
    Z.of_nat (length points) = (12 * hours)%Z /\
    (exists first, points !! 0%nat = Some first /\
       hp_timestamp first = strftime (now w - minutes (hours * 60))) /\
    (forall point, point ∈ points ->
       (strftime (now w - minutes (hours * 60)) <= hp_timestamp point
        <= strftime (now w - minutes 5))%Z).
Proof.
  intros Hget Hhours Hnow Hback. unfold generate_historical_data.
  unfold bind at 1. unfold datetime_now at 1. cbv zeta. fold (now w).
  destruct (history_loop_returns room_id profile (now w) (hours * 60 / 5)
              (Z.to_nat (hours * 60 / 5)) Hget 0%Z [] (spend 0 1 w))
    as (points & draws & Hrun & Hlen & Hts).
  { intros j Hj. apply history_slots_representable; assumption. }
  pose proof (twelve_points_an_hour hours) as Htwelve.
  assert (Hstamp : forall (j : nat) point, points !! j = Some point ->
            hp_timestamp point = (strftime (now w) - 300 * (12 * hours - Z.of_nat j))%Z).
  { intros j point Hj. rewrite (Hts j point Hj), strftime_back. lia. }
  assert (Hback_eq : strftime (now w - minutes (hours * 60)) =
                     (strftime (now w) - 300 * (12 * hours))%Z).
  { replace (hours * 60)%Z with (5 * (12 * hours))%Z by lia. apply strftime_back. }
  assert (Hlast_eq : strftime (now w - minutes 5) = (strftime (now w) - 300)%Z).
  { replace 5%Z with (5 * 1)%Z at 1 by reflexivity. rewrite strftime_back. lia. }
  exists points, (spend draws 0 (spend 0 1 w)).
  split; [exact Hrun |]. split; [lia |]. split.
  - destruct (lookup_lt_is_Some_2 points 0) as [first Hfirst]; [lia |].
    exists first. split; [exact Hfirst |].
    rewrite (Hstamp _ _ Hfirst), Hback_eq. lia.
  - intros point Hin. apply list_elem_of_lookup in Hin as [j Hj].
    pose proof (lookup_lt_Some _ _ _ Hj) as Hbound.
    rewrite (Hstamp _ _ Hj), Hback_eq, Hlast_eq. lia.
Qed.

(** X12: for a room the catalog does not have and a positive number of
    hours within the range of the calendar, [generate_historical_data]
    raises [KeyError] on its first point, after one reading of the clock and
    one draw, and leaves the occupancy state alone. *)
Theorem generate_historical_data_unknown_room room_id hours w :
  dict_get ROOM_CONFIG room_id = None ->
  (0 < hours)%Z ->
  representable (now w - minutes (hours * 60)) = true ->
  generate_historical_data room_id hours w = (Raise (KeyError room_id), spend 1 1 w).
Proof.
  intros Hnone Hhours Hback. unfold generate_historical_data.
  unfold bind at 1. unfold datetime_now at 1. cbv zeta. fold (now w).
  pose proof (twelve_points_an_hour hours) as Htwelve.
  destruct (Z.to_nat (hours * 60 / 5)) as [| n] eqn:Hn; [lia |].
  cbn [history_loop]. cbv zeta.
  replace (5 * (hours * 60 / 5 - 0))%Z with (hours * 60)%Z by lia.
  rewrite (bind_returns _ _ _ _ _ (datetime_sub_returns _ _ (spend 0 1 w) Hback)).
  unfold random_random at 1. unfold bind at 1. unfold bind at 1. unfold draw at 1.
  unfold ret at 1. unfold calculate_room_power.
  rewrite spend_spend.
  apply bind_raises, bind_raises, dict_item_missing, Hnone.
Qed.

(** ** Cost *)

(** X13: [calculate_daily_cost] prices the energy figure that
    [calculate_daily_energy] reports, not the exact one, and does so in
    binary64: for a catalog room it returns the float product of the rounded
    energy and 8.5, rounded to two decimals, that is the float of the
    hundredth nearest to that product; for any other room it raises the
    [KeyError] of the energy computation.  It changes nothing. *)
Theorem calculate_daily_cost_of_energy room_id w :
  (forall profile,
     dict_get ROOM_CONFIG room_id = Some profile ->
     exists kwh,
       calculate_daily_energy room_id w = (Return kwh, w) /\
       kwh = float_round2 (daily_energy_kwh profile) /\
       calculate_daily_cost room_id w = (Return (float_round2 (kwh * 8.5)), w) /\
       (is_finite (kwh * 8.5) = true ->
        exists n : Z,
          (0 <= n)%Z /\
          float_round2 (kwh * 8.5) =
            (if get_sign (kwh * 8.5)
             then (- to_float (n # 100))%float else to_float (n # 100)) /\
          (inject_Z n - (1 # 2) <= magnitude (kwh * 8.5) * 100)%Q /\
          (magnitude (kwh * 8.5) * 100 <= inject_Z n + (1 # 2))%Q)) /\
  (dict_get ROOM_CONFIG room_id = None ->
   calculate_daily_cost room_id w = (Raise (KeyError room_id), w)).
Proof.
  split.
  - intros profile Hget.
    pose proof (calculate_daily_energy_eq room_id profile w Hget) as Henergy.
    exists (float_round2 (daily_energy_kwh profile)).
    split; [exact Henergy |]. split; [reflexivity |]. split.
    + unfold calculate_daily_cost. rewrite (bind_returns _ _ _ _ _ Henergy). reflexivity.
    + apply float_round2_nearest.
  - intros Hnone. unfold calculate_daily_cost, calculate_daily_energy.
    apply bind_raises, bind_raises, dict_item_missing, Hnone.
Qed.

(** * The web application *)

(** ** The monitoring switches *)

Lemma monitoring_on_insert (rm : gmap string bool) (room_id r : string) (b : bool) :
  monitoring_on (<[room_id := b]> rm) r =
    if decide (room_id = r) then b else monitoring_on rm r.
Proof.
  unfold monitoring_on. destruct (decide (room_id = r)) as [-> | Hne].
  - rewrite lookup_insert_eq. reflexivity.
  - rewrite lookup_insert_ne by exact Hne. reflexivity.
Qed.

Lemma monitored_count_insert_fresh (rm : gmap string bool) (room_id : string) (b : bool) :
  rm !! room_id = None ->
  monitored_count (<[room_id := b]> rm) =
    ((if b then 1 else 0) + monitored_count rm)%nat.
Proof.
  intros Hfresh. unfold monitored_count.
  rewrite (map_to_list_insert rm room_id b Hfresh), filter_cons. cbn [snd].
  destruct b; [rewrite decide_True by reflexivity | rewrite decide_False by discriminate];
    reflexivity.
Qed.

Lemma monitored_count_delete (rm : gmap string bool) (room_id : string) (b : bool) :
  rm !! room_id = Some b ->
  monitored_count rm = ((if b then 1 else 0) + monitored_count (delete room_id rm))%nat.
Proof.
  intros Hhas. rewrite <- (monitored_count_insert_fresh _ room_id b) by apply lookup_delete_eq.
  rewrite insert_delete_eq, insert_id by exact Hhas. reflexivity.
Qed.

Lemma monitored_count_insert (rm : gmap string bool) (room_id : string) (b : bool) :
  monitored_count (<[room_id := b]> rm) =
    ((if b then 1 else 0) + monitored_count (delete room_id rm))%nat.
Proof.
  rewrite <- insert_delete_eq. apply monitored_count_insert_fresh, lookup_delete_eq.
Qed.

Lemma monitored_count_empty : monitored_count ∅ = 0%nat.
Proof. unfold monitored_count. rewrite map_to_list_empty. reflexivity. Qed.

Lemma filter_agree {A} (P1 P2 : A -> Prop) `{!forall x, Decision (P1 x)}
    `{!forall x, Decision (P2 x)} (l : list A) :
  (forall x, x ∈ l -> P1 x <-> P2 x) -> filter P1 l = filter P2 l.
Proof.
  induction l as [| x l IH]; intros Hiff; [reflexivity |].
  rewrite !filter_cons, IH by (intros y Hy; apply Hiff, elem_of_cons; right; exact Hy).
  pose proof (Hiff x ltac:(apply elem_of_cons; left; reflexivity)) as Hx.
  destruct (decide (P1 x)), (decide (P2 x)); tauto || reflexivity.
Qed.

(** The rooms of a list without repetition that are switched on by an entry
    of their own are counted among the monitored. *)
Lemma monitored_ids_le_count (rm : gmap string bool) (ids : list string) :
  NoDup ids ->
  (forall r, r ∈ ids -> is_Some (rm !! r)) ->
  (length (filter (fun r => monitoring_on rm r = true) ids) <= monitored_count rm)%nat.
Proof.
  intros Hnodup. revert rm. induction Hnodup as [| r rest Hnotin Hnodup IH]; intros rm Hreg.
  - simpl. lia.
  - destruct (Hreg r) as [b Hb]; [apply elem_of_cons; left; reflexivity |].
    rewrite (monitored_count_delete rm r b Hb), filter_cons.
    assert (Hrest : filter (fun r' => monitoring_on rm r' = true) rest =
                    filter (fun r' => monitoring_on (delete r rm) r' = true) rest).
    { apply filter_agree. intros r' Hr'.
      unfold monitoring_on. rewrite lookup_delete_ne; [reflexivity |].
      intros ->. contradiction. }
    rewrite Hrest.
    assert (Hle : (length (filter (fun r' => monitoring_on (delete r rm) r' = true) rest) <=
                   monitored_count (delete r rm))%nat).
    { apply IH. intros r' Hr'. rewrite lookup_delete_ne by (intros ->; contradiction).
      apply Hreg, elem_of_cons. right. exact Hr'. }
    assert (Hon : monitoring_on rm r = b) by (unfold monitoring_on; rewrite Hb; reflexivity).
    destruct b; [rewrite decide_True by exact Hon
                | rewrite decide_False by (rewrite Hon; discriminate)];
      simpl; lia.
Qed.

Lemma init_loop_lookup (ids : list string) :
  forall (rm : gmap string bool) (r : string),
    foldl (fun rm room_id => <[room_id := true]> rm) rm ids !! r =
      if decide (r ∈ ids) then Some true else rm !! r.
Proof.
  induction ids as [| room_id rest IH]; intros rm r.
  - rewrite decide_False by apply not_elem_of_nil. reflexivity.
  - cbn [foldl]. rewrite IH. destruct (decide (r ∈ rest)) as [Hin | Hout].
    + rewrite decide_True by (apply elem_of_cons; right; exact Hin). reflexivity.
    + destruct (decide (room_id = r)) as [-> | Hne].
      * rewrite lookup_insert_eq, decide_True by (apply elem_of_cons; left; reflexivity).
        reflexivity.
      * rewrite lookup_insert_ne by exact Hne.
        rewrite decide_False; [reflexivity |].
        intros [Heq | Hin]%elem_of_cons; [congruence | contradiction].
Qed.

Lemma init_loop_count (ids : list string) :
  NoDup ids ->
  forall rm : gmap string bool,
    (forall r, r ∈ ids -> rm !! r = None) ->
    monitored_count (foldl (fun rm room_id => <[room_id := true]> rm) rm ids) =
      (monitored_count rm + length ids)%nat.
Proof.
  induction 1 as [| room_id rest Hnotin Hnodup IH]; intros rm Hfresh.
  - simpl. lia.
  - cbn [foldl]. rewrite IH.
    + rewrite monitored_count_insert_fresh
        by (apply Hfresh, elem_of_cons; left; reflexivity).
      simpl. lia.
    + intros r Hr. rewrite lookup_insert_ne by (intros ->; contradiction).
      apply Hfresh, elem_of_cons. right. exact Hr.
Qed.

(** The rooms switched on, when the switches are exactly those of a list
    without repetition, are the rooms counted as monitored. *)
Lemma monitored_ids_count (ids : list string) :
  NoDup ids ->
  forall rm : gmap string bool,
    (forall r, is_Some (rm !! r) <-> r ∈ ids) ->
    length (filter (fun r => monitoring_on rm r = true) ids) = monitored_count rm.
Proof.
  induction 1 as [| r rest Hnotin Hnodup IH]; intros rm Hdom.
  - assert (Hempty : rm = ∅).
    { apply map_empty. intros r. apply eq_None_not_Some. rewrite Hdom.
      apply not_elem_of_nil. }
    rewrite Hempty, monitored_count_empty. reflexivity.
  - destruct (proj2 (Hdom r)) as [b Hb]; [apply elem_of_cons; left; reflexivity |].
    rewrite (monitored_count_delete rm r b Hb), filter_cons.
    assert (Hrest : filter (fun r' => monitoring_on rm r' = true) rest =
                    filter (fun r' => monitoring_on (delete r rm) r' = true) rest).
    { apply filter_agree. intros r' Hr'.
      unfold monitoring_on. rewrite lookup_delete_ne; [reflexivity |].
      intros ->. contradiction. }
    rewrite Hrest, <- (IH (delete r rm)).
    + assert (Hon : monitoring_on rm r = b)
        by (unfold monitoring_on; rewrite Hb; reflexivity).
      destruct b; [rewrite decide_True by exact Hon
                  | rewrite decide_False by (rewrite Hon; discriminate)];
        reflexivity.
    + intros r'. destruct (decide (r = r')) as [<- | Hne].
      * rewrite lookup_delete_eq. split; [intros [? ?]; discriminate | contradiction].
      * rewrite lookup_delete_ne by exact Hne. rewrite Hdom, elem_of_cons.
        split; [intros [? | ?]; [congruence | assumption] | tauto].
Qed.

(** X14: [init_room_monitoring] switches every catalog room on and touches
    no other entry; running it again changes nothing; and from the empty
    table of the module as imported, every room reads as monitored and the
    count of monitored rooms is the size of the catalog.  The global flag
    and the database are left alone. *)
Theorem init_room_monitoring_all_on app :
  NoDup room_ids ->
  (forall r, r ∈ room_ids ->
     ROOM_MONITORING (init_room_monitoring app) !! r = Some true) /\
  (forall r, r ∉ room_ids ->
     ROOM_MONITORING (init_room_monitoring app) !! r = ROOM_MONITORING app !! r) /\
  init_room_monitoring (init_room_monitoring app) = init_room_monitoring app /\
  MONITORING_ENABLED (init_room_monitoring app) = MONITORING_ENABLED app /\
  energy_readings (init_room_monitoring app) = energy_readings app /\
  (ROOM_MONITORING app = ∅ ->
   monitored_count (ROOM_MONITORING (init_room_monitoring app)) = length ROOM_CONFIG /\
   forall r, monitoring_on (ROOM_MONITORING (init_room_monitoring app)) r = true).
Proof.
  intros Hnodup. unfold init_room_monitoring. cbn [ROOM_MONITORING MONITORING_ENABLED energy_readings].
  split; [| split; [| split; [| split; [| split]]]].
  - intros r Hr. rewrite init_loop_lookup, decide_True by exact Hr. reflexivity.
  - intros r Hr. rewrite init_loop_lookup, decide_False by exact Hr. reflexivity.
  - f_equal. apply map_eq. intros r. rewrite !init_loop_lookup.
    destruct (decide (r ∈ room_ids)); reflexivity.
  - reflexivity.
  - reflexivity.
  - intros ->. split.
    + rewrite init_loop_count, monitored_count_empty, length_room_ids;
        [reflexivity | exact Hnodup | intros r _; apply lookup_empty].
    + intros r. unfold monitoring_on. rewrite init_loop_lookup.
      destruct (decide (r ∈ room_ids)); [reflexivity | rewrite lookup_empty; reflexivity].
Qed.

(** X15: the room toggle, for a catalog room, flips the switch of that room
    and of no other, leaves the global flag and the database alone, and
    answers with the new status and the count of the rooms then switched
    on: one more or one less than before when the room had an entry, and
    the same count as before when it had none, although the room, which
    read as monitored, is now switched off. *)
Theorem toggle_room_monitoring_flips app room_id profile :
  dict_get ROOM_CONFIG room_id = Some profile ->
  exists app',
    toggle_room_monitoring app room_id =
      (OK (negb (monitoring_on (ROOM_MONITORING app) room_id),
           monitored_count (ROOM_MONITORING app')), app') /\
    monitoring_on (ROOM_MONITORING app') room_id =
      negb (monitoring_on (ROOM_MONITORING app) room_id) /\
    (forall r, r <> room_id -> ROOM_MONITORING app' !! r = ROOM_MONITORING app !! r) /\
    MONITORING_ENABLED app' = MONITORING_ENABLED app /\
    energy_readings app' = energy_readings app /\
    (ROOM_MONITORING app !! room_id = Some true ->
     S (monitored_count (ROOM_MONITORING app')) = monitored_count (ROOM_MONITORING app)) /\
    (ROOM_MONITORING app !! room_id = Some false ->
     monitored_count (ROOM_MONITORING app') = S (monitored_count (ROOM_MONITORING app))) /\
    (ROOM_MONITORING app !! room_id = None ->
     monitoring_on (ROOM_MONITORING app') room_id = false /\
     monitored_count (ROOM_MONITORING app') = monitored_count (ROOM_MONITORING app)).
Proof.
  intros Hget. unfold toggle_room_monitoring. rewrite Hget. cbv zeta.
  exists (mkApp (MONITORING_ENABLED app)
            (<[room_id := negb (monitoring_on (ROOM_MONITORING app) room_id)]>
               (ROOM_MONITORING app))
            (energy_readings app)).
  split; [reflexivity |]. cbn [ROOM_MONITORING MONITORING_ENABLED energy_readings].
  split; [| split; [| split; [| split; [| split; [| split]]]]].
  - rewrite monitoring_on_insert, decide_True by reflexivity. reflexivity.
  - intros r Hne. apply lookup_insert_ne. congruence.
  - reflexivity.
  - reflexivity.
  - intros Hon. rewrite monitored_count_insert, (monitored_count_delete _ _ _ Hon).
    unfold monitoring_on. rewrite Hon. reflexivity.
  - intros Hoff. rewrite monitored_count_insert, (monitored_count_delete _ _ _ Hoff).
    unfold monitoring_on. rewrite Hoff. reflexivity.
  - intros Hnone. split.
    + rewrite monitoring_on_insert, decide_True by reflexivity.
      unfold monitoring_on. rewrite Hnone. reflexivity.
    + rewrite monitored_count_insert_fresh by exact Hnone.
      unfold monitoring_on. rewrite Hnone. reflexivity.
Qed.

(** X16: toggling a room twice gives every room the status it had, whatever
    the room identifier.  It gives back the very state of the application
    when the room is not in the catalog (both calls answer 404) or has an
    entry in the table, and in no other case: a catalog room without an
    entry is left with an entry that says ON. *)
Theorem toggle_room_monitoring_twice app room_id :
  (forall r,
     monitoring_on
       (ROOM_MONITORING
          (snd (toggle_room_monitoring (snd (toggle_room_monitoring app room_id)) room_id))) r =
     monitoring_on (ROOM_MONITORING app) r) /\
  (snd (toggle_room_monitoring (snd (toggle_room_monitoring app room_id)) room_id) = app <->
   dict_get ROOM_CONFIG room_id = None \/ is_Some (ROOM_MONITORING app !! room_id)) /\
  (ROOM_MONITORING app !! room_id = None ->
   is_Some (dict_get ROOM_CONFIG room_id) ->
   ROOM_MONITORING
     (snd (toggle_room_monitoring (snd (toggle_room_monitoring app room_id)) room_id))
     !! room_id = Some true).
Proof.
  unfold toggle_room_monitoring.
  destruct (dict_get ROOM_CONFIG room_id) as [profile |] eqn:Hget; cbv zeta; cbn [snd].
  - cbn [snd ROOM_MONITORING MONITORING_ENABLED energy_readings].
    rewrite monitoring_on_insert, decide_True by reflexivity.
    rewrite negb_involutive, insert_insert_eq. split; [| split].
    + intros r. rewrite monitoring_on_insert.
      destruct (decide (room_id = r)) as [<- |]; reflexivity.
    + split.
      * intros Hsame. right.
        apply (f_equal (fun a => ROOM_MONITORING a !! room_id)) in Hsame.
        cbn [ROOM_MONITORING] in Hsame. rewrite lookup_insert_eq in Hsame.
        rewrite <- Hsame. eexists. reflexivity.
      * intros [Hnone | [b Hb]]; [discriminate |].
        destruct app as [enabled rm table]. cbn in *. f_equal.
        unfold monitoring_on. rewrite Hb. cbn [default]. apply insert_id, Hb.
    + intros Hnone _. rewrite lookup_insert_eq. unfold monitoring_on.
      rewrite Hnone. reflexivity.
  - split; [reflexivity |]. split.
    + split; [intros _; left; reflexivity | reflexivity].
    + intros _ [profile Hsome]. discriminate.
Qed.

(** ** The recording job *)

Lemma record_rooms_eq (rm : gmap string bool) (current_time : Z) (rooms : list RoomReading) :
  forall inserted,
    record_rooms rm current_time rooms inserted =
      inserted ++
      map (row_of current_time)
        (filter (fun room => monitoring_on rm (rd_room_id room) = true) rooms).
Proof.
  induction rooms as [| room rest IH]; intros inserted.
  - simpl. rewrite app_nil_r. reflexivity.
  - cbn [record_rooms]. rewrite filter_cons.
    destruct (monitoring_on rm (rd_room_id room)) eqn:Hon.
    + rewrite decide_True by reflexivity. rewrite IH, <- app_assoc. reflexivity.
    + rewrite decide_False by discriminate. apply IH.
Qed.

Lemma filter_map_comm {A B} (f : A -> B) (P : B -> Prop) `{!forall y, Decision (P y)}
    (l : list A) :
  map f (filter (fun x => P (f x)) l) = filter P (map f l).
Proof.
  induction l as [| x l IH]; [reflexivity |].
  cbn [map]. rewrite !filter_cons.
  destruct (decide (P (f x))); cbn [map]; rewrite IH; reflexivity.
Qed.

Lemma recorded_room_ids (rm : gmap string bool) (current_time : Z)
    (rooms : list RoomReading) :
  map row_room_id
    (map (row_of current_time)
       (filter (fun room => monitoring_on rm (rd_room_id room) = true) rooms)) =
  filter (fun r => monitoring_on rm r = true) (map rd_room_id rooms).
Proof.
  rewrite <- (filter_map_comm rd_room_id (fun r => monitoring_on rm r = true)).
  rewrite map_map. reflexivity.
Qed.

(** X17: pausing stops the recording job and resuming undoes the pause: the
    global toggle answers with the flag negated and changes nothing else;
    while the flag is off [record_building_data] reads no clock, draws
    nothing, leaves the occupancy state and inserts no row; a second toggle
    gives back the state of the application. *)
Theorem record_building_data_paused app w :
  MONITORING_ENABLED app = true ->
  fst (toggle_monitoring app) = OK false /\
  ROOM_MONITORING (snd (toggle_monitoring app)) = ROOM_MONITORING app /\
  energy_readings (snd (toggle_monitoring app)) = energy_readings app /\
  record_building_data (snd (toggle_monitoring app)) w = (snd (toggle_monitoring app), w) /\
  toggle_monitoring (snd (toggle_monitoring app)) = (OK true, app).
Proof.
  intros Hon. destruct app as [enabled rm table]. cbn in Hon. subst enabled.
  repeat split.
Qed.

(** X18: with monitoring enabled and a catalog large enough to sample from,
    [record_building_data] appends to the table one row for each room whose
    switch reads on, in catalog order, and none for the others; every row
    carries the time read at the start of the call, the energy figure is the
    power over 1000, the power is at least 10 W and the scheduled flag is 1
    with status ONLINE or 0 with status OFFLINE.  The rows already in the
    table and the two globals stay as they were.  When the switches are
    exactly those of the catalog rooms, the number of rows is the count of
    monitored rooms that the job prints. *)
Theorem record_building_data_rows app w :
  MONITORING_ENABLED app = true ->
  (6 <= length ROOM_CONFIG)%nat ->
  exists rows w',
    record_building_data app w =
      (mkApp true (ROOM_MONITORING app) (energy_readings app ++ rows), w') /\
    map row_room_id rows =
      filter (fun r => monitoring_on (ROOM_MONITORING app) r = true) room_ids /\
    Forall (fun row =>
              row_timestamp row = now w /\
              row_kwh row = (row_power row / 1000)%Q /\
              (10 <= row_power row)%Q /\
              ((row_is_scheduled row = 1%Z /\ row_status row = "ONLINE"%string) \/
               (row_is_scheduled row = 0%Z /\ row_status row = "OFFLINE"%string))) rows /\
    (NoDup room_ids ->
     (forall r, is_Some (ROOM_MONITORING app !! r) <-> r ∈ room_ids) ->
     length rows = monitored_count (ROOM_MONITORING app)).
Proof.
  intros Hon Hsize.
  assert (Hcat : forall r, r ∈ room_ids -> is_Some (dict_get ROOM_CONFIG r))
    by (intros r; apply dict_get_is_Some).
  destruct (summary_loop_readings (Some (now w)) room_ids Hsize Hcat [] 0%Q 0%Z (spend 0 1 w))
    as (readings & total' & active' & w' & Hloop & _ & _ & _ & _ & Hstamp & Hids & Hwf).
  assert (Hnow : datetime_now w = (Return (now w), spend 0 1 w)) by reflexivity.
  assert (Hsum : get_building_summary (Some (now w)) (spend 0 1 w) =
                 (Return (mkSummary readings (round2 total') active' (length ROOM_CONFIG)
                            (now w)), w')).
  { unfold get_building_summary. rewrite (bind_returns _ _ _ _ _ Hloop). reflexivity. }
  unfold record_building_data. rewrite Hon. cbn [negb].
  rewrite (bind_returns _ _ _ _ _ Hnow), (bind_returns _ _ _ _ _ Hsum).
  unfold ret. cbn [bs_rooms]. rewrite record_rooms_eq. cbn [Datatypes.app].
  set (rows := map (row_of (now w))
                 (filter (fun room => monitoring_on (ROOM_MONITORING app) (rd_room_id room) = true)
                    readings)).
  exists rows, w'. split; [reflexivity |].
  assert (Hrows : map row_room_id rows =
                  filter (fun r => monitoring_on (ROOM_MONITORING app) r = true) room_ids).
  { unfold rows. rewrite recorded_room_ids, Hids. reflexivity. }
  split; [exact Hrows |]. split.
  - apply Forall_forall. intros row Hrow.
    apply list_elem_of_fmap in Hrow as (room & -> & Hroom).
    apply list_elem_of_filter in Hroom as [_ Hroom].
    rewrite Forall_forall in Hwf. destruct (Hwf room Hroom) as [Hten Hstatus].
    cbn [row_of row_timestamp row_kwh row_power row_is_scheduled row_status].
    split; [reflexivity |]. split; [reflexivity |]. split; [exact Hten |].
    rewrite Hstatus. destruct (rd_is_active room); [left | right]; split; reflexivity.
  - intros Hnodup Hdom. rewrite <- (monitored_ids_count room_ids Hnodup _ Hdom), <- Hrows.
    symmetry. apply length_map.
Qed.

(** X19: the job swallows the failure of the simulation.  In a catalog of
    one to four rooms, when a refresh of the offline set is due at the
    first occupancy check, the summary raises [ValueError]; the job catches
    it, so the call ends normally with no row inserted, the globals and the
    occupancy state as they were, two readings of the clock and one draw
    spent. *)
Theorem record_building_data_failure app w :
  MONITORING_ENABLED app = true ->
  (length ROOM_CONFIG < 5)%nat ->
  ROOM_CONFIG <> [] ->
  refresh_due (LAST_OFFLINE_UPDATE w) (now (spend 0 1 w)) = true ->
  record_building_data app w = (app, spend 1 2 w).
Proof.
  intros Hon Hsmall Hnonempty Hdue.
  destruct (update_offline_rooms_due (spend 0 1 w) Hdue) as (n & Hn & _ & Hraise & _).
  specialize (Hraise ltac:(lia)). rewrite spend_spend in Hraise. cbn [Nat.add] in Hraise.
  assert (Hnow : datetime_now w = (Return (now w), spend 0 1 w)) by reflexivity.
  assert (Hrun : get_building_summary (Some (now w)) (spend 0 1 w) =
                 (Raise ValueError, spend 1 2 w)).
  { unfold get_building_summary, room_ids.
    destruct ROOM_CONFIG as [| [room_id profile] rest]; [contradiction |].
    apply bind_raises. cbn [map fst summary_loop].
    apply bind_raises, bind_raises, bind_raises, Hraise. }
  unfold record_building_data. rewrite Hon. cbn [negb].
  rewrite (bind_returns _ _ _ _ _ Hnow), (bind_raises _ _ _ _ _ Hrun). reflexivity.
Qed.

(** ** The endpoints *)

(** X20: every endpoint that takes a room answers 404 for an identifier the
    catalog does not have, before anything else happens: no clock reading,
    no draw, no change of the occupancy state or of the switches.  This is
    the check that keeps the [KeyError] of the simulation functions away
    from the endpoints. *)
Theorem unknown_room_not_found app room_id w :
  dict_get ROOM_CONFIG room_id = None ->
  get_room_status app room_id w = (NotFound, w) /\
  (forall hours_arg, get_room_history room_id hours_arg w = (NotFound, w)) /\
  app_get_room_schedule room_id w = (NotFound, w) /\
  app_get_room_config room_id w = (NotFound, w) /\
  toggle_room_monitoring app room_id = (NotFound, app).
Proof.
  intros Hnone.
  unfold get_room_status, get_room_history, app_get_room_schedule, app_get_room_config,
    toggle_room_monitoring, respond.
  rewrite Hnone. repeat split.
Qed.

(** X21: for a catalog room the configuration endpoint answers 200 with the
    profile of the catalog; the schedule endpoint answers 200 with the three
    fields of the schedule entry when the room has one, and 500 when it has
    none, because [.get] is called on the [None] that
    [simulate_data.get_room_schedule] returned.  Neither changes anything. *)
Theorem schedule_and_config_answers room_id profile w :
  dict_get ROOM_CONFIG room_id = Some profile ->
  app_get_room_config room_id w = (OK (room_id, profile), w) /\
  (forall entry,
     SCHEDULES !! room_id = Some entry ->
     app_get_room_schedule room_id w =
       (OK (mkRoomSchedule room_id (course_code entry) (course_name entry)
              (schedule entry)), w)) /\
  (SCHEDULES !! room_id = None ->
   app_get_room_schedule room_id w = (ServerError AttributeError, w)).
Proof.
  intros Hget.
  unfold app_get_room_config, app_get_room_schedule, get_room_config, get_room_schedule, ret.
  rewrite Hget. split; [reflexivity |].
  split; [intros entry -> | intros ->]; reflexivity.
Qed.

(** X22: what the history endpoint answers for a catalog room, with [hours]
    the query parameter, 24 when the request has none: for [hours <= 0] an
    empty history of 0 points; for a positive [hours] within the range of
    the calendar 200 with [12 * hours] points, [data_points] being the
    length of the data (288 by default), the occupancy state untouched; and
    500 with the [OverflowError] of the date arithmetic when [hours] reaches
    back before the first instant of the calendar. *)
Theorem get_room_history_answers room_id profile hours_arg w :
  dict_get ROOM_CONFIG room_id = Some profile ->
  ((default 24%Z hours_arg <= 0)%Z ->
   get_room_history room_id hours_arg w = (OK (mkRoomHistory room_id 0 []), spend 0 1 w)) /\
  ((0 < default 24%Z hours_arg)%Z ->
   representable (now w) = true ->
   representable (now w - minutes (default 24%Z hours_arg * 60)) = true ->
   exists data w',
     get_room_history room_id hours_arg w =
       (OK (mkRoomHistory room_id (length data) data), w') /\
     Z.of_nat (length data) = (12 * default 24%Z hours_arg)%Z /\
     occupancy w' = occupancy w) /\
  ((0 < default 24%Z hours_arg)%Z ->
   representable (now w - minutes (default 24%Z hours_arg * 60)) = false ->
   get_room_history room_id hours_arg w =
     (ServerError (CoreError OverflowError), spend 0 1 w)).
Proof.
  intros Hget. unfold get_room_history, respond. rewrite Hget. cbv zeta.
  set (hours := default 24%Z hours_arg).
  pose proof (twelve_points_an_hour hours) as Htwelve.
  assert (Hnow : datetime_now w = (Return (now w), spend 0 1 w)) by reflexivity.
  assert (Hgen : generate_historical_data room_id hours w =
                 history_loop room_id (now w) (hours * 60 / 5)
                   (Z.to_nat (hours * 60 / 5)) 0%Z [] (spend 0 1 w))
    by (unfold generate_historical_data; rewrite (bind_returns _ _ _ _ _ Hnow); reflexivity).
  split; [| split].
  - intros Hhours. replace (Z.to_nat (hours * 60 / 5)) with 0%nat in Hgen by lia.
    rewrite (bind_returns _ _ _ _ _ Hgen). reflexivity.
  - intros Hhours Hrep Hback.
    destruct (history_loop_returns room_id profile (now w) (hours * 60 / 5)
                (Z.to_nat (hours * 60 / 5)) Hget 0%Z [] (spend 0 1 w))
      as (points & draws & Hrun & Hlen & _).
    { intros j Hj. apply history_slots_representable; assumption. }
    rewrite Hrun in Hgen. cbn [Datatypes.app] in Hgen.
    exists points, (spend draws 0 (spend 0 1 w)).
    rewrite (bind_returns _ _ _ _ _ Hgen).
    split; [reflexivity |]. split; [lia | reflexivity].
  - intros Hhours Hback.
    assert (Hsucc : Z.to_nat (hours * 60 / 5) = S (Z.to_nat (hours * 60 / 5 - 1)))
      by (rewrite <- Z2Nat.inj_succ by lia; f_equal; lia).
    rewrite Hsucc, history_loop_overflow in Hgen.
    + rewrite (bind_raises _ _ _ _ _ Hgen). reflexivity.
    + replace (5 * (hours * 60 / 5 - 0))%Z with (hours * 60)%Z by lia. exact Hback.
Qed.

(** X23: for a catalog room, in a catalog large enough to sample from, the
    status endpoint answers 200.  Its reading is the one [get_room_data]
    gives, stamped with a reading of the clock of its own, taken after the
    one of the occupancy check; the energy and cost figures come on top and
    change nothing: the energy is the daily energy of the profile, rounded,
    and the cost is the float product of that figure and 8.5, rounded, both
    in binary64; the switch of the room is reported, and does not alter the
    reading. *)
Theorem get_room_status_answers app room_id profile w :
  dict_get ROOM_CONFIG room_id = Some profile ->
  (6 <= length ROOM_CONFIG)%nat ->
  exists status w',
    get_room_status app room_id w = (OK status, w') /\
    get_room_data room_id None w = (Return (rs_reading status), w') /\
    rd_room_id (rs_reading status) = room_id /\
    rd_timestamp (rs_reading status) = now (spend 0 1 w) /\
    clock_pos w' = (2 + clock_pos w)%nat /\
    rs_daily_energy status = float_round2 (daily_energy_kwh profile) /\
    rs_daily_cost status = float_round2 (rs_daily_energy status * 8.5) /\
    rs_monitoring_enabled status = monitoring_on (ROOM_MONITORING app) room_id.
Proof.
  intros Hget Hsize.
  destruct (update_offline_rooms_cases w Hsize) as (w1 & Hupd & Hpos & _).
  destruct (get_room_data_reading room_id profile None w w1 Hget Hupd)
    as (power & voltage & draws & Hrun & _).
  unfold get_room_status, respond. rewrite Hget.
  rewrite (bind_returns _ _ _ _ _ Hrun).
  rewrite (bind_returns _ _ _ _ _ (calculate_daily_energy_eq room_id profile _ Hget)).
  unfold calculate_daily_cost.
  rewrite (bind_returns _ _ _ _ _
             (bind_returns _ _ _ _ _ (calculate_daily_energy_eq room_id profile _ Hget))).
  unfold ret. do 2 eexists. split; [reflexivity |].
  cbn [rs_reading rs_daily_energy rs_daily_cost rs_monitoring_enabled rd_room_id
       rd_timestamp readings_per_room Nat.pred spend clock_pos].
  split; [exact Hrun |]. split; [reflexivity |].
  split; [unfold now; cbn [spend clock_pos]; rewrite Hpos; reflexivity |].
  split; [rewrite Hpos; reflexivity |]. repeat split.
Qed.

(** X24: the two status endpoints turn the failure of the simulation into a
    500.  In a catalog of fewer than five rooms, when a refresh of the
    offline set is due, the room status of any catalog room and, for a
    catalog that is not empty, the building status answer 500 with the
    [ValueError] of the sampling, after one reading of the clock and one
    draw, the occupancy state as it was. *)
Theorem status_endpoints_small_catalog app w :
  (length ROOM_CONFIG < 5)%nat ->
  refresh_due (LAST_OFFLINE_UPDATE w) (now w) = true ->
  (forall room_id profile,
     dict_get ROOM_CONFIG room_id = Some profile ->
     get_room_status app room_id w = (ServerError (CoreError ValueError), spend 1 1 w)) /\
  (ROOM_CONFIG <> [] ->
   get_building_status app w = (ServerError (CoreError ValueError), spend 1 1 w)).
Proof.
  intros Hsmall Hdue.
  destruct (update_offline_rooms_due w Hdue) as (n & Hn & _ & Hraise & _).
  specialize (Hraise ltac:(lia)).
  assert (Hdata : forall room_id current_time,
            get_room_data room_id current_time w = (Raise ValueError, spend 1 1 w))
    by (intros room_id current_time; apply bind_raises, bind_raises, Hraise).
  split.
  - intros room_id profile Hget. unfold get_room_status, respond. rewrite Hget.
    rewrite (bind_raises _ _ _ _ _ (Hdata room_id None)). reflexivity.
  - intros Hnonempty.
    assert (Hsum : get_building_summary None w = (Raise ValueError, spend 1 1 w)).
    { unfold get_building_summary, room_ids.
      destruct ROOM_CONFIG as [| [room_id profile] rest]; [contradiction |].
      apply bind_raises. cbn [map fst summary_loop]. apply bind_raises, Hdata. }
    unfold get_building_status, respond. cbv zeta.
    rewrite (bind_raises _ _ _ _ _ Hsum). reflexivity.
Qed.

(** The energy loop returns for catalog rooms, changes nothing, and adds
    nothing when every room it visits is switched off. *)
Lemma total_daily_energy_returns (rm : gmap string bool) (ids : list string) :
  (forall r, r ∈ ids -> is_Some (dict_get ROOM_CONFIG r)) ->
  forall total w,
  exists total',
    total_daily_energy rm ids total w = (Return total', w) /\
    ((forall r, r ∈ ids -> monitoring_on rm r = false) -> total' = total).
Proof.
  induction ids as [| r rest IH]; intros Hcat total w.
  - exists total. split; reflexivity.
  - assert (Hrest : forall r', r' ∈ rest -> is_Some (dict_get ROOM_CONFIG r'))
      by (intros r' Hr'; apply Hcat, elem_of_cons; right; exact Hr').
    cbn [total_daily_energy]. destruct (monitoring_on rm r) eqn:Hon.
    + destruct (Hcat r) as [profile Hget]; [apply elem_of_cons; left; reflexivity |].
      rewrite (bind_returns _ _ _ _ _ (calculate_daily_energy_eq r profile w Hget)).
      destruct (IH Hrest (total + float_round2 (daily_energy_kwh profile))%float w)
        as (total' & Hrun & _).
      exists total'. split; [exact Hrun |].
      intros Hoff. specialize (Hoff r ltac:(apply elem_of_cons; left; reflexivity)).
      congruence.
    + destruct (IH Hrest total w) as (total' & Hrun & Hsame).
      exists total'. split; [exact Hrun |].
      intros Hoff. apply Hsame. intros r' Hr'. apply Hoff, elem_of_cons. right. exact Hr'.
Qed.

(** X25: in a catalog large enough to sample from, the building status
    answers 200 with one room per catalog room, in catalog order, each
    paired with what its switch reads.  [total_power] is the rounded sum of
    the powers of all the rooms listed, whatever their switches say;
    [total_rooms] is the count of switches on and [active_rooms] counts the
    rooms listed that are active with their switch on, so it never exceeds
    [total_rooms] when every catalog room has a switch;
    [total_rooms_building] is 40 whatever the size of the catalog.  The
    energy, the cost and the CO2 figure are all derived from one total,
    which is 0 when every catalog room is switched off. *)
Theorem get_building_status_counts app w :
  (6 <= length ROOM_CONFIG)%nat ->
  exists status w',
    get_building_status app w = (OK status, w') /\
    map (fun room => rd_room_id room.1) (st_rooms status) = room_ids /\
    Forall (fun room => room.2 = monitoring_on (ROOM_MONITORING app) (rd_room_id room.1))
      (st_rooms status) /\
    st_total_power status = round2 (sum_power (map fst (st_rooms status))) /\
    st_total_rooms status = monitored_count (ROOM_MONITORING app) /\
    st_active_rooms status =
      length (filter (fun room => rd_is_active room.1 = true /\ room.2 = true)
                (st_rooms status)) /\
    (NoDup room_ids ->
     (forall r, r ∈ room_ids -> is_Some (ROOM_MONITORING app !! r)) ->
     (st_active_rooms status <= st_total_rooms status)%nat) /\
    st_total_rooms_building status = 40%nat /\
    st_monitoring_enabled status = MONITORING_ENABLED app /\
    exists total_daily_kwh,
      st_daily_energy status = float_round2 total_daily_kwh /\
      st_daily_cost status = float_round2 (total_daily_kwh * 8.5) /\
      st_co2_saved status = calculate_co2_saved total_daily_kwh /\
      ((forall r, r ∈ room_ids -> monitoring_on (ROOM_MONITORING app) r = false) ->
       total_daily_kwh = 0%float).
Proof.
  intros Hsize.
  assert (Hcat : forall r, r ∈ room_ids -> is_Some (dict_get ROOM_CONFIG r))
    by (intros r; apply dict_get_is_Some).
  destruct (summary_loop_readings None room_ids Hsize Hcat [] 0%Q 0%Z w)
    as (readings & total' & active' & w' & Hloop & _ & Htotal & _ & _ & _ & Hids & _).
  assert (Hsum : get_building_summary None w =
                 (Return (mkSummary readings (round2 total') active' (length ROOM_CONFIG)
                            (now w')), spend 0 1 w')).
  { unfold get_building_summary. rewrite (bind_returns _ _ _ _ _ Hloop). reflexivity. }
  destruct (total_daily_energy_returns (ROOM_MONITORING app) room_ids Hcat 0%float
              (spend 0 1 w'))
    as (kwh & Henergy & Hoff).
  unfold get_building_status, respond. cbv zeta.
  rewrite (bind_returns _ _ _ _ _ Hsum), (bind_returns _ _ _ _ _ Henergy).
  unfold ret. cbn [bs_rooms bs_timestamp bs_total_power].
  set (rm := ROOM_MONITORING app) in *.
  set (pair_up := fun room : RoomReading => (room, monitoring_on rm (rd_room_id room))).
  do 2 eexists. split; [reflexivity |].
  cbn [st_rooms st_total_power st_total_rooms st_active_rooms st_total_rooms_building
       st_monitoring_enabled st_daily_energy st_daily_cost st_co2_saved].
  assert (Hfst : map fst (map pair_up readings) = readings)
    by (rewrite map_map; apply map_id).
  assert (Hactive :
    length (filter (fun room => rd_is_active room = true /\
                                monitoring_on rm (rd_room_id room) = true) readings) =
    length (filter (fun room : RoomReading * bool =>
                      rd_is_active room.1 = true /\ room.2 = true)
              (map pair_up readings))).
  { rewrite <- (filter_map_comm pair_up
                  (fun room : RoomReading * bool =>
                     rd_is_active room.1 = true /\ room.2 = true)).
    rewrite length_map. reflexivity. }
  split; [rewrite map_map; exact Hids |].
  split; [apply Forall_forall; intros room Hroom;
          apply list_elem_of_fmap in Hroom as (reading & -> & _); reflexivity |].
  split; [rewrite Hfst; apply round2_comp; rewrite Htotal; ring |].
  split; [reflexivity |]. split; [exact Hactive |]. split.
  { intros Hnodup Hreg.
    eapply Nat.le_trans; [| apply (monitored_ids_le_count rm room_ids Hnodup Hreg)].
    rewrite <- Hids, <- (filter_map_comm rd_room_id (fun r => monitoring_on rm r = true)).
    rewrite length_map.
    rewrite <- (list_filter_filter (fun room => rd_is_active room = true)
                  (fun room => monitoring_on rm (rd_room_id room) = true)).
    apply length_filter. }
  split; [reflexivity |]. split; [reflexivity |].
  exists kwh. repeat split. exact Hoff.
Qed.

(** ** The switches over the life of the application *)

Lemma dict_get_Some_in {V} (d : list (string * V)) key v :
  dict_get d key = Some v -> key ∈ map fst d.
Proof.
  induction d as [| [k v0] rest IH]; [discriminate |].
  cbn [dict_get map fst]. destruct (String.eqb k key) eqn:Heq.
  - intros _. apply String.eqb_eq in Heq as ->. apply elem_of_cons. left. reflexivity.
  - intros Hrest. apply elem_of_cons. right. apply IH, Hrest.
Qed.

(** X26: the switches stay those of the catalog.  After
    [init_room_monitoring] on the module as imported every catalog room has
    a switch and nothing else has, and neither a room toggle, for whatever
    identifier, nor the global toggle, nor a run of the recording job
    changes that; so with distinct catalog keys the count of monitored
    rooms is the number of catalog rooms whose switch reads on, and never
    exceeds the size of the catalog. *)
Theorem switches_stay_with_catalog (table : list Row) :
  switches_of_catalog (init_room_monitoring (initial_app table)) /\
  forall app,
    switches_of_catalog app ->
    (forall room_id, switches_of_catalog (snd (toggle_room_monitoring app room_id))) /\
    switches_of_catalog (snd (toggle_monitoring app)) /\
    (forall w, switches_of_catalog (fst (record_building_data app w))) /\
    (NoDup room_ids ->
     monitored_count (ROOM_MONITORING app) =
       length (filter (fun r => monitoring_on (ROOM_MONITORING app) r = true) room_ids) /\
     (monitored_count (ROOM_MONITORING app) <= length ROOM_CONFIG)%nat).
Proof.
  split.
  - intros r. unfold init_room_monitoring, initial_app. cbn [ROOM_MONITORING].
    rewrite init_loop_lookup. destruct (decide (r ∈ room_ids)) as [Hin | Hout].
    + split; [intros _; exact Hin | intros _; eexists; reflexivity].
    + rewrite lookup_empty. split; [intros [? ?]; discriminate | contradiction].
  - intros app Hinv. split; [| split; [| split]].
    + intros room_id r. unfold toggle_room_monitoring.
      destruct (dict_get ROOM_CONFIG room_id) as [profile |] eqn:Hget; cbv zeta;
        cbn [snd ROOM_MONITORING]; [| apply Hinv].
      destruct (decide (room_id = r)) as [<- | Hne].
      * rewrite lookup_insert_eq. split; [intros _ | intros _; eexists; reflexivity].
        eapply dict_get_Some_in, Hget.
      * rewrite lookup_insert_ne by exact Hne. apply Hinv.
    + exact Hinv.
    + intros w r. unfold record_building_data.
      destruct (negb (MONITORING_ENABLED app)); [apply Hinv |].
      destruct (bind _ _ w) as [[[current_time building_summary] | e] w']; apply Hinv.
    + intros Hnodup.
      rewrite <- (monitored_ids_count room_ids Hnodup (ROOM_MONITORING app) Hinv).
      split; [reflexivity |]. rewrite <- length_room_ids. apply length_filter.
Qed.

End Simulation.

(** * The properties at concrete inputs *)

Lemma sample_catalog_distinct : NoDup (room_ids sample_catalog).
Proof. apply (bool_decide_unpack _). vm_compute. exact I. Qed.

Lemma sample_catalog_size : (6 <= length sample_catalog)%nat.
Proof. simpl. lia. Qed.

(** Room 101 of the sample catalog, from the module as imported. *)
Lemma calculate_room_power_floor_witness :
  dict_get sample_catalog "101" = Some R1 /\
  (exists p w',
     calculate_room_power sample_catalog sample_entropy "101" false initial_world =
       (Return p, w') /\ (10 <= p)%Q) /\
  (exists p w',
     calculate_room_power sample_catalog sample_entropy "101" true initial_world =
       (Return p, w') /\ (100 <= p)%Q).
Proof.
  split; [reflexivity |].
  apply (calculate_room_power_floor sample_catalog sample_entropy "101" R1 initial_world).
  reflexivity.
Defined.

(** The first refresh of the sample catalog. *)
Lemma update_offline_rooms_sample_witness :
  exists w',
    update_offline_rooms sample_catalog still_clock sample_entropy initial_world =
      (Return tt, w') /\
    (length (OFFLINE_ROOMS w') = 5 \/ length (OFFLINE_ROOMS w') = 6)%nat /\
    (forall room_id, room_id ∈ OFFLINE_ROOMS w' -> room_id ∈ room_ids sample_catalog) /\
    NoDup (OFFLINE_ROOMS w').
Proof.
  destruct (update_offline_rooms_sample sample_catalog still_clock sample_entropy
              initial_world sample_catalog_distinct eq_refl) as (Hsample & Hruns).
  destruct (Hruns sample_catalog_size) as (w' & Hrun).
  exists w'. split; [exact Hrun | apply Hsample, Hrun].
Defined.

(** Two queries for room 101 of the sample catalog. *)
Lemma refresh_only_when_due_witness :
  (6 <= length sample_catalog)%nat /\
  exists b1 w1,
    is_room_active sample_catalog still_clock sample_entropy "101" initial_world =
      (Return b1, w1) /\
    forall w2, occupancy w2 = occupancy w1 ->
      exists b2 w3,
        is_room_active sample_catalog still_clock sample_entropy "101" w2 =
          (Return b2, w3) /\
        (~ recomputed sample_catalog still_clock sample_entropy w2 w3 -> b2 = b1) /\
        (recomputed sample_catalog still_clock sample_entropy initial_world w1 ->
         (now still_clock w2 - now still_clock initial_world <= seconds 600)%Z ->
         b2 = b1).
Proof.
  split; [exact sample_catalog_size |].
  apply (refresh_only_when_due sample_catalog still_clock sample_entropy "101"
           initial_world sample_catalog_size).
Defined.


(** C4: a run of the code on which the tally of the claim fails.  The
    sample catalog, from the module as imported, with the draws 0, 1, 2, ...:
    a first summary refreshes the offline set at noon to 102, 103, 104, 101
    and 106.  During a second summary the clock passes 600 seconds between
    the readings of rooms 102 and 103, so the set is replaced in the middle
    of the loop, by 101, 107, 103, 105 and 106.  Rooms 101 and 102 were
    counted against the old set, the others against the new one: room 104
    alone is counted active, five rooms are offline afterwards, and the
    catalog has seven. *)
Lemma get_building_summary_mid_loop_refresh :
  exists summary1 w1 summary2 w2,
    get_building_summary sample_catalog ∅ crossing_clock sample_entropy None
      initial_world = (Return summary1, w1) /\
    OFFLINE_ROOMS w1 = ["102"; "103"; "104"; "101"; "106"]%string /\
    get_building_summary sample_catalog ∅ crossing_clock sample_entropy None w1 =
      (Return summary2, w2) /\
    map rd_is_active (bs_rooms summary2) =
      [false; false; false; true; false; false; false] /\
    OFFLINE_ROOMS w2 = ["101"; "107"; "103"; "105"; "106"]%string /\
    bs_active_rooms summary2 = 1%Z /\
    bs_total_rooms summary2 = 7%nat /\
    (bs_active_rooms summary2 + Z.of_nat (length (OFFLINE_ROOMS w2)) <>
     Z.of_nat (bs_total_rooms summary2))%Z.
Proof.
  do 4 eexists. split; [vm_compute; reflexivity |].
  split; [reflexivity |]. split; [vm_compute; reflexivity |].
  repeat (split; [reflexivity |]). discriminate.
Qed.

(** The scenario of the specification: the catalog with the room R1 alone.
    And where binary64 decides the hundredth: one light of 18.75 W makes
    0.165 kWh a day, which the code computes as a float just above it and
    rounds to 0.17. *)
Lemma calculate_daily_energy_deterministic_witness :
  dict_get scenario_catalog "R1" = Some R1 /\
  (forall w, calculate_daily_energy scenario_catalog "R1" w = (Return 18.74%float, w)) /\
  dict_get tie_catalog "202" = Some L1 /\
  (forall w, calculate_daily_energy tie_catalog "202" w = (Return 0.17%float, w)).
Proof.
  split; [reflexivity |]. split.
  - apply (calculate_daily_energy_deterministic scenario_catalog "R1" R1 eq_refl).
    intros k. split; reflexivity.
  - split; [reflexivity |]. intros w.
    destruct (calculate_daily_energy_deterministic tie_catalog "202" L1 eq_refl)
      as (Hvalue & _).
    rewrite Hvalue. vm_compute. reflexivity.
Defined.

(** C6, as the claim states it, fails: 18.74 * 0.71 is about 13.3054, which
    rounds to 13.31, and 13.31 is not 13.3. *)
Lemma calculate_co2_saved_scenario :
  calculate_co2_saved 18.74 = 13.31%float /\
  calculate_co2_saved 18.74 <> 13.3%float.
Proof.
  split; [vm_compute; reflexivity |].
  intros H. apply (f_equal Prim2SF) in H. vm_compute in H. discriminate.
Qed.

(** A day of history for room 101 of the sample catalog, asked for at
    noon. *)
Lemma generate_historical_data_points_witness :
  exists points w',
    generate_historical_data sample_catalog still_clock sample_entropy "101" 24
      initial_world = (Return points, w') /\
    length points = 288%nat /\
    (forall i a b, points !! i = Some a -> points !! S i = Some b ->
       (hp_timestamp b - hp_timestamp a = 5 * 60)%Z) /\
    (exists point, last points = Some point /\
       hp_timestamp point = strftime (noon - minutes 5)).
Proof.
  destruct (generate_historical_data_points sample_catalog still_clock sample_entropy
              "101" R1 24 initial_world eq_refl eq_refl eq_refl eq_refl)
    as (points & w' & Hrun & _ & Hlen & Hstep & _ & Hlast).
  exists points, w'. split; [exact Hrun |]. split; [apply Hlen; reflexivity |].
  split; [exact Hstep | exact Hlast].
Defined.

(** C7, as the claim states it, fails: asked at noon of 2026-11-05 for
    20,000,000 hours of history, the first slot lies more than 2281 years
    back, before the first instant a [datetime] can hold, and the subtraction
    raises [OverflowError]. *)
Lemma generate_historical_data_overflow :
  dict_get sample_catalog "101" = Some R1 /\
  (0 < 20000000)%Z /\
  generate_historical_data sample_catalog still_clock sample_entropy "101" 20000000
    initial_world = (Raise OverflowError, spend 0 1 initial_world).
Proof.
  split; [reflexivity | split; [reflexivity |]].
  unfold generate_historical_data, bind, datetime_now. cbv zeta.
  assert (Hn : Z.to_nat (20000000 * 60 / 5) = S (Z.to_nat 239999999)).
  { rewrite <- Z2Nat.inj_succ by lia. f_equal. }
  rewrite Hn. apply history_loop_overflow. reflexivity.
Qed.

(** Room 999 is not in the sample catalog. *)
Lemma unknown_room_results_witness :
  dict_get sample_catalog "999" = None /\
  get_room_config sample_catalog "999" initial_world = (Return None, initial_world) /\
  calculate_daily_energy sample_catalog "999" initial_world =
    (Raise (KeyError "999"), initial_world).
Proof.
  split; [reflexivity |].
  destruct (unknown_room_results sample_catalog ∅ still_clock sample_entropy "999"
              initial_world eq_refl) as (Hconfig & _ & _ & Henergy & _).
  split; assumption.
Defined.

(** C8, as the claim states it, fails: asked for the power, the daily energy
    or the reading of room 999, which the sample catalog does not have, the
    code raises [KeyError]. *)
Lemma unknown_room_raises :
  dict_get sample_catalog "999" = None /\
  calculate_room_power sample_catalog sample_entropy "999" true initial_world =
    (Raise (KeyError "999"), initial_world) /\
  calculate_daily_energy sample_catalog "999" initial_world =
    (Raise (KeyError "999"), initial_world) /\
  fst (get_room_data sample_catalog ∅ still_clock sample_entropy "999" None
         initial_world) = Raise (KeyError "999").
Proof. repeat split; vm_compute; reflexivity. Qed.

(** No hours, and a negative number of hours. *)
Lemma generate_historical_data_degenerate_witness :
  generate_historical_data sample_catalog still_clock sample_entropy "101" 0
    initial_world = (Return [], spend 0 1 initial_world) /\
  generate_historical_data sample_catalog still_clock sample_entropy "101" (-3)
    initial_world = (Return [], spend 0 1 initial_world).
Proof.
  split.
  - apply (generate_historical_data_degenerate sample_catalog still_clock
             sample_entropy "101" 0 initial_world). vm_compute. discriminate.
  - apply (generate_historical_data_degenerate sample_catalog still_clock
             sample_entropy "101" (-3) initial_world). vm_compute. discriminate.
Defined.

(** ** Further properties at concrete inputs *)

Lemma scenario_catalog_small : (length scenario_catalog < 5)%nat.
Proof. simpl. lia. Qed.

(** Room 101 of the sample catalog: standby near 130 W, active near 2130 W. *)
Lemma calculate_room_power_range_witness :
  dict_get sample_catalog "101" = Some R1 /\
  (exists p,
     calculate_room_power sample_catalog sample_entropy "101" false initial_world =
       (Return p, spend 1 0 initial_world) /\
     (standby_power_of R1 - 20 <= p)%Q /\
     (p <= py_max 10 (standby_power_of R1 + 20))%Q) /\
  (exists p,
     calculate_room_power sample_catalog sample_entropy "101" true initial_world =
       (Return p, spend 6 0 initial_world) /\
     ((85 # 100) * full_power_sum R1 - 20 <= p)%Q /\
     (p <= py_max 100 ((115 # 100) * full_power_sum R1 + 20))%Q).
Proof.
  split; [reflexivity |].
  apply (calculate_room_power_range sample_catalog sample_entropy "101" R1 initial_world
           eq_refl).
  intros k. destruct k; discriminate.
Defined.

(** The reading of room 101 at noon; the sample has no schedule for it. *)
Lemma get_room_data_well_formed_witness :
  exists reading w',
    get_room_data sample_catalog ∅ still_clock sample_entropy "101" (Some noon)
      initial_world = (Return reading, w') /\
    rd_room_id reading = "101"%string /\
    (10 <= rd_power reading)%Q /\
    (0 < rd_current reading)%Q /\
    rd_course_name reading = None /\
    rd_timestamp reading = noon.
Proof.
  destruct (get_room_data_well_formed sample_catalog ∅ still_clock sample_entropy "101" R1
              (Some noon) initial_world eq_refl sample_catalog_size)
    as (reading & w' & Hrun & Hid & _ & Hpower & _ & _ & _ & Hcurrent & Hnone & _ & Hstamp).
  exists reading, w'. split; [exact Hrun |]. split; [exact Hid |].
  split; [exact Hpower |]. split; [exact Hcurrent |].
  split; [apply Hnone, lookup_empty | apply Hstamp; reflexivity].
Defined.

(** A state stamped at noon, asked again at noon. *)
Lemma refresh_stamp_moves_forward_witness :
  exists t',
    LAST_OFFLINE_UPDATE
      (snd (update_offline_rooms sample_catalog still_clock sample_entropy
              (mkWorld [] (Some noon) 0 0))) = Some t' /\
    ((t' = noon /\
      OFFLINE_ROOMS
        (snd (update_offline_rooms sample_catalog still_clock sample_entropy
                (mkWorld [] (Some noon) 0 0))) = []) \/
     (seconds 600 < t' - noon)%Z).
Proof.
  apply (refresh_stamp_moves_forward sample_catalog still_clock sample_entropy
           (mkWorld [] (Some noon) 0 0) noon eq_refl).
Defined.

(** Room 999, which the sample catalog does not have, reads as active. *)
Lemma is_room_active_unknown_room_witness :
  exists w',
    is_room_active sample_catalog still_clock sample_entropy "999" initial_world =
      (Return true, w').
Proof.
  apply (is_room_active_unknown_room sample_catalog still_clock sample_entropy "999"
           initial_world eq_refl sample_catalog_size (submseteq_nil_l _)).
Defined.

(** The first query of the module as imported. *)
Lemma is_room_active_settles_witness :
  exists b w',
    is_room_active sample_catalog still_clock sample_entropy "101" initial_world =
      (Return b, w') /\
    settled sample_catalog w' /\
    (length (filter (fun r => r ∉ OFFLINE_ROOMS w') (room_ids sample_catalog)) +
     length (OFFLINE_ROOMS w') = 7)%nat.
Proof.
  destruct (is_room_active_settles sample_catalog still_clock sample_entropy "101"
              initial_world sample_catalog_distinct sample_catalog_size
              (or_introl eq_refl))
    as (b & w' & Hrun & Hsettled & _ & Hcount & _).
  exists b, w'. split; [exact Hrun |]. split; [exact Hsettled | exact Hcount].
Defined.

(** The scenario's catalog has one room: nothing can be sampled. *)
Lemma update_offline_rooms_small_catalog_witness :
  update_offline_rooms scenario_catalog still_clock sample_entropy initial_world =
    (Raise ValueError, spend 1 1 initial_world) /\
  get_building_summary scenario_catalog ∅ still_clock sample_entropy None initial_world =
    (Raise ValueError, spend 1 1 initial_world).
Proof.
  destruct (update_offline_rooms_small_catalog scenario_catalog ∅ still_clock
              sample_entropy initial_world scenario_catalog_small eq_refl)
    as (Hupdate & _ & _ & Hsummary).
  split; [exact Hupdate | apply Hsummary; discriminate].
Defined.

(** A summary of the sample catalog, stamped by the caller. *)
Lemma get_building_summary_totals_witness :
  exists summary w',
    get_building_summary sample_catalog ∅ still_clock sample_entropy (Some noon)
      initial_world = (Return summary, w') /\
    bs_total_power summary = round2 (sum_power (bs_rooms summary)) /\
    (0 <= bs_active_rooms summary <= Z.of_nat (bs_total_rooms summary))%Z /\
    bs_timestamp summary = noon.
Proof.
  destruct (get_building_summary_totals sample_catalog ∅ still_clock sample_entropy
              (Some noon) initial_world sample_catalog_size)
    as (summary & w' & Hrun & Htotal & _ & Hactive & Hstamp).
  exists summary, w'. split; [exact Hrun |]. split; [exact Htotal |].
  split; [exact Hactive | apply (Hstamp noon eq_refl)].
Defined.

(** No catalog at all. *)
Lemma get_building_summary_empty_catalog_witness :
  exists summary w',
    get_building_summary [] ∅ still_clock sample_entropy None initial_world =
      (Return summary, w') /\
    bs_rooms summary = [] /\
    (bs_total_power summary == 0)%Q /\
    bs_active_rooms summary = 0%Z /\
    bs_total_rooms summary = 0%nat /\
    occupancy w' = occupancy initial_world /\
    rng_pos w' = rng_pos initial_world.
Proof.
  apply (get_building_summary_empty_catalog [] ∅ still_clock sample_entropy None
           initial_world eq_refl).
Defined.

(** A day of history for room 101, asked for at noon. *)
Lemma generate_historical_data_plausible_witness :
  exists points w',
    generate_historical_data sample_catalog still_clock sample_entropy "101" 24
      initial_world = (Return points, w') /\
    Forall point_ok points.
Proof.
  apply (generate_historical_data_plausible sample_catalog still_clock sample_entropy
           "101" R1 24 initial_world eq_refl eq_refl eq_refl eq_refl).
Defined.

Lemma generate_historical_data_span_witness :
  exists points w',
    generate_historical_data sample_catalog still_clock sample_entropy "101" 24
      initial_world = (Return points, w') /\
    Z.of_nat (length points) = 288%Z /\
    (forall point, point ∈ points ->
       (strftime (noon - minutes (24 * 60)) <= hp_timestamp point
        <= strftime (noon - minutes 5))%Z).
Proof.
  destruct (generate_historical_data_span sample_catalog still_clock sample_entropy
              "101" R1 24 initial_world eq_refl eq_refl eq_refl eq_refl)
    as (points & w' & Hrun & Hlen & _ & Hbetween).
  exists points, w'. split; [exact Hrun |]. split; [exact Hlen | exact Hbetween].
Defined.

(** A day of history for room 999. *)
Lemma generate_historical_data_unknown_room_witness :
  generate_historical_data sample_catalog still_clock sample_entropy "999" 24
    initial_world = (Raise (KeyError "999"), spend 1 1 initial_world).
Proof.
  apply (generate_historical_data_unknown_room sample_catalog still_clock sample_entropy
           "999" 24 initial_world eq_refl eq_refl eq_refl).
Defined.

(** The cost of the room of 2190 W: 19.27 kWh at 8.5 is 163.79, the float
    product being just below 163.795; the scenario's room costs 159.29. *)
Lemma calculate_daily_cost_of_energy_witness :
  calculate_daily_cost tie_catalog "201" initial_world =
    (Return 163.79%float, initial_world) /\
  calculate_daily_cost scenario_catalog "R1" initial_world =
    (Return 159.29%float, initial_world).
Proof.
  destruct (calculate_daily_cost_of_energy tie_catalog "201" initial_world) as [Hknown _].
  destruct (Hknown R2 eq_refl) as (kwh & _ & Hkwh & Hcost & _).
  split.
  - rewrite Hcost, Hkwh. vm_compute. reflexivity.
  - vm_compute. reflexivity.
Defined.

(** The application as it starts on the sample catalog. *)
Lemma init_room_monitoring_all_on_witness :
  monitored_count (ROOM_MONITORING (init_room_monitoring sample_catalog (initial_app []))) =
    7%nat /\
  forall r,
    monitoring_on (ROOM_MONITORING (init_room_monitoring sample_catalog (initial_app []))) r =
      true.
Proof.
  destruct (init_room_monitoring_all_on sample_catalog (initial_app [])
              sample_catalog_distinct) as (_ & _ & _ & _ & _ & Hstart).
  apply Hstart. reflexivity.
Defined.

(** Switching room 101 off, right after the start. *)
Lemma toggle_room_monitoring_flips_witness :
  exists app',
    toggle_room_monitoring sample_catalog
      (init_room_monitoring sample_catalog (initial_app [])) "101" =
      (OK (negb (monitoring_on
                   (ROOM_MONITORING (init_room_monitoring sample_catalog (initial_app [])))
                   "101"),
           monitored_count (ROOM_MONITORING app')), app') /\
    monitoring_on (ROOM_MONITORING app') "101" =
      negb (monitoring_on
              (ROOM_MONITORING (init_room_monitoring sample_catalog (initial_app [])))
              "101").
Proof.
  destruct (toggle_room_monitoring_flips sample_catalog
              (init_room_monitoring sample_catalog (initial_app [])) "101" R1 eq_refl)
    as (app' & Hrun & Hflip & _).
  exists app'. split; [exact Hrun | exact Hflip].
Defined.

(** The job after a pause. *)
Lemma record_building_data_paused_witness :
  record_building_data sample_catalog ∅ still_clock sample_entropy
    (snd (toggle_monitoring (initial_app []))) initial_world =
    (snd (toggle_monitoring (initial_app [])), initial_world) /\
  toggle_monitoring (snd (toggle_monitoring (initial_app []))) = (OK true, initial_app []).
Proof.
  destruct (record_building_data_paused sample_catalog ∅ still_clock sample_entropy
              (initial_app []) initial_world eq_refl) as (_ & _ & _ & Hjob & Hback).
  split; [exact Hjob | exact Hback].
Defined.

(** The first run of the job on the sample catalog, into an empty table. *)
Lemma record_building_data_rows_witness :
  exists rows w',
    record_building_data sample_catalog ∅ still_clock sample_entropy (initial_app [])
      initial_world = (mkApp true ∅ ([] ++ rows), w') /\
    map row_room_id rows =
      filter (fun r => monitoring_on ∅ r = true) (room_ids sample_catalog) /\
    Forall (fun row => row_timestamp row = noon /\ (10 <= row_power row)%Q) rows.
Proof.
  destruct (record_building_data_rows sample_catalog ∅ still_clock sample_entropy
              (initial_app []) initial_world eq_refl sample_catalog_size)
    as (rows & w' & Hrun & Hids & Hrows & _).
  exists rows, w'. split; [exact Hrun |]. split; [exact Hids |].
  eapply Forall_impl; [exact Hrows |]. intros row (Hstamp & _ & Hpower & _).
  split; [exact Hstamp | exact Hpower].
Defined.

(** The job on the scenario's catalog of one room. *)
Lemma record_building_data_failure_witness :
  record_building_data scenario_catalog ∅ still_clock sample_entropy (initial_app [])
    initial_world = (initial_app [], spend 1 2 initial_world).
Proof.
  apply (record_building_data_failure scenario_catalog ∅ still_clock sample_entropy
           (initial_app []) initial_world eq_refl scenario_catalog_small);
    [discriminate | reflexivity].
Defined.

(** Room 999 at the endpoints. *)
Lemma unknown_room_not_found_witness :
  get_room_status sample_catalog ∅ still_clock sample_entropy (initial_app []) "999"
    initial_world = (NotFound, initial_world) /\
  get_room_history sample_catalog still_clock sample_entropy "999" None initial_world =
    (NotFound, initial_world) /\
  toggle_room_monitoring sample_catalog (initial_app []) "999" = (NotFound, initial_app []).
Proof.
  destruct (unknown_room_not_found sample_catalog ∅ still_clock sample_entropy
              (initial_app []) "999" initial_world eq_refl)
    as (Hstatus & Hhistory & _ & _ & Htoggle).
  split; [exact Hstatus |]. split; [apply Hhistory | exact Htoggle].
Defined.

(** Room 101, which has no schedule entry. *)
Lemma schedule_and_config_answers_witness :
  app_get_room_config sample_catalog "101" initial_world =
    (OK ("101"%string, R1), initial_world) /\
  app_get_room_schedule sample_catalog ∅ "101" initial_world =
    (ServerError AttributeError, initial_world).
Proof.
  destruct (schedule_and_config_answers sample_catalog ∅ "101" R1 initial_world eq_refl)
    as (Hconfig & _ & Hnone).
  split; [exact Hconfig | apply Hnone, lookup_empty].
Defined.

(** The history of room 101 without a query parameter. *)
Lemma get_room_history_answers_witness :
  exists data w',
    get_room_history sample_catalog still_clock sample_entropy "101" None initial_world =
      (OK (mkRoomHistory "101" (length data) data), w') /\
    Z.of_nat (length data) = 288%Z.
Proof.
  destruct (get_room_history_answers sample_catalog still_clock sample_entropy "101" R1
              None initial_world eq_refl) as (_ & Hdata & _).
  destruct (Hdata eq_refl eq_refl eq_refl) as (data & w' & Hrun & Hlen & _).
  exists data, w'. split; [exact Hrun | exact Hlen].
Defined.

(** The status of room 201, the room of 2190 W: 19.27 kWh a day, and a cost
    of 163.79, the product 19.27 * 8.5 being a float just below 163.795. *)
Lemma get_room_status_answers_witness :
  exists status w',
    get_room_status tie_catalog ∅ still_clock sample_entropy (initial_app []) "201"
      initial_world = (OK status, w') /\
    rs_daily_energy status = 19.27%float /\
    rs_daily_cost status = 163.79%float.
Proof.
  destruct (get_room_status_answers tie_catalog ∅ still_clock sample_entropy
              (initial_app []) "201" R2 initial_world eq_refl ltac:(simpl; lia))
    as (status & w' & Hrun & _ & _ & _ & _ & Henergy & Hcost & _).
  exists status, w'. split; [exact Hrun |].
  rewrite Hcost, Henergy. split; vm_compute; reflexivity.
Defined.

(** The status endpoints on the scenario's catalog of one room. *)
Lemma status_endpoints_small_catalog_witness :
  get_room_status scenario_catalog ∅ still_clock sample_entropy (initial_app []) "R1"
    initial_world = (ServerError (CoreError ValueError), spend 1 1 initial_world) /\
  get_building_status scenario_catalog ∅ still_clock sample_entropy (initial_app [])
    initial_world = (ServerError (CoreError ValueError), spend 1 1 initial_world).
Proof.
  destruct (status_endpoints_small_catalog scenario_catalog ∅ still_clock sample_entropy
              (initial_app []) initial_world scenario_catalog_small eq_refl)
    as (Hroom & Hbuilding).
  split; [apply (Hroom "R1"%string R1 eq_refl) | apply Hbuilding; discriminate].
Defined.

(** The building status of the sample catalog, which has 7 rooms. *)
Lemma get_building_status_counts_witness :
  exists status w',
    get_building_status sample_catalog ∅ still_clock sample_entropy
      (init_room_monitoring sample_catalog (initial_app [])) initial_world =
      (OK status, w') /\
    map (fun room => rd_room_id room.1) (st_rooms status) = room_ids sample_catalog /\
    st_total_power status = round2 (sum_power (map fst (st_rooms status))) /\
    (st_active_rooms status <= st_total_rooms status)%nat /\
    st_total_rooms_building status = 40%nat.
Proof.
  destruct (get_building_status_counts sample_catalog ∅ still_clock sample_entropy
              (init_room_monitoring sample_catalog (initial_app [])) initial_world
              sample_catalog_size)
    as (status & w' & Hrun & Hids & _ & Hpower & _ & _ & Hle & Hforty & _).
  exists status, w'. split; [exact Hrun |]. split; [exact Hids |].
  split; [exact Hpower |]. split; [| exact Hforty].
  apply Hle; [exact sample_catalog_distinct |].
  intros r Hr. unfold init_room_monitoring. cbn [ROOM_MONITORING].
  rewrite init_loop_lookup, decide_True by exact Hr. eexists. reflexivity.
Defined.
